(** * Sentinel-2 scene selection, download and index scripts: a shallow embedding

    The Python scripts of the repository are embedded as Rocq functions:

    - [s2_stac_pick_cloudfree.py]  (module [Pick]):     scoring, escalation tiers, top-k selection;
    - [s2_make_indices.py]         (module [Indices]):  [safe_index], the SCL mask, the per-candidate step;
    - [s2_s3_download_rgb.py] and
      [s2_download_top3_and_compare.py] (module [Download]): [ensure_download] and the download stage;
    - [s2_make_compare_png.py]     (module [ComparePng]),
      [s2_download_top3_and_compare.py] (module [Top3Compare]),
      [s2_make_rgb.py]             (module [MakeRgb]):  the range of the visualisation stretch.

    Python floats and numpy [float32] values are IEEE-754 numbers, written with
    the Standard Library's [spec_float]; Python integers are [Z]; exceptions are
    explicit ([result]); the file system and the network are explicit state. *)

From Stdlib Require Import ZArith List Bool Lia Sorting.Permutation Sorting.Sorted.
From Stdlib Require Import Floats.SpecFloat.
From Stdlib Require Import Ascii String.
From stdpp Require Import gmap strings list.

Local Open Scope Z_scope.

(** ** Exceptions *)

Inductive exn : Type :=
  | ValueError
  | KeyError
  | OverflowError
  | RuntimeError
  | FileNotFoundError
  | RasterioIOError
  | ClientError.

Inductive result (A : Type) : Type :=
  | Ok (a : A)
  | Raise (e : exn).
Arguments Ok {A} a.
Arguments Raise {A} e.

#[global] Instance result_ret : MRet result := @Ok.
#[global] Instance result_bind : MBind result := fun A B k m =>
  match m with
  | Ok a => k a
  | Raise e => Raise e
  end.

(** A script runs against a world [S] (files, network, terminal): a
    computation returns a value or raises, and in both cases leaves the world
    it has reached. *)
Definition M (S A : Type) : Type := S -> result A * S.

#[global] Instance M_ret {S : Type} : MRet (M S) := fun A a s => (Ok a, s).
#[global] Instance M_bind {S : Type} : MBind (M S) := fun A B k m s =>
  match m s with
  | (Ok a, s') => k a s'
  | (Raise e, s') => (Raise e, s')
  end.

Definition raise {S A : Type} (e : exn) : M S A := fun s => (Raise e, s).
Definition get_world {S : Type} : M S S := fun s => (Ok s, s).
Definition modify {S : Type} (f : S -> S) : M S unit := fun s => (Ok tt, f s).

(** [for x in xs: body(x)] *)
Fixpoint for_each {S A : Type} (xs : list A) (body : A -> M S unit) : M S unit :=
  match xs with
  | [] => mret tt
  | x :: rest => _ ← body x; for_each rest body
  end.

(** A path is the list of its components; [p / name] appends one. The names
    the scripts append (a sensor, an item identifier, a file name) are taken
    to be plain names: a name that holds a separator, is [..] or is absolute
    would lead elsewhere, and is outside this embedding. *)
Abbreviation path := (list string).

(** Every character of [s] satisfies [f]. *)
Fixpoint all_chars (f : Ascii.ascii -> bool) (s : string) : bool :=
  match s with
  | EmptyString => true
  | String a rest => f a && all_chars f rest
  end.

(** ** IEEE-754 numbers *)

Module Float.

(** The infinities, the zeros and NaN are shared by both formats. *)
Definition nan : spec_float := S754_nan.
Definition inf : spec_float := S754_infinity false.

(** [math.isfinite] / [np.isfinite] *)
Definition isfinite (x : spec_float) : bool :=
  match x with
  | S754_zero _ | S754_finite _ _ _ => true
  | S754_infinity _ | S754_nan => false
  end.

Definition isnan (x : spec_float) : bool :=
  match x with
  | S754_nan => true
  | _ => false
  end.

(** [x == y], [x != y], [x < y], [x <= y], [x > y]: comparisons with a NaN
    are false, except [!=]. The order on the numbers does not depend on the
    format. *)
Definition eqb (x y : spec_float) : bool := SFeqb x y.
Definition neqb (x y : spec_float) : bool := negb (SFeqb x y).
Definition ltb (x y : spec_float) : bool := SFltb x y.
Definition leb (x y : spec_float) : bool := SFleb x y.
Definition gtb (x y : spec_float) : bool := SFltb y x.

End Float.

(** *** The order of the numbers

    Every number that is not a NaN has a rank in the lexicographic order of
    integer triples: its class, then its exponent, then its mantissa. *)
Definition rank (x : spec_float) : Z * Z * Z :=
  match x with
  | S754_zero _ => (0, 0, 0)
  | S754_infinity false => (2, 0, 0)
  | S754_infinity true => (-2, 0, 0)
  | S754_nan => (0, 0, 0)
  | S754_finite false m e => (1, e, Zpos m)
  | S754_finite true m e => (-1, - e, Zneg m)
  end.

Definition lex3_lt (a b : Z * Z * Z) : Prop :=
  let '(a1, a2, a3) := a in
  let '(b1, b2, b3) := b in
  a1 < b1 \/ (a1 = b1 /\ (a2 < b2 \/ (a2 = b2 /\ a3 < b3))).

Definition cmp_rank (c : comparison) (x y : spec_float) : Prop :=
  match c with
  | Lt => lex3_lt (rank x) (rank y)
  | Eq => rank x = rank y
  | Gt => lex3_lt (rank y) (rank x)
  end.

(** numpy [float32] *)
Module F32.
Definition prec : Z := 24.
Definition emax : Z := 128.
Definition of_Z (z : Z) : spec_float := binary_normalize prec emax z 0 false.
Definition add : spec_float -> spec_float -> spec_float := SFadd prec emax.
Definition sub : spec_float -> spec_float -> spec_float := SFsub prec emax.
Definition div : spec_float -> spec_float -> spec_float := SFdiv prec emax.
Definition zero : spec_float := S754_zero false.
End F32.

(** Python [float], numpy [float64] *)
Module F64.
Definition prec : Z := 53.
Definition emax : Z := 1024.
Definition of_Z (z : Z) : spec_float := binary_normalize prec emax z 0 false.
Definition add : spec_float -> spec_float -> spec_float := SFadd prec emax.
Definition sub : spec_float -> spec_float -> spec_float := SFsub prec emax.
Definition mul : spec_float -> spec_float -> spec_float := SFmul prec emax.
Definition div : spec_float -> spec_float -> spec_float := SFdiv prec emax.
Definition zero : spec_float := S754_zero false.
Definition one : spec_float := Eval vm_compute in of_Z 1.
End F64.

(** ** The manifest: the records handed from the selector to the later stages *)

Module Manifest.

(** The value of the [datetime] property of an item: a string on which
    [datetime.fromisoformat(..).astimezone(timezone.utc)] returns the instant
    [us] (microseconds since 0001-01-01T00:00:00 UTC), or a string that
    [fromisoformat] rejects with [ValueError]. A value that is no string
    (a JSON null) and a string whose conversion to UTC leaves the years
    1..9999 raise other exceptions and are outside this type. *)
Inductive dt_value : Type :=
  | DtInstant (us : Z)
  | DtBad.

(** The value of the [eo:cloud_cover] property: a value [v] on which [float(v)]
    returns [f], or one on which it raises. *)
Inductive cloud_value : Type :=
  | CloudNum (f : spec_float)
  | CloudBad.

(** [{"key": .., "href": .., "type": ..}]; an absent or empty [href] is the
    empty string, an absent [key] is [None]. *)
Record AssetRef : Type := {
  key : option string;
  href : string;
  type : option string;
}.

(** [{"B02": .., "B03": .., "B04": ..}] *)
Record Bands : Type := {
  B02 : option AssetRef;
  B03 : option AssetRef;
  B04 : option AssetRef;
}.

(** [{"B08": .., "B11": .., "SCL": ..}] *)
Record IndexAssets : Type := {
  B08 : option AssetRef;
  B11 : option AssetRef;
  SCL : option AssetRef;
}.

(** An entry of [candidates_topk]. *)
Record Candidate : Type := {
  cand_id : string;
  cand_datetime : option dt_value;
  cand_cloud_cover : option cloud_value;
  cand_epsg : option Z;
}.

(** An entry of [candidates_topk_rgb_assets]; an absent or empty [id] is the
    empty string, an absent, null or empty dictionary is [None]. *)
Record AssetEntry : Type := {
  entry_id : string;
  tci : option AssetRef;
  bands : option Bands;
  index : option IndexAssets;
}.

(** [{"datetime": datetime_range, "cloud_lt": .., "window_days": ..}]; the
    range string ["<start>T00:00:00Z/<end>T23:59:59Z"] is kept as its two days
    (days since 0001-01-01). *)
Record SearchUsed : Type := {
  used_start_day : Z;
  used_end_day : Z;
  used_cloud_lt : spec_float;
  used_window_days : Z;
}.

(** The [reason] of a [no_items] result: the formatted message
    [No items in ±{window_days} days with eo:cloud_cover < {cloud_lt}], kept
    by its two arguments, or the literal [No items found]. *)
Inductive Reason : Type :=
  | NoItemsIn (window_days : Z) (cloud_lt : spec_float)
  | NoItemsFound.

(** The dictionary returned by [pick_topk_items]; [target_date] is the
    instant the date string denotes. *)
Inductive PickResult : Type :=
  | StatusOk (target_date : Z) (search_used : SearchUsed)
             (candidates_topk : list Candidate)
             (candidates_topk_rgb_assets : list AssetEntry)
  | StatusNoItems (target_date : Z) (reason : Reason).

(** [{"sensor": sensor, **res}] *)
Record Target : Type := {
  sensor : string;
  res : PickResult;
}.

End Manifest.

(** ** [s2_stac_pick_cloudfree.py] *)

Module Pick.
Import Manifest.

Record PickConfig : Type := {
  bbox : list spec_float;
  collection : string;
  window_days : Z;
  cloud_lt : spec_float;
  max_items : Z;
  prefer_same_orbit : bool;
}.

(** A STAC asset: [href] and [media_type] ([None] when the attribute is
    missing; an empty [href] is falsy like a missing one). *)
Record Asset : Type := {
  asset_href : option string;
  asset_media_type : option string;
}.

(** A catalog item: [item.id], the three properties the selector reads and
    [item.assets]. *)
Record Item : Type := {
  id : string;
  datetime : option dt_value;
  cloud_cover : option cloud_value;
  epsg : option Z;
  assets : gmap string Asset;
}.

(** *** Dates: [datetime], [timedelta] *)

Definition US_PER_DAY : Z := 86400000000.

(** [datetime.max] is 9999-12-31T23:59:59.999999, the last microsecond of day
    3652059. *)
Definition MAX_INSTANT : Z := 3652059 * US_PER_DAY.

(** [timedelta(days=d)] in microseconds; [|d| > 999999999] overflows. *)
Definition timedelta_days (d : Z) : result Z :=
  if bool_decide (-999999999 <= d <= 999999999) then Ok (d * US_PER_DAY)
  else Raise OverflowError.

(** [t + delta] on datetimes: the result has to be a date of years 1..9999. *)
Definition datetime_add (t delta : Z) : result Z :=
  if bool_decide (0 <= t + delta < MAX_INSTANT) then Ok (t + delta)
  else Raise OverflowError.

(** The day printed by [strftime("%Y-%m-%dT..")], as days since 0001-01-01. *)
Definition day_of (t : Z) : Z := t / US_PER_DAY.

(** Division of two Python integers, [a / b] with [b > 0]: the quotient
    rounded once to the nearest [float]. *)
Definition int_true_div (a : Z) (b : positive) : spec_float :=
  match a with
  | Z0 => S754_zero false
  | Zpos m => F64.div (S754_finite false m 0) (S754_finite false b 0)
  | Zneg m => F64.div (S754_finite true m 0) (S754_finite false b 0)
  end.

(** [td.total_seconds()] of a [timedelta] of [us] microseconds. *)
Definition total_seconds (us : Z) : spec_float := int_true_div us 1000000.

Definition f3600 : spec_float := Eval vm_compute in F64.of_Z 3600.
Definition f40 : spec_float := Eval vm_compute in F64.of_Z 40.
Definition f100 : spec_float := Eval vm_compute in F64.of_Z 100.

(** *** Scoring *)

(** [_to_dt_utc(item.properties["datetime"])]: the subscript raises
    [KeyError] on a missing property, the parser [ValueError]. *)
Definition item_dt (item : Item) : result Z :=
  match datetime item with
  | None => Raise KeyError
  | Some (DtInstant us) => Ok us
  | Some DtBad => Raise ValueError
  end.

Definition _safe_get_cloud (item : Item) : spec_float :=
  match cloud_cover item with
  | None => Float.inf
  | Some (CloudNum f) => f
  | Some CloudBad => Float.inf
  end.

(** The sort key [(cloud, dt_diff_hours, dt)]. *)
Definition Key : Type := spec_float * spec_float * Z.

Definition _score_item (item : Item) (target_dt : Z) : result Key :=
  let cloud := _safe_get_cloud item in
  dt ← item_dt item;
  let dt_diff_hours := F64.div (SFabs (total_seconds (dt - target_dt))) f3600 in
  Ok (cloud, dt_diff_hours, dt).

(** [k1 < k2] on key tuples: the first component at which the two differ
    ([!=]) decides. *)
Definition key_lt (k1 k2 : Key) : bool :=
  let '(c1, h1, d1) := k1 in
  let '(c2, h2, d2) := k2 in
  if Float.neqb c1 c2 then Float.ltb c1 c2
  else if Float.neqb h1 h2 then Float.ltb h1 h2
  else d1 <? d2.

(** [sorted(xs, key=..)] on the decorated list: a stable sort; [x] goes
    before the first element that is not smaller than it, so elements with
    equal keys keep their input order. On keys that [<] orders totally every
    stable sort returns this list, and so does [sorted]. A NaN cloud cover
    breaks the order; what [sorted] returns then depends on the comparisons
    its algorithm makes, and this function is not a model of it: the
    statements about the order of the result exclude NaN. *)
Fixpoint insert_by_key {A : Type} (x : Key * A) (l : list (Key * A)) : list (Key * A) :=
  match l with
  | [] => [x]
  | y :: l' => if key_lt (fst y) (fst x) then y :: insert_by_key x l'
               else x :: y :: l'
  end.

Fixpoint sort_by_key {A : Type} (l : list (Key * A)) : list (Key * A) :=
  match l with
  | [] => []
  | x :: l' => insert_by_key x (sort_by_key l')
  end.

(** The keys are computed first, item by item; the first item whose key
    raises ends the call. *)
Fixpoint score_all (items : list Item) (target_dt : Z) : result (list (Key * Item)) :=
  match items with
  | [] => Ok []
  | it :: rest =>
      k ← _score_item it target_dt;
      ks ← score_all rest target_dt;
      Ok ((k, it) :: ks)
  end.

(** [sorted(items, key=lambda x: _score_item(x, target_dt))] *)
Definition sorted_items (items : list Item) (target_dt : Z) : result (list Item) :=
  ks ← score_all items target_dt;
  Ok (List.map snd (sort_by_key ks)).

(** *** Asset resolution *)

(** The inner [get(key)] of the three resolvers: a reference when the asset
    exists and has a non-empty [href]. *)
Definition get_asset (assets : gmap string Asset) (k : string) : option AssetRef :=
  match assets !! k with
  | None => None
  | Some a =>
      match asset_href a with
      | None => None
      | Some h =>
          if bool_decide (h = "") then None
          else Some {| key := Some k; href := h; type := asset_media_type a |}
      end
  end.

Definition pick_s2_tci_asset (item : Item) : option AssetRef :=
  get_asset (assets item) "TCI_10m".

Definition pick_s2_rgb_bands (item : Item) : option Bands :=
  let out := {| B02 := get_asset (assets item) "B02_10m";
                B03 := get_asset (assets item) "B03_10m";
                B04 := get_asset (assets item) "B04_10m" |} in
  if negb (bool_decide (is_Some (B02 out)) && bool_decide (is_Some (B03 out))
           && bool_decide (is_Some (B04 out)))
  then None
  else Some out.

Definition pick_s2_index_assets (item : Item) : option IndexAssets :=
  let out := {| B08 := get_asset (assets item) "B08_10m";
                B11 := get_asset (assets item) "B11_20m";
                SCL := get_asset (assets item) "SCL_20m" |} in
  if negb (bool_decide (is_Some (B08 out))) then None
  else Some out.

(** *** The selector *)

(** The arguments of [client.search(..)]; the [datetime] range is kept as its
    two days. *)
Record Query : Type := {
  q_collections : list string;
  q_bbox : list spec_float;
  q_start_day : Z;
  q_end_day : Z;
  q_cloud_lt : spec_float;
  q_limit : Z;
}.

(** The catalog: the items [search.items()] yields for a query, in the
    catalog's order. *)
Definition Client : Type := Query -> list Item.

(** [max(a, b)] on floats: [b] when [b > a], else [a]. *)
Definition py_max (a b : spec_float) : spec_float :=
  if Float.gtb b a then b else a.

(** A tier [(window_days, cloud_lt)] of the escalation plan. *)
Definition Tier : Type := Z * spec_float.

Definition plan (cfg : PickConfig) : list Tier :=
  [ (window_days cfg, cloud_lt cfg);
    (Z.max (window_days cfg) 5, py_max (cloud_lt cfg) f40);
    (Z.max (window_days cfg) 10, f100) ].

(** [start] and [end] of a tier, each as the day [strftime] prints. *)
Definition date_range (target_dt : Z) (w : Z) : result (Z * Z) :=
  td ← timedelta_days w;
  s ← datetime_add target_dt (- td);
  td' ← timedelta_days w;
  e ← datetime_add target_dt td';
  Ok (day_of s, day_of e).

Definition tier_query (cfg : PickConfig) (range : Z * Z) (c : spec_float) : Query :=
  {| q_collections := [collection cfg];
     q_bbox := bbox cfg;
     q_start_day := fst range;
     q_end_day := snd range;
     q_cloud_lt := c;
     q_limit := 100 |}.

(** The loop that fills [items]: every item is appended, and the loop stops
    once [len(items) >= cfg.max_items]. [n] is [len(items)] so far. *)
Fixpoint collect (max_items : Z) (n : Z) (found : list Item) : list Item :=
  match found with
  | [] => []
  | it :: rest =>
      it :: (if n + 1 >=? max_items then [] else collect max_items (n + 1) rest)
  end.

(** [l[:k]] *)
Definition slice_to {A : Type} (l : list A) (k : Z) : list A :=
  if k <? 0 then firstn (Z.to_nat (Z.max 0 (Z.of_nat (length l) + k))) l
  else firstn (Z.to_nat k) l.

Definition to_candidate (it : Item) : Candidate :=
  {| cand_id := id it;
     cand_datetime := datetime it;
     cand_cloud_cover := cloud_cover it;
     cand_epsg := epsg it |}.

Definition to_asset_entry (it : Item) : AssetEntry :=
  {| entry_id := id it;
     tci := pick_s2_tci_asset it;
     bands := pick_s2_rgb_bands it;
     index := pick_s2_index_assets it |}.

(** The body of [for window_days, cloud_lt in plan], over the tiers still to
    try. *)
Fixpoint run_plan (client : Client) (target_dt : Z) (cfg : PickConfig) (k : Z)
    (tiers : list Tier) (last_reason : option Reason) : result PickResult :=
  match tiers with
  | [] =>
      Ok (StatusNoItems target_dt
            (match last_reason with Some r => r | None => NoItemsFound end))
  | (w, c) :: rest =>
      range ← date_range target_dt w;
      let items := collect (max_items cfg) 0 (client (tier_query cfg range c)) in
      match items with
      | [] => run_plan client target_dt cfg k rest (Some (NoItemsIn w c))
      | _ :: _ =>
          items_sorted ← sorted_items items target_dt;
          let topk := List.map to_candidate (slice_to items_sorted k) in
          let topk_rgb_assets := List.map to_asset_entry (slice_to items_sorted k) in
          Ok (StatusOk target_dt
                {| used_start_day := fst range; used_end_day := snd range;
                   used_cloud_lt := c; used_window_days := w |}
                topk topk_rgb_assets)
      end
  end.

(** [pick_topk_items(client, target_date, cfg, k)] from line 106 on;
    [target_dt] is the instant line 104 computes from [target_date]. A
    [target_date] that [fromisoformat] rejects and a search that fails (the
    catalog is a function here) are outside this embedding. *)
Definition pick_topk_items (client : Client) (target_dt : Z) (cfg : PickConfig) (k : Z)
    : result PickResult :=
  run_plan client target_dt cfg k (plan cfg) None.

End Pick.

(** ** [s2_make_indices.py] *)

Module Indices.
Import Manifest.

(** A raster array is the row-major list of its pixels. All arrays of one
    candidate are read at the shape of the reference grid, so two arrays
    have the same shape when they have the same number of pixels; an
    elementwise operation on arrays of different shapes raises. *)
Abbreviation array := (list spec_float).

(** Elementwise [x op y] of two arrays. *)
Definition map2 {A B C : Type} (f : A -> B -> C) (xs : list A) (ys : list B) : list C :=
  List.map (fun p => f (fst p) (snd p)) (List.combine xs ys).

Definition same_shape {A B : Type} (xs : list A) (ys : list B) : bool :=
  Nat.eqb (length xs) (length ys).

(** One pixel of [safe_index]: [out] starts as NaN and is overwritten by
    [num / den] where the mask [m] holds. *)
Definition safe_index_px (num den : spec_float) : spec_float :=
  let m := Float.isfinite num && Float.isfinite den && Float.neqb den F32.zero in
  if m then F32.div num den else Float.nan.

(** [safe_index(num, den)] *)
Definition safe_index (num den : array) : result array :=
  if same_shape num den then Ok (map2 safe_index_px num den)
  else Raise ValueError.

(** The index of two bands as [main] computes it:
    [safe_index((a - b), (a + b))]. *)
Definition normalized_difference (a b : array) : result array :=
  if same_shape a b then safe_index (map2 F32.sub a b) (map2 F32.add a b)
  else Raise ValueError.

(** [SCL_EXCLUDE = {0, 1, 2, 3, 7, 8, 9, 10, 11}] *)
Definition SCL_EXCLUDE : list Z := [0; 1; 2; 3; 7; 8; 9; 10; 11].

(** [np.isin(scl, list(SCL_EXCLUDE))] *)
Definition isin (scl : list Z) (codes : list Z) : list bool :=
  List.map (fun c => bool_decide (c ∈ codes)) scl.

(** [arr[mask_bad] = np.nan] *)
Definition set_nan_where (arr : array) (mask_bad : list bool) : result array :=
  if same_shape arr mask_bad
  then Ok (map2 (fun x (b : bool) => if b then Float.nan else x) arr mask_bad)
  else Raise ValueError.

(** [ndvi], [ndwi] and [mndwi] (when B11 was read) of [main]. *)
Definition compute_indices (b03 b04 b08 : array) (b11 : option array)
    : result (array * array * option array) :=
  ndvi ← normalized_difference b08 b04;
  ndwi ← normalized_difference b03 b08;
  mndwi ← match b11 with
          | Some b => m ← normalized_difference b03 b; Ok (Some m)
          | None => Ok None
          end;
  Ok (ndvi, ndwi, mndwi).

(** The block [if scl is not None: ..] of [main]. *)
Definition apply_scl_mask (scl : option (list Z)) (ndvi ndwi : array) (mndwi : option array)
    : result (array * array * option array) :=
  match scl with
  | Some s =>
      let mask_bad := isin s SCL_EXCLUDE in
      ndvi' ← set_nan_where ndvi mask_bad;
      ndwi' ← set_nan_where ndwi mask_bad;
      mndwi' ← match mndwi with
               | Some m => m' ← set_nan_where m mask_bad; Ok (Some m')
               | None => Ok None
               end;
      Ok (ndvi', ndwi', mndwi')
  | None => Ok (ndvi, ndwi, mndwi)
  end.

(** *** The stage against the disk *)

(** What [main] prints. *)
Inductive Msg : Type :=
  | DebugEntryKeys
  | RequiredBandsMissing (sensor item_id : string)
  | Saved (sensor item_id : string) (with_mndwi : bool)
  | Done.

(** The downloaded JP2 rasters (their pixels, as stored), the rasters and
    quicklooks the stage has written, and the terminal. The stage reads below
    [downloads/S2_TOPK_JP2] and writes below [downloads/S2_INDICES]; with
    plain names the two never meet, and they are kept as two maps. *)
Record World : Type := {
  jp2 : gmap path (list Z);
  written : gmap path array;
  stdout : list Msg;
}.

Definition print (m : Msg) : M World unit :=
  modify (fun w => {| jp2 := jp2 w; written := written w; stdout := stdout w ++ [m] |}).

(** [write_geotiff] and [save_quicklook_png]: the file holds (a picture of)
    [arr]. The raster library is taken to do its work: a file that exists
    opens and is read, a write succeeds; what the driver may refuse (a
    damaged file, a block size) is outside this embedding. *)
Definition write_array (p : path) (arr : array) : M World unit :=
  modify (fun w => {| jp2 := jp2 w; written := <[p := arr]> (written w); stdout := stdout w |}).

Definition exists_ (p : path) : M World bool :=
  w ← get_world; mret (bool_decide (is_Some (jp2 w !! p))).

Definition lift {A : Type} (r : result A) : M World A := fun w => (r, w).

Inductive Resampling : Type := bilinear | nearest.

Definition dl_root : path := ["downloads"; "S2_TOPK_JP2"].
Definition out_root : path := ["downloads"; "S2_INDICES"].

(** [base / f"{item_id}_{ref['key']}.jp2"]; the subscript raises on a
    reference without [key]. *)
Definition band_path (base : path) (item_id : string) (ref : AssetRef) : result path :=
  match key ref with
  | Some k => Ok (base ++ [item_id +:+ "_" +:+ k +:+ ".jp2"])
  | None => Raise KeyError
  end.

(** The five references the round asks for before it goes on ([index] is the
    key the selector writes; the older key [index_extra] is not modelled). *)
Definition required_refs (entry : AssetEntry)
    : option (AssetRef * AssetRef * AssetRef * AssetRef * AssetRef) :=
  match bands entry, index entry with
  | Some b, Some x =>
      match B03 b, B04 b, B08 x, B11 x, SCL x with
      | Some a03, Some a04, Some a08, Some a11, Some ascl => Some (a03, a04, a08, a11, ascl)
      | _, _, _, _, _ => None
      end
  | _, _ => None
  end.

(** [.astype(np.int16)] *)
Definition to_int16 (z : Z) : Z := (z + 32768) mod 65536 - 32768.

Section WithResample.

(** [ds.read(1, out_shape=.., resampling=..)] of rasterio: the pixels of a
    raster resampled to [n] pixels. *)
Variable resample : Resampling -> nat -> list Z -> list Z.

Definition read_resampled (p : path) (ref_n : nat) (r : Resampling) : M World (list Z) :=
  w ← get_world;
  match jp2 w !! p with
  | Some raw => mret (resample r ref_n raw)
  | None => raise RasterioIOError
  end.

(** One round of [for i in range(n)]. *)
Definition process_candidate (sensor : string) (cand : Candidate) (entry : AssetEntry)
    : M World unit :=
  let item_id := cand_id cand in
  _ ← print DebugEntryKeys;
  match required_refs entry with
  | None => print (RequiredBandsMissing sensor item_id)
  | Some (a03, a04, a08, a11, ascl) =>
      let base := dl_root ++ [sensor; item_id] in
      p_b03 ← lift (band_path base item_id a03);
      p_b04 ← lift (band_path base item_id a04);
      p_b08 ← lift (band_path base item_id a08);
      p_b11 ← lift (band_path base item_id a11);
      p_scl ← lift (band_path base item_id ascl);
      _ ← for_each [p_b03; p_b04; p_b08] (fun p =>
            e ← exists_ p; if (e : bool) then mret tt else raise FileNotFoundError);
      w ← get_world;
      let ref_n := match jp2 w !! p_b03 with Some raw => length raw | None => O end in
      b03 ← read_resampled p_b03 ref_n bilinear;
      b04 ← read_resampled p_b04 ref_n bilinear;
      b08 ← read_resampled p_b08 ref_n bilinear;
      scl_there ← exists_ p_scl;
      scl ← (if (scl_there : bool) return M World (option (list Z))
             then s ← read_resampled p_scl ref_n nearest; mret (Some (List.map to_int16 s))
             else mret None);
      b11_there ← exists_ p_b11;
      b11 ← (if (b11_there : bool) return M World (option array)
             then b ← read_resampled p_b11 ref_n bilinear; mret (Some (List.map F32.of_Z b))
             else mret None);
      '(ndvi0, ndwi0, mndwi0) ← lift (compute_indices (List.map F32.of_Z b03)
                                        (List.map F32.of_Z b04) (List.map F32.of_Z b08) b11);
      '(ndvi, ndwi, mndwi) ← lift (apply_scl_mask scl ndvi0 ndwi0 mndwi0);
      let out_dir := out_root ++ [sensor; item_id] in
      _ ← write_array (out_dir ++ [item_id +:+ "_NDVI.tif"]) ndvi;
      _ ← write_array (out_dir ++ [item_id +:+ "_NDWI.tif"]) ndwi;
      _ ← match mndwi with
          | Some m => write_array (out_dir ++ [item_id +:+ "_MNDWI.tif"]) m
          | None => mret tt
          end;
      _ ← write_array (out_dir ++ [item_id +:+ "_NDVI.png"]) ndvi;
      _ ← write_array (out_dir ++ [item_id +:+ "_NDWI.png"]) ndwi;
      _ ← match mndwi with
          | Some m => write_array (out_dir ++ [item_id +:+ "_MNDWI.png"]) m
          | None => mret tt
          end;
      print (Saved sensor item_id (bool_decide (is_Some mndwi)))
  end.

(** [main], from the loaded manifest on. *)
Definition main (targets : list Target) : M World unit :=
  _ ← for_each targets (fun t =>
        match res t with
        | StatusNoItems _ _ => mret tt
        | StatusOk _ _ cands assets =>
            for_each (List.combine cands assets) (fun ce =>
              process_candidate (sensor t) (fst ce) (snd ce))
        end);
  print Done.

End WithResample.

End Indices.

(** ** [s2_s3_download_rgb.py] and [ensure_download] of [s2_download_top3_and_compare.py] *)

Module Download.
Import Manifest.

(** The fields of [urlparse(href)] the scripts read: [scheme], [netloc] and
    [path]. *)
Record Url : Type := {
  scheme : string;
  netloc : string;
  url_path : string;
}.

(** [urlparse] of [urllib.parse] on a string: the parts of the reference, or
    [None] when it raises [ValueError], the only exception it raises on a
    string. *)
Definition Urlparse : Type := string -> option Url.

(** [s.lstrip("/")] *)
Fixpoint lstrip_slash (s : string) : string :=
  match s with
  | String "/"%char rest => lstrip_slash rest
  | _ => s
  end.

(** *** [urllib.parse.urlparse]

    The library function as CPython 3.11 has it, on a string taken as its
    UTF-8 bytes. Two checks that it hands to other modules stay parameters:
    [check_bracketed_netloc] (a host in square brackets has to be an IPv6 or
    IPvFuture address, [ipaddress]) and [checknetloc] (a netloc that is not
    ASCII must not normalise to one with a delimiter, [unicodedata]); each
    answers [false] where the library raises [ValueError]. *)

(** The text before the first [c] and the text after it. *)
Fixpoint split_at (c : Ascii.ascii) (s : string) : option (string * string) :=
  match s with
  | EmptyString => None
  | String a rest =>
      if bool_decide (a = c) then Some (EmptyString, rest)
      else match split_at c rest with
           | Some (l, r) => Some (String a l, r)
           | None => None
           end
  end.

(** The text before the first character that satisfies [f] and the text from
    it on. *)
Fixpoint break_where (f : Ascii.ascii -> bool) (s : string) : string * string :=
  match s with
  | EmptyString => (EmptyString, EmptyString)
  | String a rest =>
      if f a then (EmptyString, s)
      else let '(l, r) := break_where f rest in (String a l, r)
  end.

(** [c in s] *)
Definition has (c : Ascii.ascii) (s : string) : bool :=
  negb (all_chars (fun a => negb (Ascii.eqb a c)) s).

Definition lower_ascii (a : Ascii.ascii) : Ascii.ascii :=
  let n := Ascii.nat_of_ascii a in
  if ((65 <=? n) && (n <=? 90))%nat then Ascii.ascii_of_nat (n + 32) else a.

Fixpoint lower (s : string) : string :=
  match s with
  | EmptyString => EmptyString
  | String a rest => String (lower_ascii a) (lower rest)
  end.

(** [url.lstrip(_WHATWG_C0_CONTROL_OR_SPACE)]: the characters up to U+0020. *)
Fixpoint lstrip_c0 (s : string) : string :=
  match s with
  | EmptyString => EmptyString
  | String a rest => if (Ascii.nat_of_ascii a <=? 32)%nat then lstrip_c0 rest else s
  end.

(** [_UNSAFE_URL_BYTES_TO_REMOVE]: tab, CR and LF. *)
Definition unsafe_byte (a : Ascii.ascii) : bool :=
  let n := Ascii.nat_of_ascii a in
  ((n =? 9) || (n =? 13) || (n =? 10))%nat.

(** [url.replace(b, "")] for each of them. *)
Fixpoint remove_unsafe (s : string) : string :=
  match s with
  | EmptyString => EmptyString
  | String a rest =>
      if unsafe_byte a then remove_unsafe rest else String a (remove_unsafe rest)
  end.

(** [c.isascii() and c.isalpha()] *)
Definition ascii_alpha (a : Ascii.ascii) : bool :=
  let n := Ascii.nat_of_ascii a in
  ((65 <=? n) && (n <=? 90) || (97 <=? n) && (n <=? 122))%nat.

(** [c in scheme_chars]: letters, digits, [+], [-] and [.]. *)
Definition scheme_char (a : Ascii.ascii) : bool :=
  let n := Ascii.nat_of_ascii a in
  (ascii_alpha a || (48 <=? n) && (n <=? 57) || (n =? 43) || (n =? 45) || (n =? 46))%nat.

(** The scheme and the rest: the text before the first [:] is the scheme
    when it starts with a letter and is made of [scheme_chars]; it is
    lowercased. Otherwise there is no scheme. *)
Definition split_scheme (url : string) : string * string :=
  match split_at ":"%char url with
  | Some (String a pre, rest) =>
      if ascii_alpha a && all_chars scheme_char (String a pre)
      then (lower (String a pre), rest)
      else (EmptyString, url)
  | _ => (EmptyString, url)
  end.

(** A delimiter of [_splitnetloc]: the netloc ends at the first [/], [?] or
    [#]. *)
Definition netloc_delim (a : Ascii.ascii) : bool :=
  Ascii.eqb a "/"%char || Ascii.eqb a "?"%char || Ascii.eqb a "#"%char.

(** [s.isascii()] *)
Definition is_ascii (s : string) : bool :=
  all_chars (fun a => (Ascii.nat_of_ascii a <? 128)%nat) s.

(** [uses_params] *)
Definition uses_params : list string :=
  [""; "ftp"; "hdl"; "prospero"; "http"; "imap"; "https"; "shttp"; "rtsp"; "rtspu";
   "sip"; "sips"; "mms"; "sftp"; "tel"]%string.

(** The text up to the last [/] and the text from it on; without a [/] the
    first is empty. *)
Fixpoint rbreak_slash (s : string) : string * string :=
  match s with
  | EmptyString => (EmptyString, EmptyString)
  | String a rest =>
      if has "/"%char rest
      then let '(p, t) := rbreak_slash rest in (String a p, t)
      else (EmptyString, s)
  end.

(** The first component of [_splitparams(url)]: the path without the
    parameters of its last segment. *)
Definition splitparams (url : string) : string :=
  let '(p, t) := rbreak_slash url in
  p +:+ fst (break_where (Ascii.eqb ";"%char) t).

Section Urllib.
Variable check_bracketed_netloc : string -> bool.
Variable checknetloc : string -> bool.

(** [urlsplit(url)]: scheme, netloc and path. *)
Definition urlsplit (url : string) : option (string * string * string) :=
  let url := remove_unsafe (lstrip_c0 url) in
  let '(sch, url) := split_scheme url in
  let finish := fun (nl url : string) =>
    let url := fst (break_where (Ascii.eqb "#"%char) url) in
    let url := fst (break_where (Ascii.eqb "?"%char) url) in
    if is_ascii nl || checknetloc nl then Some (sch, nl, url) else None in
  match url with
  | String "/"%char (String "/"%char rest) =>
      let '(nl, url') := break_where netloc_delim rest in
      if has "["%char nl && negb (has "]"%char nl) || has "]"%char nl && negb (has "["%char nl)
      then None
      else if has "["%char nl && has "]"%char nl && negb (check_bracketed_netloc nl)
      then None
      else finish nl url'
  | _ => finish EmptyString url
  end.

Definition urllib_urlparse : Urlparse := fun url =>
  match urlsplit url with
  | None => None
  | Some (sch, nl, p) =>
      let p := if List.existsb (String.eqb sch) uses_params && has ";"%char p then splitparams p
               else p in
      Some {| scheme := sch; netloc := nl; url_path := p |}
  end.

End Urllib.

(** *** The scripts *)

Section ParseHref.
Variable urlparse : Urlparse.

Definition parse_s3_href (href : string) : result (string * string) :=
  match urlparse href with
  | None => Raise ValueError
  | Some u =>
      if bool_decide (scheme u ≠ "s3") then Raise ValueError
      else Ok (netloc u, lstrip_slash (url_path u))
  end.

End ParseHref.

(** What [main] prints. *)
Inductive Msg : Type :=
  | SkipStatus (sensor : string)
  | SkipNoCandidates (sensor : string)
  | Downloading_top (sensor : string) (n : nat)
  | OrderMismatch (cand entry : string)
  | CandidateLine (item_id : string)
  | Exists (keyname : string)
  | Downloading (keyname : string)
  | SavedTo (p : path)
  | TciNone
  | BandsNone
  | ExtraB08Missing
  | KeyNone (k : string)
  | ExtraNone
  | DownloadDone.

(** The local files with their bytes, the directories, the requests sent to
    the object store ([bucket], [key]) and the terminal. *)
Record World : Type := {
  files : gmap path (list Byte.byte);
  dirs : gset path;
  net : list (string * string);
  stdout : list Msg;
}.

(** The object store behind the [s3] client: the bytes of an object, if it
    can be fetched. *)
Definition S3 : Type := string -> string -> option (list Byte.byte).

Definition print (m : Msg) : M World unit :=
  modify (fun w => {| files := files w; dirs := dirs w; net := net w;
                      stdout := stdout w ++ [m] |}).

Definition lift {A : Type} (r : result A) : M World A := fun w => (r, w).

(** [p.parent] *)
Definition parent (p : path) : path := removelast p.

(** All the directories [mkdir(parents=True)] makes sure of: [p] and the
    directories above it. *)
Fixpoint ancestors (p : path) : list path :=
  match p with
  | [] => [[]]
  | c :: rest => [] :: List.map (cons c) (ancestors rest)
  end.

(** [p.mkdir(parents=True, exist_ok=True)]; the tree is taken to hold no file
    where a directory is needed. *)
Definition mkdir_parents (p : path) : M World unit :=
  modify (fun w => {| files := files w; dirs := dirs w ∪ list_to_set (ancestors p);
                      net := net w; stdout := stdout w |}).

(** [p.exists() and p.stat().st_size > 0] *)
Definition nonempty_file (p : path) : M World bool :=
  w ← get_world;
  mret (match files w !! p with
        | Some (_ :: _) => true
        | _ => false
        end).

(** [s3.download_file(bucket, key, str(out_path))]: one request; the object
    replaces the file, a failed request raises. *)
Definition download_file (s3 : S3) (bucket k : string) (out_path : path) : M World unit :=
  _ ← modify (fun w => {| files := files w; dirs := dirs w;
                          net := net w ++ [(bucket, k)]; stdout := stdout w |});
  match s3 bucket k with
  | Some bytes =>
      modify (fun w => {| files := <[out_path := bytes]> (files w); dirs := dirs w;
                          net := net w; stdout := stdout w |})
  | None => raise ClientError
  end.

(** [Path(r".\downloads") / "S2_TOPK_JP2"] *)
Definition dl_root : path := ["downloads"; "S2_TOPK_JP2"].

(** [out_dir / f"{item_id}_{keyname}.jp2"] *)
Definition asset_path (out_dir : path) (item_id keyname : string) : path :=
  out_dir ++ [item_id +:+ "_" +:+ keyname +:+ ".jp2"].

Section WithUrlparse.
Variable urlparse : Urlparse.

(** [ensure_download(s3, href, out_path)], the same in both scripts. *)
Definition ensure_download (s3 : S3) (href : string) (out_path : path) : M World unit :=
  '(bucket, k) ← lift (parse_s3_href urlparse href);
  _ ← mkdir_parents (parent out_path);
  there ← nonempty_file out_path;
  if (there : bool) then mret tt
  else download_file s3 bucket k out_path.

(** The block [main] repeats for the TCI, for each band and for each index
    asset: skip a file that is there, fetch one that is not. *)
Definition fetch (s3 : S3) (out_dir : path) (item_id href keyname : string) : M World unit :=
  let out_path := asset_path out_dir item_id keyname in
  there ← nonempty_file out_path;
  if (there : bool) then print (Exists keyname)
  else
    _ ← print (Downloading keyname);
    _ ← ensure_download s3 href out_path;
    print (SavedTo out_path).

(** [a.get("key", default)] *)
Definition key_or (a : AssetRef) (default : string) : string :=
  match key a with
  | Some k => k
  | None => default
  end.

(** [a and a.get("href")] *)
Definition has_href (a : option AssetRef) : option AssetRef :=
  match a with
  | Some r => if bool_decide (href r = "") then None else Some r
  | None => None
  end.

(** Lines 84-93: the identifier used for every path of the candidate. *)
Definition resolve_item_id (cand : Candidate) (entry : AssetEntry) : M World string :=
  let item_id := cand_id cand in
  if bool_decide (entry_id entry ≠ "") && bool_decide (entry_id entry ≠ item_id)
  then _ ← print (OrderMismatch item_id (entry_id entry)); mret (entry_id entry)
  else mret item_id.

(** One round of [for i in range(n)]. *)
Definition download_candidate (s3 : S3) (sensor : string) (cand : Candidate) (entry : AssetEntry)
    : M World unit :=
  item_id ← resolve_item_id cand entry;
  let out_dir := dl_root ++ [sensor; item_id] in
  _ ← mkdir_parents out_dir;
  _ ← print (CandidateLine item_id);
  _ ← match has_href (tci entry) with
      | Some a => fetch s3 out_dir item_id (href a) (key_or a "TCI_10m")
      | None => print TciNone
      end;
  _ ← match bands entry with
      | Some b =>
          for_each [("B02", B02 b); ("B03", B03 b); ("B04", B04 b)] (fun ba =>
            match has_href (snd ba) with
            | None => raise RuntimeError
            | Some a => fetch s3 out_dir item_id (href a) (key_or a (fst ba))
            end)
      | None => print BandsNone
      end;
  match index entry with
  | Some x =>
      _ ← match has_href (B08 x) with
          | Some _ => mret tt
          | None => print ExtraB08Missing
          end;
      for_each [("B08", B08 x); ("B11", B11 x); ("SCL", SCL x)] (fun ka =>
        match has_href (snd ka) with
        | None => print (KeyNone (fst ka))
        | Some a => fetch s3 out_dir item_id (href a) (key_or a (fst ka))
        end)
  | None => print ExtraNone
  end.

(** One round of [for t in data.get("targets", [])]. *)
Definition download_target (s3 : S3) (t : Target) : M World unit :=
  match res t with
  | StatusNoItems _ _ => print (SkipStatus (sensor t))
  | StatusOk _ _ candidates candidates_assets =>
      match candidates, candidates_assets with
      | [], _ | _, [] => print (SkipNoCandidates (sensor t))
      | _, _ =>
          let n := Nat.min (length candidates) (length candidates_assets) in
          _ ← print (Downloading_top (sensor t) n);
          for_each (List.combine candidates candidates_assets) (fun ce =>
            download_candidate s3 (sensor t) (fst ce) (snd ce))
      end
  end.

(** [main], from the loaded manifest on. *)
Definition main (s3 : S3) (targets : list Target) : M World unit :=
  _ ← mkdir_parents dl_root;
  _ ← for_each targets (download_target s3);
  print DownloadDone.

End WithUrlparse.

End Download.

(** ** The visualisation stretch: [s2_make_compare_png.py],
    [s2_download_top3_and_compare.py], [s2_make_rgb.py]

    The three scripts choose a range [[lo, hi]] per channel and then map the
    channel linearly, [(chan - lo) / (hi - lo)], clipped to [[0, 1]]. The
    embedding follows the choice of the range; the elementwise map, the gamma
    and the cast to 8 bits come after it and are not part of it. *)

Module Np.

(** [float(x)] of a [float32] scalar: the same number as a [float]. *)
Definition float_of_f32 (x : spec_float) : spec_float :=
  match x with
  | S754_finite s m e => binary_normalize F64.prec F64.emax (cond_Zopp s (Zpos m)) e s
  | _ => x
  end.

(** [chan[np.isfinite(chan) & (chan > 0)]] *)
Definition positive_finite (chan : list spec_float) : list spec_float :=
  List.filter (fun x => Float.isfinite x && Float.gtb x F32.zero) chan.

(** [chan[np.isfinite(chan)]] *)
Definition finite (chan : list spec_float) : list spec_float :=
  List.filter Float.isfinite chan.

(** [np.any(np.isfinite(chan) & (chan > 0))] *)
Definition any_valid (chan : list spec_float) : bool :=
  List.existsb (fun x => Float.isfinite x && Float.gtb x F32.zero) chan.

(** The smaller and the larger of two numbers as [np.minimum] and
    [np.maximum] have them: a NaN wins. *)
Definition minimum (a b : spec_float) : spec_float :=
  if Float.isnan a then a else if Float.isnan b then b
  else if Float.ltb b a then b else a.

Definition maximum (a b : spec_float) : spec_float :=
  if Float.isnan a then a else if Float.isnan b then b
  else if Float.ltb a b then b else a.

(** [np.min(v)] and [np.max(v)]: an empty array has no minimum. *)
Definition min (v : list spec_float) : result spec_float :=
  match v with
  | [] => Raise ValueError
  | x :: rest => Ok (List.fold_left minimum rest x)
  end.

Definition max (v : list spec_float) : result spec_float :=
  match v with
  | [] => Raise ValueError
  | x :: rest => Ok (List.fold_left maximum rest x)
  end.

(** [np.nanmin(x)] and [np.nanmax(x)]: the NaNs are left out; an array of
    NaNs only gives a NaN (with a warning), an empty one raises. *)
Definition not_nan (x : list spec_float) : list spec_float :=
  List.filter (fun y => negb (Float.isnan y)) x.

Definition nanmin (x : list spec_float) : result spec_float :=
  match x with
  | [] => Raise ValueError
  | _ :: _ => match not_nan x with
              | [] => Ok Float.nan
              | y :: rest => Ok (List.fold_left minimum rest y)
              end
  end.

Definition nanmax (x : list spec_float) : result spec_float :=
  match x with
  | [] => Raise ValueError
  | _ :: _ => match not_nan x with
              | [] => Ok Float.nan
              | y :: rest => Ok (List.fold_left maximum rest y)
              end
  end.

(** [np.percentile(a, q)] and [np.nanpercentile(a, q)] of numpy, [q] in
    percent: the percentile as a [float]. *)
Definition Percentile : Type := list spec_float -> Z -> spec_float.

End Np.

(** The outcome of [normalize_rgb_uint8] before the gamma: the fixed scale
    0..10000 when no sample is valid, else the range of each channel. *)
Inductive RgbStretch : Type :=
  | FixedScale
  | Ranges (r g b : spec_float * spec_float).

(** [normalize_rgb_uint8] of [s2_make_compare_png.py] *)
Module ComparePng.

Section WithPercentile.
Variable percentile : Np.Percentile.

(** The percentiles of a channel: [lo, hi = np.percentile(.., [2, 98])]. *)
Definition percentiles (chan : list spec_float) : spec_float * spec_float :=
  let v := Np.positive_finite chan in
  if (length v <? 100)%nat then
    let vv := Np.finite chan in
    match vv with
    | [] => (F64.zero, F64.one)
    | _ :: _ => (percentile vv 2, percentile vv 98)
    end
  else (percentile v 2, percentile v 98).

(** The body of [for c in range(3)], up to the range. *)
Definition channel_range (chan : list spec_float) : result (spec_float * spec_float) :=
  let v := Np.positive_finite chan in
  let '(lo, hi) := percentiles chan in
  if Float.leb hi lo then
    lo ← match v with
         | [] => Ok F64.zero
         | _ :: _ => m ← Np.min v; Ok (Np.float_of_f32 m)
         end;
    hi ← match v with
         | [] => Ok F64.one
         | _ :: _ => m ← Np.max v; Ok (Np.float_of_f32 m)
         end;
    if Float.leb hi lo then Ok (lo, F64.add lo F64.one) else Ok (lo, hi)
  else Ok (lo, hi).

Definition normalize_rgb_uint8 (r g b : list spec_float) : result RgbStretch :=
  if negb (Indices.same_shape r g && Indices.same_shape r b) then Raise ValueError
  else if negb (Np.any_valid r || Np.any_valid g || Np.any_valid b) then Ok FixedScale
  else
    rr ← channel_range r;
    rg ← channel_range g;
    rb ← channel_range b;
    Ok (Ranges rr rg rb).

End WithPercentile.

End ComparePng.

(** [normalize_rgb_uint8] of [s2_download_top3_and_compare.py] *)
Module Top3Compare.

Section WithPercentile.
Variable percentile : Np.Percentile.

Definition percentiles (chan : list spec_float) : spec_float * spec_float :=
  let v := Np.positive_finite chan in
  if (length v <? 100)%nat then
    (percentile (Np.finite chan) 2, percentile (Np.finite chan) 98)
  else (percentile v 2, percentile v 98).

Definition channel_range (chan : list spec_float) : result (spec_float * spec_float) :=
  let v := Np.positive_finite chan in
  let '(lo, hi) := percentiles chan in
  if Float.leb hi lo then
    m ← Np.min v;
    let lo := Np.float_of_f32 m in
    hi ← match v with
         | [] => Ok F64.one
         | _ :: _ => m' ← Np.max v; Ok (Np.float_of_f32 m')
         end;
    if Float.leb hi lo then Ok (lo, F64.add lo F64.one) else Ok (lo, hi)
  else Ok (lo, hi).

Definition normalize_rgb_uint8 (r g b : list spec_float) : result RgbStretch :=
  if negb (Indices.same_shape r g && Indices.same_shape r b) then Raise ValueError
  else if negb (Np.any_valid r || Np.any_valid g || Np.any_valid b) then Ok FixedScale
  else
    rr ← channel_range r;
    rg ← channel_range g;
    rb ← channel_range b;
    Ok (Ranges rr rg rb).

End WithPercentile.

End Top3Compare.

(** [percentile_stretch] of [s2_make_rgb.py] *)
Module MakeRgb.

(** What [percentile_stretch] returns: the array of zeros, or the channel
    mapped from the range [[lo, hi]] and clipped. *)
Inductive Stretched : Type :=
  | Zeros
  | Mapped (lo hi : spec_float).

Section WithPercentile.
Variable nanpercentile : Np.Percentile.

(** [not np.isfinite(lo) or not np.isfinite(hi) or hi <= lo] *)
Definition degenerate (lo hi : spec_float) : bool :=
  negb (Float.isfinite lo) || negb (Float.isfinite hi) || Float.leb hi lo.

Definition percentile_stretch (x : list spec_float) (p_low p_high : Z) : result Stretched :=
  let lo := nanpercentile x p_low in
  let hi := nanpercentile x p_high in
  if degenerate lo hi then
    m ← Np.nanmin x;
    let lo := Np.float_of_f32 m in
    m' ← Np.nanmax x;
    let hi := Np.float_of_f32 m' in
    if degenerate lo hi then Ok Zeros
    else Ok (Mapped lo hi)
  else Ok (Mapped lo hi).

End WithPercentile.

End MakeRgb.

(** ** Vocabulary of the properties *)

(** A tier is no tighter than the one before it: its half-window and its
    cloud-cover ceiling are at least the previous ones. *)
Definition tier_le (t1 t2 : Pick.Tier) : Prop :=
  fst t1 <= fst t2 /\ Float.leb (snd t1) (snd t2) = true.

(** A configuration whose ceiling is above 100. *)
Definition cfg_150 : Pick.PickConfig :=
  {| Pick.bbox := []; Pick.collection := "sentinel-2-l2a"; Pick.window_days := 3;
     Pick.cloud_lt := F64.of_Z 150; Pick.max_items := 200;
     Pick.prefer_same_orbit := false |}.

(** The order the candidates are ranked by: cloud cover ascending, then the
    distance to the target in hours ascending, then the acquisition instant
    ascending. *)
Definition key_le (k1 k2 : Pick.Key) : Prop :=
  let '(c1, h1, d1) := k1 in
  let '(c2, h2, d2) := k2 in
  Float.ltb c1 c2 = true \/
  (Float.eqb c1 c2 = true /\
   (Float.ltb h1 h2 = true \/ (Float.eqb h1 h2 = true /\ d1 <= d2))).

(** A key without NaN. *)
Definition key_ok (k : Pick.Key) : Prop :=
  Float.isnan (fst (fst k)) = false /\ Float.isnan (snd (fst k)) = false.

(** The strict order of the keys, on their ranks. *)
Definition key_rank_lt (k1 k2 : Pick.Key) : Prop :=
  let '(c1, h1, d1) := k1 in
  let '(c2, h2, d2) := k2 in
  lex3_lt (rank c1) (rank c2) \/
  (rank c1 = rank c2 /\
   (lex3_lt (rank h1) (rank h2) \/ (rank h1 = rank h2 /\ d1 < d2))).

(** [k1] is not after [k2]. *)
Definition key_rank_le (k1 k2 : Pick.Key) : Prop := ~ key_rank_lt k2 k1.

(** An item whose [datetime] is there and parses. *)
Definition has_dt (it : Pick.Item) : Prop :=
  exists us, Pick.datetime it = Some (Manifest.DtInstant us).

(** An item the selector can rank: its [datetime] parses and its cloud cover
    is not a NaN. *)
Definition scorable (it : Pick.Item) : Prop :=
  has_dt it /\ Float.isnan (Pick._safe_get_cloud it) = false.



(** The key [_score_item] returns for an item whose [datetime] parses. *)
Definition key_of (target_dt : Z) (it : Pick.Item) : Pick.Key :=
  let dt := match Pick.datetime it with
            | Some (Manifest.DtInstant us) => us
            | _ => 0
            end in
  (Pick._safe_get_cloud it,
   F64.div (SFabs (Pick.total_seconds (dt - target_dt))) Pick.f3600,
   dt).

Definition decorate (target_dt : Z) (it : Pick.Item) : Pick.Key * Pick.Item :=
  (key_of target_dt it, it).

(** The pool of a tier: what the loop over [search.items()] keeps. *)
Definition pool_of (client : Pick.Client) (cfg : Pick.PickConfig) (range : Z * Z)
    (c : spec_float) : list Pick.Item :=
  Pick.collect (Pick.max_items cfg) 0 (client (Pick.tier_query cfg range c)).

(** A tier whose search is issued and answers nothing. *)
Definition tier_empty (client : Pick.Client) (target_dt : Z) (cfg : Pick.PickConfig)
    (t : Pick.Tier) : Prop :=
  exists range, Pick.date_range target_dt (fst t) = Ok range /\
                client (Pick.tier_query cfg range (snd t)) = [].





(** The target 2021-01-21, as an instant. *)
Definition target_2021 : Z := 737810 * Pick.US_PER_DAY.

(** The target 0001-01-05, as an instant: the fifth day of the calendar. *)
Definition target_year_1 : Z := 4 * Pick.US_PER_DAY.

(** The configuration [main] would get from the defaults of [PickConfig]. *)
Definition cfg_default : Pick.PickConfig :=
  {| Pick.bbox := []; Pick.collection := "sentinel-2-l2a"; Pick.window_days := 3;
     Pick.cloud_lt := F64.of_Z 20; Pick.max_items := 200;
     Pick.prefer_same_orbit := false |}.

(** Two scenes of one overpass: same instant, same cloud cover, two tiles. *)
Definition item_a : Pick.Item :=
  {| Pick.id := "S2A_T52SCF"; Pick.datetime := Some (Manifest.DtInstant target_2021);
     Pick.cloud_cover := Some (Manifest.CloudNum (F64.of_Z 10)); Pick.epsg := Some 32652;
     Pick.assets := ∅ |}.

Definition item_b : Pick.Item :=
  {| Pick.id := "S2A_T52SCG"; Pick.datetime := Some (Manifest.DtInstant target_2021);
     Pick.cloud_cover := Some (Manifest.CloudNum (F64.of_Z 10)); Pick.epsg := Some 32652;
     Pick.assets := ∅ |}.

Definition client_tie : Pick.Client := fun _ => [item_a; item_b].

(** The catalog that has nothing. *)
Definition client_empty : Pick.Client := fun _ => [].

(** Three scenes: 5 % cloud one hour from the target, 50 % a hundred hours
    away, 15 % two hours away. *)
Definition item_5 : Pick.Item :=
  {| Pick.id := "scene-05"; Pick.datetime := Some (Manifest.DtInstant (target_2021 + 3600000000));
     Pick.cloud_cover := Some (Manifest.CloudNum (F64.of_Z 5)); Pick.epsg := None;
     Pick.assets := ∅ |}.

Definition item_50 : Pick.Item :=
  {| Pick.id := "scene-50"; Pick.datetime := Some (Manifest.DtInstant (target_2021 + 360000000000));
     Pick.cloud_cover := Some (Manifest.CloudNum (F64.of_Z 50)); Pick.epsg := None;
     Pick.assets := ∅ |}.

Definition item_15 : Pick.Item :=
  {| Pick.id := "scene-15"; Pick.datetime := Some (Manifest.DtInstant (target_2021 - 7200000000));
     Pick.cloud_cover := Some (Manifest.CloudNum (F64.of_Z 15)); Pick.epsg := None;
     Pick.assets := ∅ |}.

Definition client_three : Pick.Client := fun _ => [item_5; item_50; item_15].

(** *** The download stage *)

(** [urlparse] in the examples: the library function. No reference of the
    examples has a host in brackets or a netloc that is not ASCII, so the two
    checks are never asked. *)
Definition urlparse_lib : Download.Urlparse :=
  Download.urllib_urlparse (fun _ => true) (fun _ => true).


(** The identifier the download stage builds its paths from. *)
Definition path_id (cand : Manifest.Candidate) (entry : Manifest.AssetEntry) : string :=
  if bool_decide (Manifest.entry_id entry ≠ "")
     && bool_decide (Manifest.entry_id entry ≠ Manifest.cand_id cand)
  then Manifest.entry_id entry
  else Manifest.cand_id cand.

(** The destination of a reference that has an [href]. *)
Definition ref_paths (out_dir : path) (item_id : string)
    (named : string * option Manifest.AssetRef) : list path :=
  match Download.has_href (snd named) with
  | Some a => [Download.asset_path out_dir item_id (Download.key_or a (fst named))]
  | None => []
  end.

(** The output tree of the download stage: every file it fetches for a
    candidate ... *)
Definition entry_paths (sensor : string) (cand : Manifest.Candidate)
    (entry : Manifest.AssetEntry) : list path :=
  let item_id := path_id cand entry in
  let out_dir := Download.dl_root ++ [sensor; item_id] in
  ref_paths out_dir item_id ("TCI_10m", Manifest.tci entry)
  ++ match Manifest.bands entry with
     | Some b => flat_map (ref_paths out_dir item_id)
                   [("B02", Manifest.B02 b); ("B03", Manifest.B03 b); ("B04", Manifest.B04 b)]
     | None => []
     end
  ++ match Manifest.index entry with
     | Some x => flat_map (ref_paths out_dir item_id)
                   [("B08", Manifest.B08 x); ("B11", Manifest.B11 x); ("SCL", Manifest.SCL x)]
     | None => []
     end.

(** ... and for a target. *)
Definition target_paths (t : Manifest.Target) : list path :=
  match Manifest.res t with
  | Manifest.StatusNoItems _ _ => []
  | Manifest.StatusOk _ _ cands assets =>
      flat_map (fun ce => entry_paths (Manifest.sensor t) (fst ce) (snd ce))
               (List.combine cands assets)
  end.

(** The files [F] hold a non-empty file at [p]. *)
Definition nonempty_at (F : gmap path (list Byte.byte)) (p : path) : Prop :=
  exists b bs, F !! p = Some (b :: bs).

(** A fully populated output tree: every file of the tree is there and is
    not empty. *)
Definition populated (F : gmap path (list Byte.byte)) (targets : list Manifest.Target) : Prop :=
  forall t p, In t targets -> In p (target_paths t) -> nonempty_at F p.

(** A computation that sends no request and leaves the files [F] as they
    are. *)
Definition stable {A : Type} (F : gmap path (list Byte.byte)) (m : M Download.World A) : Prop :=
  forall w, Download.files w = F ->
    Download.files (snd (m w)) = F /\ Download.net (snd (m w)) = Download.net w.

(** A world with one downloaded file. *)
Definition world_one_file : Download.World :=
  {| Download.files := {[ ["downloads";"S2_TOPK_JP2";"ICEYE";"scene-05";"scene-05_TCI_10m.jp2"]
                           := [Byte.x4a; Byte.x50] ]};
     Download.dirs := ∅; Download.net := []; Download.stdout := [] |}.

(** An object store that serves every key. *)
Definition s3_any : Download.S3 := fun _ _ => Some [Byte.x00].

(** A manifest target whose only asset is the file of [world_one_file]. *)
Definition target_one_file : Manifest.Target :=
  {| Manifest.sensor := "ICEYE";
     Manifest.res :=
       Manifest.StatusOk target_2021
         {| Manifest.used_start_day := 737807; Manifest.used_end_day := 737813;
            Manifest.used_cloud_lt := F64.of_Z 20; Manifest.used_window_days := 3 |}
         [Pick.to_candidate item_5]
         [{| Manifest.entry_id := "scene-05";
             Manifest.tci :=
               Some {| Manifest.key := Some "TCI_10m";
                       Manifest.href := "s3://eodata/Sentinel-2/TCI_10m.jp2";
                       Manifest.type := None |};
             Manifest.bands := None;
             Manifest.index := None |}] |}.


(** *** The index stage *)

(** A nearest-neighbour resampling of a row of pixels to [n] pixels. *)
Definition resample_nn (r : Indices.Resampling) (n : nat) (raw : list Z) : list Z :=
  List.map (fun i => nth (i * length raw / n)%nat raw 0) (seq 0 n).

Definition ref_of (k : string) : Manifest.AssetRef :=
  {| Manifest.key := Some k; Manifest.href := "s3://eodata/" +:+ k +:+ ".jp2";
     Manifest.type := None |}.

(** The entry of a scene with all five references of the index stage. *)
Definition entry_five : Manifest.AssetEntry :=
  {| Manifest.entry_id := "scene-05"; Manifest.tci := None;
     Manifest.bands :=
       Some {| Manifest.B02 := Some (ref_of "B02_10m"); Manifest.B03 := Some (ref_of "B03_10m");
               Manifest.B04 := Some (ref_of "B04_10m") |};
     Manifest.index :=
       Some {| Manifest.B08 := Some (ref_of "B08_10m"); Manifest.B11 := Some (ref_of "B11_20m");
               Manifest.SCL := Some (ref_of "SCL_20m") |} |}.

(** A disk with the three 10 m bands of the scene, two pixels each, and
    neither B11 nor SCL. *)
Definition world_no_scl : Indices.World :=
  {| Indices.jp2 :=
       <[ ["downloads";"S2_TOPK_JP2";"ICEYE";"scene-05";"scene-05_B03_10m.jp2"] := [600; 900] ]>
       (<[ ["downloads";"S2_TOPK_JP2";"ICEYE";"scene-05";"scene-05_B04_10m.jp2"] := [400; 0] ]>
       (<[ ["downloads";"S2_TOPK_JP2";"ICEYE";"scene-05";"scene-05_B08_10m.jp2"] := [800; 0] ]>
        ∅));
     Indices.written := ∅;
     Indices.stdout := [] |}.

(** *** The stretch *)

(** A percentile for the examples, after numpy's default method [linear]:
    the sorted samples are interpolated at position [(n - 1) * q / 100]. It
    interpolates in double precision, where numpy stays in the precision of
    its input; the properties are stated for any percentile function. *)
Fixpoint insert_float (x : spec_float) (l : list spec_float) : list spec_float :=
  match l with
  | [] => [x]
  | y :: l' => if Float.ltb x y then x :: l else y :: insert_float x l'
  end.

Definition percentile_linear : Np.Percentile := fun a q =>
  let s := List.fold_right insert_float [] (List.map Np.float_of_f32 a) in
  match s with
  | [] => Float.nan
  | x0 :: _ =>
      if List.existsb Float.isnan s then Float.nan
      else
        let pos := (Z.of_nat (length s) - 1) * q in
        let i := Z.to_nat (pos / 100) in
        let g := F64.div (F64.of_Z (pos mod 100)) (F64.of_Z 100) in
        let a_i := nth i s x0 in
        let b_i := nth (Nat.min (i + 1) (length s - 1)) s x0 in
        F64.add a_i (F64.mul (F64.sub b_i a_i) g)
  end.

Definition nanpercentile_linear : Np.Percentile := fun a q =>
  percentile_linear (Np.not_nan a) q.

(** A channel of a hundred samples: ninety-nine 5 and one 7. *)
Definition chan_5_7 : list spec_float := repeat (F32.of_Z 5) 99 ++ [F32.of_Z 7].

(** A flat channel. *)
Definition chan_flat : list spec_float := repeat (F32.of_Z 5) 4.

(** A channel with a spread. *)
Definition chan_ramp : list spec_float := List.map F32.of_Z [100; 200; 300; 400].

(** The check behind the widened range of a 16-bit sample [z]: with
    [lo = float(z)], [lo + 1.0] is above [lo] and [(lo + 1.0) - lo] is 1. *)
Definition widen_check (z : Z) : bool :=
  let lo := Np.float_of_f32 (F32.of_Z z) in
  Float.ltb lo (F64.add lo F64.one) &&
  match F64.sub (F64.add lo F64.one) lo with
  | S754_finite false 4503599627370496 (-52) => true
  | _ => false
  end.

(** The integers [z], [z + 1], ..., [z + n - 1]. *)
Fixpoint upto (n : nat) (z : Z) : list Z :=
  match n with
  | O => []
  | S n' => z :: upto n' (z + 1)
  end.

(** ** [write_geotiff] of [s2_make_indices.py]: the profile of an output *)

Module Geotiff.

(** A value of a rasterio profile: a string, an integer, a float, a boolean,
    or an object such as the CRS or the affine transform (kept by a number
    that tells such objects apart). *)
Inductive value : Type :=
  | Str (s : string)
  | Int (z : Z)
  | Flt (f : spec_float)
  | Bool (b : bool)
  | Obj (n : nat).

Abbreviation Profile := (gmap string value).

(** [profile.update(driver="GTiff", dtype="float32", count=1, nodata=np.nan,
    compress="DEFLATE", predictor=2, tiled=True)] on a copy of the reference
    profile. *)
Definition update (profile : Profile) : Profile :=
  <["tiled" := Bool true]>
  (<["predictor" := Int 2]>
  (<["compress" := Str "DEFLATE"]>
  (<["nodata" := Flt Float.nan]>
  (<["count" := Int 1]>
  (<["dtype" := Str "float32"]>
  (<["driver" := Str "GTiff"]> profile)))))).

(** The profile [write_geotiff] opens the output with: the updated copy
    without [photometric] and [interleave]. *)
Definition write_geotiff_profile (ref_profile : Profile) : Profile :=
  delete "interleave" (delete "photometric" (update ref_profile)).

End Geotiff.

(** ** [main] of [s2_make_compare_png.py]: the triplet of a target *)

Module CompareStage.
Import Manifest.

(** [Path(r".\downloads") / "S2_TOPK_JP2"] *)
Definition dl_root : path := ["downloads"; "S2_TOPK_JP2"].

(** An entry of [triplet]: [{"id": .., "datetime": .., "eo:cloud_cover": ..,
    "paths": ..}]. *)
Record Entry : Type := {
  e_id : string;
  e_datetime : option dt_value;
  e_cloud_cover : option cloud_value;
  e_paths : list (string * path);
}.

(** The dictionary [paths] of a candidate, in its order. *)
Definition paths (sensor item_id : string) : list (string * path) :=
  let base := dl_root ++ [sensor; item_id] in
  [ ("B02", base ++ [item_id +:+ "_B02_10m.jp2"]);
    ("B03", base ++ [item_id +:+ "_B03_10m.jp2"]);
    ("B04", base ++ [item_id +:+ "_B04_10m.jp2"]) ].

(** [for band, p in paths.items(): if not p.exists(): raise FileNotFoundError] *)
Fixpoint check_paths (exists_ : path -> bool) (ps : list (string * path)) : result unit :=
  match ps with
  | [] => Ok tt
  | (_, p) :: rest =>
      if negb (exists_ p) then Raise FileNotFoundError else check_paths exists_ rest
  end.

(** One round of [for i in range(n)]. *)
Definition triplet_entry (exists_ : path -> bool) (sensor : string) (cand : Candidate)
    : result Entry :=
  let item_id := cand_id cand in
  let ps := paths sensor item_id in
  _ ← check_paths exists_ ps;
  Ok {| e_id := item_id; e_datetime := cand_datetime cand;
        e_cloud_cover := cand_cloud_cover cand; e_paths := ps |}.

Fixpoint triplet_rounds (exists_ : path -> bool) (sensor : string) (cands : list Candidate)
    : result (list Entry) :=
  match cands with
  | [] => Ok []
  | cand :: rest =>
      e ← triplet_entry exists_ sensor cand;
      es ← triplet_rounds exists_ sensor rest;
      Ok (e :: es)
  end.

(** [triplet] of a target with [candidates]: the rounds [i = 0 .. n - 1]
    with [n = min(3, len(candidates))]. *)
Definition triplet (exists_ : path -> bool) (sensor : string) (candidates : list Candidate)
    : result (list Entry) :=
  let n := Nat.min 3 (length candidates) in
  triplet_rounds exists_ sensor (firstn n candidates).

End CompareStage.

(** ** Vocabulary of the further properties *)

(** *** The selector *)

(** The asset [k] of an item can be referenced: it is there and its [href]
    is not empty. *)
Definition usable (assets : gmap string Pick.Asset) (k : string) : Prop :=
  exists a h, assets !! k = Some a /\ Pick.asset_href a = Some h /\ h <> "".

(** The references of a manifest entry, each under the name of the STAC asset
    the selector reads it from. *)
Definition entry_refs (e : Manifest.AssetEntry) : list (string * option Manifest.AssetRef) :=
  [("TCI_10m", Manifest.tci e)]
  ++ match Manifest.bands e with
     | Some b => [("B02_10m", Manifest.B02 b); ("B03_10m", Manifest.B03 b);
                  ("B04_10m", Manifest.B04 b)]
     | None => []
     end
  ++ match Manifest.index e with
     | Some x => [("B08_10m", Manifest.B08 x); ("B11_20m", Manifest.B11 x);
                  ("SCL_20m", Manifest.SCL x)]
     | None => []
     end.

(** An asset with an [href]. *)
Definition asset_at (h : string) : Pick.Asset :=
  {| Pick.asset_href := Some h; Pick.asset_media_type := Some "image/jp2" |}.

(** A scene with the seven assets the selector looks for. *)
Definition item_full : Pick.Item :=
  {| Pick.id := "scene-full"; Pick.datetime := Some (Manifest.DtInstant target_2021);
     Pick.cloud_cover := Some (Manifest.CloudNum (F64.of_Z 5)); Pick.epsg := Some 32652;
     Pick.assets :=
       list_to_map
         [("TCI_10m", asset_at "s3://eodata/scene-full/TCI_10m.jp2");
          ("B02_10m", asset_at "s3://eodata/scene-full/B02_10m.jp2");
          ("B03_10m", asset_at "s3://eodata/scene-full/B03_10m.jp2");
          ("B04_10m", asset_at "s3://eodata/scene-full/B04_10m.jp2");
          ("B08_10m", asset_at "s3://eodata/scene-full/B08_10m.jp2");
          ("B11_20m", asset_at "s3://eodata/scene-full/B11_20m.jp2");
          ("SCL_20m", asset_at "s3://eodata/scene-full/SCL_20m.jp2")] |}.

(** The same scene without its blue band. *)
Definition item_no_b02 : Pick.Item :=
  {| Pick.id := "scene-no-b02"; Pick.datetime := Pick.datetime item_full;
     Pick.cloud_cover := Pick.cloud_cover item_full; Pick.epsg := Pick.epsg item_full;
     Pick.assets := delete "B02_10m" (Pick.assets item_full) |}.

(** A scene whose [datetime] does not parse, and a catalog that returns it
    after a good one. *)
Definition item_bad_dt : Pick.Item :=
  {| Pick.id := "scene-bad"; Pick.datetime := Some Manifest.DtBad;
     Pick.cloud_cover := Some (Manifest.CloudNum (F64.of_Z 1)); Pick.epsg := None;
     Pick.assets := ∅ |}.

Definition client_bad : Pick.Client := fun _ => [item_5; item_bad_dt].

(** A scene without a cloud cover and without assets, and a catalog that
    returns it before an ordinary one. *)
Definition item_no_cloud : Pick.Item :=
  {| Pick.id := "scene-no-cloud"; Pick.datetime := Some (Manifest.DtInstant target_2021);
     Pick.cloud_cover := None; Pick.epsg := None; Pick.assets := ∅ |}.

Definition client_no_cloud : Pick.Client := fun _ => [item_no_cloud; item_5].

(** A catalog that has scenes only for the widest search. *)
Definition client_wide : Pick.Client := fun q =>
  if Float.leb Pick.f100 (Pick.q_cloud_lt q) then [item_50; item_5] else [].

(** The search the default configuration starts with around 2021-01-21, and
    the widest one. *)
Definition su_default : Manifest.SearchUsed :=
  {| Manifest.used_start_day := 737807; Manifest.used_end_day := 737813;
     Manifest.used_cloud_lt := F64.of_Z 20; Manifest.used_window_days := 3 |}.

Definition su_widest : Manifest.SearchUsed :=
  {| Manifest.used_start_day := 737800; Manifest.used_end_day := 737820;
     Manifest.used_cloud_lt := Pick.f100; Manifest.used_window_days := 10 |}.

(** A scene as cloudy as [item_15], as far after the target as [item_15] is
    before it. *)
Definition item_15_after : Pick.Item :=
  {| Pick.id := "scene-15-after";
     Pick.datetime := Some (Manifest.DtInstant (target_2021 + 7200000000));
     Pick.cloud_cover := Some (Manifest.CloudNum (F64.of_Z 15)); Pick.epsg := None;
     Pick.assets := ∅ |}.

(** *** The stages as state transformers *)

(** [m] takes every world to one that [R] relates to it, whether it returns
    or raises, and when it returns the world it leaves satisfies [Q]. *)
Definition post {S A : Type} (R : S -> S -> Prop) (m : M S A) (Q : S -> Prop) : Prop :=
  forall w, R w (snd (m w)) /\ (forall a, fst (m w) = Ok a -> Q (snd (m w))).

(** *** The download stage *)

(** The files [F] hold a file at [p], and an empty one only if the object
    store serves an empty object. *)
Definition held (s3 : Download.S3) (F : gmap path (list Byte.byte)) (p : path) : Prop :=
  exists bytes, F !! p = Some bytes /\ (bytes = [] -> exists b k, s3 b k = Some []).

(** What the download stage keeps from a world [w] to a later one [w']: a
    file that is not empty keeps its bytes, a file fetched stays fetched, a
    path that is not [good] keeps what it holds, no file and no directory
    disappears, and requests are only added. *)
Definition kept (s3 : Download.S3) (good : path -> Prop) (w w' : Download.World) : Prop :=
  (forall p, nonempty_at (Download.files w) p ->
             Download.files w' !! p = Download.files w !! p) /\
  (forall p, held s3 (Download.files w) p -> held s3 (Download.files w') p) /\
  (forall p, ~ good p -> Download.files w' !! p = Download.files w !! p) /\
  (forall p, is_Some (Download.files w !! p) -> is_Some (Download.files w' !! p)) /\
  (forall d, d ∈ Download.dirs w -> d ∈ Download.dirs w') /\
  (exists reqs, Download.net w' = Download.net w ++ reqs).

(** A destination the manifest names. *)
Definition listed (targets : list Manifest.Target) (p : path) : Prop :=
  exists t, In t targets /\ In p (target_paths t).

(** The empty disk. *)
Definition world_empty : Download.World :=
  {| Download.files := ∅; Download.dirs := ∅; Download.net := []; Download.stdout := [] |}.

(** A character that [urlparse] leaves where it is: a printable one other
    than [?], [#] and the square brackets. *)
Definition url_char (a : Ascii.ascii) : bool :=
  let n := Ascii.nat_of_ascii a in
  ((33 <=? n) && (n <=? 126) && negb (n =? 63) && negb (n =? 35)
   && negb (n =? 91) && negb (n =? 93))%nat.

Definition not_slash (a : Ascii.ascii) : bool := negb (Ascii.eqb a "/"%char).

(** [m] raises nothing but the exceptions [E]. *)
Definition raises_only {S A : Type} (E : exn -> Prop) (m : M S A) : Prop :=
  forall w e, fst (m w) = Raise e -> E e.

(** The exceptions of a transfer: a reference that [parse_s3_href] rejects,
    a request the store refuses. *)
Definition transfer_error (e : exn) : Prop := e = ValueError \/ e = ClientError.

(** An entry whose bands lack the green one, and an entry whose index assets
    have no reference at all. *)
Definition entry_no_b03 : Manifest.AssetEntry :=
  {| Manifest.entry_id := "scene-05"; Manifest.tci := None;
     Manifest.bands :=
       Some {| Manifest.B02 := Some (ref_of "B02_10m"); Manifest.B03 := None;
               Manifest.B04 := Some (ref_of "B04_10m") |};
     Manifest.index := None |}.

Definition entry_no_index_refs : Manifest.AssetEntry :=
  {| Manifest.entry_id := "scene-05"; Manifest.tci := None; Manifest.bands := None;
     Manifest.index :=
       Some {| Manifest.B08 := None; Manifest.B11 := None; Manifest.SCL := None |} |}.

(** The reference the selector writes for the asset [name] of [item_full]. *)
Definition full_ref (name : string) : Manifest.AssetRef :=
  {| Manifest.key := Some name;
     Manifest.href := "s3://eodata/scene-full/" +:+ name +:+ ".jp2";
     Manifest.type := Some "image/jp2" |}.

(** *** The index stage *)

(** The six assets an item needs for the index stage to go on with it. *)
Definition six_assets (it : Pick.Item) : Prop :=
  usable (Pick.assets it) "B02_10m" /\ usable (Pick.assets it) "B03_10m" /\
  usable (Pick.assets it) "B04_10m" /\ usable (Pick.assets it) "B08_10m" /\
  usable (Pick.assets it) "B11_20m" /\ usable (Pick.assets it) "SCL_20m".

(** A disk with the three 10 m bands of the scene and its SCL raster, two
    pixels each: the second pixel is a cloud (class 9). *)
Definition world_with_scl : Indices.World :=
  {| Indices.jp2 :=
       <[ ["downloads";"S2_TOPK_JP2";"ICEYE";"scene-05";"scene-05_SCL_20m.jp2"] := [4; 9] ]>
       (<[ ["downloads";"S2_TOPK_JP2";"ICEYE";"scene-05";"scene-05_B03_10m.jp2"] := [600; 900] ]>
       (<[ ["downloads";"S2_TOPK_JP2";"ICEYE";"scene-05";"scene-05_B04_10m.jp2"] := [400; 300] ]>
       (<[ ["downloads";"S2_TOPK_JP2";"ICEYE";"scene-05";"scene-05_B08_10m.jp2"] := [800; 500] ]>
        ∅)));
     Indices.written := ∅;
     Indices.stdout := [] |}.

(** *** The stretch *)

(** A channel without a positive sample: two pixels at zero. *)
Definition chan_zero : list spec_float := List.map F32.of_Z [0; 0].

(** *** The later stages *)

(** [p.exists()] on the disk the download stage left. *)
Definition on_disk (w : Download.World) (p : path) : bool :=
  bool_decide (is_Some (Download.files w !! p)) || bool_decide (p ∈ Download.dirs w).

(** A manifest target as the selector writes it for the items [items]. *)
Definition target_of (sensor : string) (target_dt : Z) (su : Manifest.SearchUsed)
    (items : list Pick.Item) : Manifest.Target :=
  {| Manifest.sensor := sensor;
     Manifest.res := Manifest.StatusOk target_dt su (List.map Pick.to_candidate items)
                       (List.map Pick.to_asset_entry items) |}.

(** A reference profile as rasterio reads it from a JP2 raster. *)
Definition profile_jp2 : Geotiff.Profile :=
  list_to_map
    [("driver", Geotiff.Str "JP2OpenJPEG"); ("dtype", Geotiff.Str "uint16");
     ("nodata", Geotiff.Flt (F64.of_Z 0)); ("width", Geotiff.Int 10980);
     ("height", Geotiff.Int 10980); ("count", Geotiff.Int 1);
     ("crs", Geotiff.Obj 1); ("transform", Geotiff.Obj 0);
     ("interleave", Geotiff.Str "band"); ("tiled", Geotiff.Bool true)].

(** The manifest of one target with one scene, [item_full]. *)
Definition target_full : Manifest.Target := target_of "ICEYE" target_2021 su_default [item_full].

(** The three band files of [item_full] for the sensor ICEYE. *)
Definition full_band_files : list path :=
  List.map snd (CompareStage.paths "ICEYE" "scene-full").

(** A channel of a hundred valid samples, and the same channel with two
    pixels without data in front. *)
Definition chan_hundred : list spec_float :=
  List.map F32.of_Z (upto 100 1).

Definition chan_hundred_nodata : list spec_float :=
  [F32.zero; Float.nan] ++ chan_hundred.

(** * Properties *)

(** ** IEEE-754 numbers: rounding never invents a NaN *)

Section FloatFacts.

Variables prec emax : Z.

Lemma shr_1_nonneg (mrs : shr_record) :
  0 <= shr_m mrs -> 0 <= shr_m (shr_1 mrs).
Proof.
  destruct mrs as [m r s]; simpl.
  destruct m as [|p|p]; simpl; try lia; intros _; destruct p; simpl; lia.
Qed.

Lemma iter_pos_shr_1_nonneg (p : positive) (mrs : shr_record) :
  0 <= shr_m mrs -> 0 <= shr_m (SpecFloat.iter_pos shr_1 p mrs).
Proof.
  revert mrs; induction p as [p IH|p IH|]; intros mrs H; simpl.
  - apply IH, IH, shr_1_nonneg, H.
  - apply IH, IH, H.
  - apply shr_1_nonneg, H.
Qed.

Lemma shr_fexp_nonneg (m e : Z) (l : location) :
  0 <= m -> 0 <= shr_m (fst (shr_fexp prec emax m e l)).
Proof.
  intros Hm. unfold shr_fexp, shr.
  assert (H0 : 0 <= shr_m (shr_record_of_loc m l)).
  { destruct l as [|[ | | ]]; simpl; exact Hm. }
  destruct (fexp prec emax (Zdigits2 m + e) - e) as [|p|p]; simpl; auto.
  apply iter_pos_shr_1_nonneg, H0.
Qed.

Lemma round_nearest_even_nonneg (m : Z) (l : location) :
  0 <= m -> 0 <= round_nearest_even m l.
Proof.
  intros Hm. destruct l as [|[ | | ]]; simpl; try lia.
  destruct (Z.even m); lia.
Qed.

(** Rounding a non-negative mantissa gives a zero, a finite number or an
    infinity. *)
Lemma binary_round_aux_not_nan (s : bool) (m e : Z) (l : location) :
  0 <= m -> binary_round_aux prec emax s m e l <> S754_nan.
Proof.
  intros Hm. unfold binary_round_aux.
  pose proof (shr_fexp_nonneg m e l Hm) as H1.
  destruct (shr_fexp prec emax m e l) as [mrs' e'] eqn:E1. simpl in H1.
  pose proof (shr_fexp_nonneg _ e' loc_Exact
                (round_nearest_even_nonneg _ (loc_of_shr_record mrs') H1)) as H2.
  destruct (shr_fexp prec emax (round_nearest_even (shr_m mrs') (loc_of_shr_record mrs'))
              e' loc_Exact) as [mrs'' e''] eqn:E2.
  simpl in H2.
  destruct (shr_m mrs'') as [|p|p]; try discriminate; try lia.
  destruct (e'' <=? emax - prec); discriminate.
Qed.

Lemma SFdiv_core_binary_nonneg (m1 m2 : positive) (e1 e2 : Z) :
  0 <= fst (fst (SFdiv_core_binary prec emax (Zpos m1) e1 (Zpos m2) e2)).
Proof.
  unfold SFdiv_core_binary.
  set (e' := Z.min _ _). set (s := e1 - e2 - e').
  set (m' := match s with Zpos _ => Z.shiftl (Zpos m1) s | Z0 => Zpos m1 | Zneg _ => 0 end).
  assert (Hm' : 0 <= m').
  { subst m'. destruct s; try lia. apply Z.shiftl_nonneg. lia. }
  pose proof (Z_div_mod m' (Zpos m2) eq_refl) as Hdiv.
  destruct (Z.div_eucl m' (Zpos m2)) as [q r]. simpl.
  destruct Hdiv as [Heq Hr]. nia.
Qed.

(** A quotient is NaN only when an operand is NaN, both are infinite or both
    are zero. *)
Lemma SFdiv_finite_not_nan (x y : spec_float) :
  Float.isnan x = false -> Float.isfinite y = true -> SFeqb y (S754_zero false) = false ->
  SFdiv prec emax x y <> S754_nan.
Proof.
  intros Hx Hy Hy0.
  destruct y as [sy|sy| |sy my ey]; try discriminate.
  destruct x as [sx|sx| |sx mx ex]; try discriminate.
  simpl.
  pose proof (SFdiv_core_binary_nonneg mx my ex ey) as Hq.
  destruct (SFdiv_core_binary prec emax (Zpos mx) ex (Zpos my) ey) as [[mz ez] lz].
  simpl in Hq. apply binary_round_aux_not_nan, Hq.
Qed.

End FloatFacts.


(** ** The order of the numbers *)

Lemma SFcompare_rank (x y : spec_float) (c : comparison) :
  SFcompare x y = Some c -> cmp_rank c x y.
Proof.
  destruct x as [[]|[]| |[] mx ex], y as [[]|[]| |[] my ey]; simpl;
    intros H; inversion H; subst; clear H; simpl; try lia; try reflexivity.
  - change (Pos.compare_cont Eq mx my) with (Pos.compare mx my).
    destruct (Z.compare_spec ex ey), (Pos.compare_spec mx my); subst; simpl;
      try reflexivity; lia.
  - change (Pos.compare_cont Eq mx my) with (Pos.compare mx my).
    destruct (Z.compare_spec ex ey), (Pos.compare_spec mx my); subst; simpl;
      try reflexivity; lia.
Qed.

Lemma SFcompare_total (x y : spec_float) :
  Float.isnan x = false -> Float.isnan y = false -> exists c, SFcompare x y = Some c.
Proof.
  destruct x as [[]|[]| |[] mx ex], y as [[]|[]| |[] my ey]; simpl;
    intros Hx Hy; try discriminate; eauto.
Qed.

Lemma lex3_lt_irrefl (a : Z * Z * Z) : ~ lex3_lt a a.
Proof. destruct a as [[a1 a2] a3]. simpl. lia. Qed.

Lemma lex3_lt_asym (a b : Z * Z * Z) : lex3_lt a b -> ~ lex3_lt b a.
Proof. destruct a as [[a1 a2] a3], b as [[b1 b2] b3]. simpl. lia. Qed.

Lemma lex3_lt_trans (a b c : Z * Z * Z) : lex3_lt a b -> lex3_lt b c -> lex3_lt a c.
Proof.
  destruct a as [[a1 a2] a3], b as [[b1 b2] b3], c as [[c1 c2] c3]. simpl. lia.
Qed.

Lemma lex3_trichotomy (a b : Z * Z * Z) : lex3_lt a b \/ a = b \/ lex3_lt b a.
Proof.
  destruct a as [[a1 a2] a3], b as [[b1 b2] b3]. simpl.
  destruct (Z.lt_total a1 b1) as [|[|]]; [lia| |lia].
  destruct (Z.lt_total a2 b2) as [|[|]]; [lia| |lia].
  destruct (Z.lt_total a3 b3) as [|[|]]; [lia| |lia].
  subst. auto.
Qed.

Lemma ltb_rank (x y : spec_float) :
  Float.isnan x = false -> Float.isnan y = false ->
  (Float.ltb x y = true <-> lex3_lt (rank x) (rank y)).
Proof.
  intros Hx Hy. unfold Float.ltb, SFltb.
  destruct (SFcompare_total x y Hx Hy) as [c Hc]. rewrite Hc.
  pose proof (SFcompare_rank x y c Hc) as Hr.
  destruct c; simpl in Hr; split; intros H; try discriminate; try reflexivity; try exact Hr.
  - rewrite Hr in H. destruct (lex3_lt_irrefl _ H).
  - destruct (lex3_lt_asym _ _ H Hr).
Qed.

Lemma eqb_rank (x y : spec_float) :
  Float.isnan x = false -> Float.isnan y = false ->
  (Float.eqb x y = true <-> rank x = rank y).
Proof.
  intros Hx Hy. unfold Float.eqb, SFeqb.
  destruct (SFcompare_total x y Hx Hy) as [c Hc]. rewrite Hc.
  pose proof (SFcompare_rank x y c Hc) as Hr.
  destruct c; simpl in Hr; split; intros H; try discriminate; try reflexivity; try exact Hr.
  - rewrite H in Hr. destruct (lex3_lt_irrefl _ Hr).
  - rewrite H in Hr. destruct (lex3_lt_irrefl _ Hr).
Qed.

Lemma leb_rank (x y : spec_float) :
  Float.isnan x = false -> Float.isnan y = false ->
  (Float.leb x y = true <-> lex3_lt (rank x) (rank y) \/ rank x = rank y).
Proof.
  intros Hx Hy. unfold Float.leb, SFleb.
  destruct (SFcompare_total x y Hx Hy) as [c Hc]. rewrite Hc.
  pose proof (SFcompare_rank x y c Hc) as Hr.
  destruct c; simpl in Hr; split; intros H; try discriminate; try reflexivity; auto.
  destruct H as [H|H].
  - destruct (lex3_lt_asym _ _ H Hr).
  - rewrite H in Hr. destruct (lex3_lt_irrefl _ Hr).
Qed.

(** A comparison that holds has no NaN on either side. *)
Lemma leb_not_nan (x y : spec_float) :
  Float.leb x y = true -> Float.isnan x = false /\ Float.isnan y = false.
Proof.
  unfold Float.leb, SFleb.
  destruct x as [[]|[]| |[] mx ex], y as [[]|[]| |[] my ey]; simpl; intros H;
    try discriminate; auto.
Qed.

Lemma leb_refl (x : spec_float) : Float.isnan x = false -> Float.leb x x = true.
Proof. intros H. apply leb_rank; auto. Qed.

Lemma ltb_leb (x y : spec_float) : Float.ltb x y = true -> Float.leb x y = true.
Proof.
  unfold Float.ltb, Float.leb, SFltb, SFleb.
  destruct (SFcompare x y) as [[]|]; intros H; try discriminate; reflexivity.
Qed.

(** ** [s2_make_indices.py]: [safe_index] and the SCL mask *)

Section IndexFacts.
Import Indices.

Lemma map2_length {A B C : Type} (f : A -> B -> C) (xs : list A) (ys : list B) :
  length xs = length ys -> length (map2 f xs ys) = length xs.
Proof.
  intros H. unfold map2. rewrite length_map, length_combine. lia.
Qed.

Lemma map2_lookup {A B C : Type} (f : A -> B -> C) (xs : list A) (ys : list B)
    (i : nat) (x : A) (y : B) :
  xs !! i = Some x -> ys !! i = Some y -> map2 f xs ys !! i = Some (f x y).
Proof.
  revert ys i. induction xs as [|x0 xs IH]; intros ys i Hx Hy.
  - destruct i; discriminate.
  - destruct ys as [|y0 ys]; [destruct i; discriminate|].
    destruct i as [|i]; simpl in *.
    + congruence.
    + apply IH; assumption.
Qed.

Lemma same_shape_true {A B : Type} (xs : list A) (ys : list B) :
  length xs = length ys -> same_shape xs ys = true.
Proof. intros H. unfold same_shape. apply Nat.eqb_eq, H. Qed.






Lemma set_nan_where_ok (arr : array) (mask_bad : list bool) :
  length arr = length mask_bad ->
  set_nan_where arr mask_bad
    = Ok (map2 (fun x (b : bool) => if b then Float.nan else x) arr mask_bad).
Proof.
  intros H. unfold set_nan_where. rewrite same_shape_true by exact H. reflexivity.
Qed.

Lemma isin_length (scl codes : list Z) : length (isin scl codes) = length scl.
Proof. unfold isin. apply length_map. Qed.

Lemma isin_lookup (scl codes : list Z) (i : nat) (c : Z) :
  scl !! i = Some c -> isin scl codes !! i = Some (bool_decide (c ∈ codes)).
Proof. intros H. unfold isin. rewrite list_lookup_fmap, H. reflexivity. Qed.

(** The codes of [SCL_EXCLUDE] are 0..3 and 7..11. *)
Lemma SCL_EXCLUDE_codes (c : Z) :
  c ∈ SCL_EXCLUDE <-> 0 <= c <= 3 \/ 7 <= c <= 11.
Proof.
  unfold SCL_EXCLUDE. rewrite !elem_of_cons, elem_of_nil. lia.
Qed.

(** A pixel of a masked array. *)
Lemma set_nan_where_lookup (arr : array) (scl : list Z) (i : nat) (c : Z) :
  length arr = length scl -> scl !! i = Some c ->
  map2 (fun x (b : bool) => if b then Float.nan else x) arr (isin scl SCL_EXCLUDE) !! i
  = if bool_decide (c ∈ SCL_EXCLUDE) then Some Float.nan else arr !! i.
Proof.
  intros Hlen Hc.
  assert (Hi : (i < length arr)%nat).
  { rewrite Hlen. apply lookup_lt_Some in Hc. exact Hc. }
  destruct (lookup_lt_is_Some_2 arr i Hi) as [x Hx].
  rewrite (map2_lookup _ arr _ i x _ Hx (isin_lookup scl SCL_EXCLUDE i c Hc)).
  destruct (bool_decide (c ∈ SCL_EXCLUDE)); [reflexivity|symmetry; exact Hx].
Qed.

(** C7: when the mask is applied (the SCL raster was read), every pixel whose
    code is one of 0, 1, 2, 3, 7, 8, 9, 10, 11 is NaN in NDVI, in NDWI and in
    MNDWI when it was computed, whatever the index was there before; every
    other pixel keeps its value. The mask never raises on rasters of one
    shape. *)
Theorem scl_mask_spec (scl : list Z) (ndvi ndwi : array) (mndwi : option array) :
  length ndvi = length scl -> length ndwi = length scl ->
  match mndwi with Some m => length m = length scl | None => True end ->
  exists (ndvi' ndwi' : array) (mndwi' : option array),
    apply_scl_mask (Some scl) ndvi ndwi mndwi = Ok (ndvi', ndwi', mndwi') /\
    (is_Some mndwi' <-> is_Some mndwi) /\
    forall (i : nat) (c : Z), scl !! i = Some c ->
      (0 <= c <= 3 \/ 7 <= c <= 11 ->
         ndvi' !! i = Some Float.nan /\ ndwi' !! i = Some Float.nan /\
         forall m', mndwi' = Some m' -> m' !! i = Some Float.nan) /\
      (~ (0 <= c <= 3 \/ 7 <= c <= 11) ->
         ndvi' !! i = ndvi !! i /\ ndwi' !! i = ndwi !! i /\
         forall m m', mndwi = Some m -> mndwi' = Some m' -> m' !! i = m !! i).
Proof.
  intros Hv Hw Hm.
  set (mask := fun arr : array =>
         map2 (fun x (b : bool) => if b then Float.nan else x) arr (isin scl SCL_EXCLUDE)).
  exists (mask ndvi), (mask ndwi), (mask <$> mndwi).
  split; [|split].
  - unfold apply_scl_mask.
    rewrite !set_nan_where_ok by (rewrite isin_length; assumption). simpl.
    destruct mndwi as [m|]; simpl; [|reflexivity].
    rewrite set_nan_where_ok by (rewrite isin_length; exact Hm).
    reflexivity.
  - destruct mndwi; simpl; split; intros [x Hx]; eauto; discriminate.
  - intros i c Hc.
    pose proof (SCL_EXCLUDE_codes c) as Hcodes.
    split; intros Hin.
    + assert (Hd : bool_decide (c ∈ SCL_EXCLUDE) = true)
        by (apply bool_decide_eq_true, Hcodes, Hin).
      repeat split.
      * unfold mask; cbv beta. rewrite (set_nan_where_lookup ndvi scl i c Hv Hc), Hd. reflexivity.
      * unfold mask; cbv beta. rewrite (set_nan_where_lookup ndwi scl i c Hw Hc), Hd. reflexivity.
      * intros m' Hm'. destruct mndwi as [m|]; simpl in Hm'; [|discriminate].
        inversion Hm'; subst m'. unfold mask; cbv beta.
        rewrite (set_nan_where_lookup m scl i c Hm Hc), Hd. reflexivity.
    + assert (Hd : bool_decide (c ∈ SCL_EXCLUDE) = false).
      { apply bool_decide_eq_false. intros Hc'. apply Hin, Hcodes, Hc'. }
      repeat split.
      * unfold mask; cbv beta. rewrite (set_nan_where_lookup ndvi scl i c Hv Hc), Hd. reflexivity.
      * unfold mask; cbv beta. rewrite (set_nan_where_lookup ndwi scl i c Hw Hc), Hd. reflexivity.
      * intros m m' Hm0 Hm'. subst mndwi. simpl in Hm'. inversion Hm'; subst m'.
        unfold mask; cbv beta.
        rewrite (set_nan_where_lookup m scl i c Hm Hc), Hd. reflexivity.
Qed.

Lemma scl_mask_spec_witness :
  let one := F32.of_Z 1 in
  let scl := [4; 9] in
  let ndvi := [one; one] in
  let ndwi := [one; Float.nan] in
  let mndwi := Some [Float.inf; one] in
  exists (ndvi' ndwi' : array) (mndwi' : option array),
    apply_scl_mask (Some scl) ndvi ndwi mndwi = Ok (ndvi', ndwi', mndwi') /\
    (is_Some mndwi' <-> is_Some mndwi) /\
    forall (i : nat) (c : Z), scl !! i = Some c ->
      (0 <= c <= 3 \/ 7 <= c <= 11 ->
         ndvi' !! i = Some Float.nan /\ ndwi' !! i = Some Float.nan /\
         forall m', mndwi' = Some m' -> m' !! i = Some Float.nan) /\
      (~ (0 <= c <= 3 \/ 7 <= c <= 11) ->
         ndvi' !! i = ndvi !! i /\ ndwi' !! i = ndwi !! i /\
         forall m m', mndwi = Some m -> mndwi' = Some m' -> m' !! i = m !! i).
Proof.
  intros one scl ndvi ndwi mndwi.
  apply (scl_mask_spec scl ndvi ndwi mndwi); reflexivity.
Defined.

End IndexFacts.

(** ** [s2_stac_pick_cloudfree.py]: the escalation plan *)

Section PlanFacts.
Import Pick.

(** C3, the claim as stated fails: from a ceiling above 100 the last tier
    comes back to 100. With [cloud_lt = 150.0] the tiers are [(3, 150.0)],
    [(5, 150.0)], [(10, 100.0)], and the third ceiling is below the second. *)
Lemma plan_tightens_above_100 :
  plan cfg_150 = [(3, F64.of_Z 150); (5, F64.of_Z 150); (10, F64.of_Z 100)] /\
  ~ Sorted tier_le (plan cfg_150).
Proof.
  split; [reflexivity|].
  intros H. inversion H as [|t1 l1 H1 _]; subst.
  inversion H1 as [|t2 l2 _ H2]; subst.
  inversion H2 as [|t3 l3 [_ Hc]]; subst.
  vm_compute in Hc. discriminate Hc.
Qed.

(** C3 (amended): the half-window never decreases from a tier to the next,
    for every starting criteria; and for every starting ceiling [cloud_lt] of
    at most 100 (a percentage) the ceiling never decreases either, so that
    each tier is no tighter than the one before it. *)
Theorem plan_non_decreasing (cfg : PickConfig) :
  Sorted (fun t1 t2 : Tier => fst t1 <= fst t2) (plan cfg) /\
  (Float.leb (cloud_lt cfg) f100 = true -> Sorted tier_le (plan cfg)).
Proof.
  split.
  { unfold plan. repeat constructor; simpl; lia. }
  intros H100.
  destruct (leb_not_nan _ _ H100) as [Hnan _].
  assert (Hmax1 : Float.leb (cloud_lt cfg) (py_max (cloud_lt cfg) f40) = true).
  { unfold py_max, Float.gtb.
    destruct (SFltb (cloud_lt cfg) f40) eqn:E.
    - apply ltb_leb, E.
    - apply leb_refl, Hnan. }
  assert (Hmax2 : Float.leb (py_max (cloud_lt cfg) f40) f100 = true).
  { unfold py_max, Float.gtb.
    destruct (SFltb (cloud_lt cfg) f40) eqn:E.
    - reflexivity.
    - exact H100. }
  unfold plan. repeat constructor; simpl; try lia; assumption.
Qed.

Lemma plan_non_decreasing_witness :
  let cfg := {| bbox := []; collection := "sentinel-2-l2a"; window_days := 3;
                cloud_lt := F64.of_Z 20; max_items := 200; prefer_same_orbit := false |} in
  Float.leb (cloud_lt cfg) f100 = true /\
  Sorted (fun t1 t2 : Tier => fst t1 <= fst t2) (plan cfg) /\
  Sorted tier_le (plan cfg).
Proof.
  intros cfg. split; [reflexivity|]. split.
  - exact (proj1 (plan_non_decreasing cfg)).
  - apply (proj2 (plan_non_decreasing cfg)). reflexivity.
Defined.

End PlanFacts.

(** ** [s2_stac_pick_cloudfree.py]: the order of the keys *)

Section KeyOrder.
Import Pick.

Lemma key_rank_lt_asym (a b : Key) : key_rank_lt a b -> ~ key_rank_lt b a.
Proof.
  destruct a as [[c1 h1] d1], b as [[c2 h2] d2]. simpl.
  intros [H|[E [H|[E' H]]]] [H'|[F [H'|[F' H']]]].
  - exact (lex3_lt_asym _ _ H H').
  - rewrite F in H. exact (lex3_lt_irrefl _ H).
  - rewrite F in H. exact (lex3_lt_irrefl _ H).
  - rewrite E in H'. exact (lex3_lt_irrefl _ H').
  - exact (lex3_lt_asym _ _ H H').
  - rewrite F' in H. exact (lex3_lt_irrefl _ H).
  - rewrite E in H'. exact (lex3_lt_irrefl _ H').
  - rewrite E' in H'. exact (lex3_lt_irrefl _ H').
  - lia.
Qed.

Lemma key_rank_lt_trans (a b c : Key) :
  key_rank_lt a b -> key_rank_lt b c -> key_rank_lt a c.
Proof.
  destruct a as [[c1 h1] d1], b as [[c2 h2] d2], c as [[c3 h3] d3]. simpl.
  intros [H|[E [H|[E' H]]]] [H'|[F [H'|[F' H']]]].
  - left. exact (lex3_lt_trans _ _ _ H H').
  - left. rewrite <- F. exact H.
  - left. rewrite <- F. exact H.
  - left. rewrite E. exact H'.
  - right. split; [congruence|]. left. exact (lex3_lt_trans _ _ _ H H').
  - right. split; [congruence|]. left. rewrite <- F'. exact H.
  - left. rewrite E. exact H'.
  - right. split; [congruence|]. left. rewrite E'. exact H'.
  - right. split; [congruence|]. right. split; [congruence|lia].
Qed.

(** Two keys are ordered one way or the other, or have the same ranks. *)
Lemma key_rank_trichotomy (a b : Key) :
  key_rank_lt a b \/ key_rank_lt b a \/
  (rank (fst (fst a)) = rank (fst (fst b)) /\ rank (snd (fst a)) = rank (snd (fst b))
   /\ snd a = snd b).
Proof.
  destruct a as [[c1 h1] d1], b as [[c2 h2] d2]. simpl.
  destruct (lex3_trichotomy (rank c1) (rank c2)) as [H|[E|H]];
    [left; left; exact H| |right; left; left; exact H].
  destruct (lex3_trichotomy (rank h1) (rank h2)) as [H|[E'|H]];
    [left; right; split; [exact E|left; exact H]|
     |right; left; right; split; [symmetry; exact E|left; exact H]].
  destruct (Z.lt_total d1 d2) as [H|[H|H]].
  - left. right. split; [exact E|]. right. split; [exact E'|exact H].
  - right. right. repeat split; assumption.
  - right. left. right. split; [symmetry; exact E|]. right.
    split; [symmetry; exact E'|exact H].
Qed.

Lemma key_rank_le_trans (a b c : Key) :
  key_rank_le a b -> key_rank_le b c -> key_rank_le a c.
Proof.
  unfold key_rank_le. intros Hab Hbc Hca.
  destruct (key_rank_trichotomy a b) as [H|[H|(E1 & E2 & E3)]].
  - apply Hbc. exact (key_rank_lt_trans _ _ _ Hca H).
  - exact (Hab H).
  - apply Hbc.
    destruct a as [[c1 h1] d1], b as [[c2 h2] d2], c as [[c3 h3] d3].
    simpl in *. rewrite <- E1, <- E2, <- E3. exact Hca.
Qed.

(** On keys without NaN, [<] of the tuples is the order of the ranks. *)
Lemma key_lt_rank (a b : Key) :
  key_ok a -> key_ok b -> (key_lt a b = true <-> key_rank_lt a b).
Proof.
  destruct a as [[c1 h1] d1], b as [[c2 h2] d2].
  unfold key_ok. simpl. intros [Hc1 Hh1] [Hc2 Hh2].
  unfold Float.neqb.
  pose proof (eqb_rank c1 c2 Hc1 Hc2) as Ec. unfold Float.eqb in Ec.
  pose proof (eqb_rank h1 h2 Hh1 Hh2) as Eh. unfold Float.eqb in Eh.
  pose proof (ltb_rank c1 c2 Hc1 Hc2) as Lc.
  pose proof (ltb_rank h1 h2 Hh1 Hh2) as Lh.
  destruct (SFeqb c1 c2) eqn:E1; simpl.
  - assert (Rc : rank c1 = rank c2) by (apply Ec; reflexivity).
    destruct (SFeqb h1 h2) eqn:E2; simpl.
    + assert (Rh : rank h1 = rank h2) by (apply Eh; reflexivity).
      rewrite Z.ltb_lt. split.
      * intros H. right. split; [exact Rc|]. right. split; [exact Rh|exact H].
      * intros [H|[_ [H|[_ H]]]]; [| |exact H].
        -- rewrite Rc in H. destruct (lex3_lt_irrefl _ H).
        -- rewrite Rh in H. destruct (lex3_lt_irrefl _ H).
    + rewrite Lh. split.
      * intros H. right. split; [exact Rc|]. left. exact H.
      * intros [H|[_ [H|[Rh _]]]]; [|exact H|].
        -- rewrite Rc in H. destruct (lex3_lt_irrefl _ H).
        -- apply Eh in Rh. discriminate Rh.
  - rewrite Lc. split.
    + intros H. left. exact H.
    + intros [H|[Rc _]]; [exact H|]. apply Ec in Rc. discriminate Rc.
Qed.

Lemma key_lt_false_rank (a b : Key) :
  key_ok a -> key_ok b -> (key_lt a b = false <-> key_rank_le b a).
Proof.
  intros Ha Hb. unfold key_rank_le. rewrite <- (key_lt_rank a b Ha Hb).
  destruct (key_lt a b); split; intros H; try reflexivity; try discriminate.
  destruct H. reflexivity.
Qed.

(** On keys without NaN, "not after" is the order of the specification. *)
Lemma key_rank_le_spec (a b : Key) :
  key_ok a -> key_ok b -> key_rank_le a b -> key_le a b.
Proof.
  intros Ha Hb Hle. unfold key_rank_le in Hle.
  destruct (key_rank_trichotomy a b) as [H|[H|H]]; [| destruct (Hle H) |].
  - destruct a as [[c1 h1] d1], b as [[c2 h2] d2].
    destruct Ha as [Hc1 Hh1], Hb as [Hc2 Hh2]. simpl in *.
    destruct H as [H|[E [H|[E' H]]]].
    + left. apply ltb_rank; assumption.
    + right. split; [apply eqb_rank; assumption|]. left. apply ltb_rank; assumption.
    + right. split; [apply eqb_rank; assumption|]. right.
      split; [apply eqb_rank; assumption|lia].
  - destruct a as [[c1 h1] d1], b as [[c2 h2] d2].
    destruct Ha as [Hc1 Hh1], Hb as [Hc2 Hh2]. simpl in *.
    destruct H as (E1 & E2 & E3).
    right. split; [apply eqb_rank; assumption|]. right.
    split; [apply eqb_rank; assumption|lia].
Qed.

End KeyOrder.

(** ** [sorted]: a sorted permutation, and the only one when no two keys tie *)

Section SortFacts.
Import Pick.
Context {A : Type}.

Let Rp (p q : Key * A) : Prop := key_rank_le (fst p) (fst q).
Let ok (p : Key * A) : Prop := key_ok (fst p).

Lemma insert_by_key_perm (x : Key * A) (l : list (Key * A)) :
  Permutation (insert_by_key x l) (x :: l).
Proof.
  induction l as [|y l IH]; simpl.
  - apply Permutation_refl.
  - destruct (key_lt (fst y) (fst x)).
    + eapply Permutation_trans; [apply perm_skip, IH|apply perm_swap].
    + apply Permutation_refl.
Qed.

Lemma sort_by_key_perm (l : list (Key * A)) : Permutation (sort_by_key l) l.
Proof.
  induction l as [|x l IH]; simpl.
  - apply Permutation_refl.
  - eapply Permutation_trans; [apply insert_by_key_perm|apply perm_skip, IH].
Qed.

Lemma insert_by_key_sorted (x : Key * A) (l : list (Key * A)) :
  ok x -> Forall ok l -> StronglySorted Rp l -> StronglySorted Rp (insert_by_key x l).
Proof.
  intros Hx Hl Hs. induction l as [|y l IH]; simpl.
  - constructor; constructor.
  - apply StronglySorted_inv in Hs. destruct Hs as [Hs Hy].
    inversion Hl as [|? ? Hoy Hol]; subst.
    destruct (key_lt (fst y) (fst x)) eqn:E.
    + constructor; [apply IH; assumption|].
      apply (Permutation_Forall (Permutation_sym (insert_by_key_perm x l))).
      constructor; [|exact Hy].
      apply key_lt_rank in E; [|exact Hoy|exact Hx].
      unfold Rp, key_rank_le. exact (key_rank_lt_asym _ _ E).
    + assert (Hxy : Rp x y).
      { apply key_lt_false_rank in E; [exact E|exact Hoy|exact Hx]. }
      constructor; [constructor; assumption|].
      constructor; [exact Hxy|].
      eapply Forall_impl; [exact Hy|].
      intros z Hyz. exact (key_rank_le_trans _ _ _ Hxy Hyz).
Qed.

Lemma sort_by_key_sorted (l : list (Key * A)) :
  Forall ok l -> StronglySorted Rp (sort_by_key l).
Proof.
  induction l as [|x l IH]; simpl; intros Hl.
  - constructor.
  - inversion Hl as [|? ? Hx Hl']; subst.
    apply insert_by_key_sorted; [exact Hx| |apply IH, Hl'].
    apply (Permutation_Forall (Permutation_sym (sort_by_key_perm l))). exact Hl'.
Qed.






End SortFacts.

(** ** [s2_stac_pick_cloudfree.py]: scoring and ranking *)

Section ScoreFacts.
Import Manifest Pick.

Lemma not_nan_isnan (x : spec_float) : x <> S754_nan -> Float.isnan x = false.
Proof. destruct x; simpl; congruence. Qed.

Lemma total_seconds_not_nan (us : Z) : Float.isnan (total_seconds us) = false.
Proof.
  unfold total_seconds, int_true_div.
  destruct us as [|m|m]; [reflexivity| |];
    apply not_nan_isnan, SFdiv_finite_not_nan; reflexivity.
Qed.

(** The distance in hours is never a NaN. *)
Lemma hours_not_nan (us : Z) :
  Float.isnan (F64.div (SFabs (total_seconds us)) f3600) = false.
Proof.
  apply not_nan_isnan, SFdiv_finite_not_nan; try reflexivity.
  pose proof (total_seconds_not_nan us) as H.
  destruct (total_seconds us); simpl in *; congruence.
Qed.

Lemma key_of_ok (target_dt : Z) (it : Item) :
  scorable it -> key_ok (key_of target_dt it).
Proof.
  intros [_ Hc]. unfold key_ok, key_of. simpl. split; [exact Hc|apply hours_not_nan].
Qed.

Lemma score_item_key_of (target_dt : Z) (it : Item) :
  has_dt it -> _score_item it target_dt = Ok (key_of target_dt it).
Proof.
  intros [us Hus]. unfold _score_item, key_of, item_dt. rewrite Hus. reflexivity.
Qed.

Lemma score_all_decorate (target_dt : Z) (items : list Item) :
  Forall has_dt items -> score_all items target_dt = Ok (List.map (decorate target_dt) items).
Proof.
  induction items as [|it items IH]; intros H; simpl.
  - reflexivity.
  - inversion H as [|? ? Hit Hrest]; subst.
    rewrite (score_item_key_of target_dt it Hit). simpl.
    rewrite (IH Hrest). reflexivity.
Qed.

Lemma sorted_items_decorate (target_dt : Z) (items : list Item) :
  Forall has_dt items ->
  sorted_items items target_dt
  = Ok (List.map snd (sort_by_key (List.map (decorate target_dt) items))).
Proof.
  intros H. unfold sorted_items. rewrite (score_all_decorate target_dt items H).
  reflexivity.
Qed.

(** The sorted list holds the items of the pool, each with its own key. *)
Lemma sorted_decorated (target_dt : Z) (items : list Item) (p : Key * Item) :
  In p (sort_by_key (List.map (decorate target_dt) items)) ->
  In (snd p) items /\ p = decorate target_dt (snd p).
Proof.
  intros Hp.
  apply (Permutation_in _ (sort_by_key_perm _)) in Hp.
  apply in_map_iff in Hp. destruct Hp as (it & E & Hit). subst p. simpl. auto.
Qed.

Lemma strongly_sorted_keys {A : Type} (l : list (Key * A)) :
  Forall (fun p => key_ok (fst p)) l ->
  StronglySorted (fun p q => key_rank_le (fst p) (fst q)) l ->
  StronglySorted key_le (List.map fst l).
Proof.
  induction l as [|p l IH]; intros Hok Hs; simpl.
  - constructor.
  - inversion Hok as [|? ? Hp Hl]; subst.
    apply StronglySorted_inv in Hs. destruct Hs as [Hs Hf].
    constructor; [apply IH; assumption|].
    apply List.Forall_forall. intros k Hk.
    apply in_map_iff in Hk. destruct Hk as (q & E & Hq). subst k.
    apply key_rank_le_spec; [exact Hp| |].
    + exact (proj1 (List.Forall_forall _ _) Hl _ Hq).
    + exact (proj1 (List.Forall_forall _ _) Hf _ Hq).
Qed.



Lemma slice_to_firstn {A : Type} (l : list A) (k : Z) :
  exists n, slice_to l k = firstn n l.
Proof. unfold slice_to. destruct (k <? 0); eauto. Qed.


(** The ranked pool: sorted by the order of the specification. *)
Lemma sorted_items_sorted (target_dt : Z) (items : list Item) :
  Forall scorable items ->
  exists ranked,
    sorted_items items target_dt = Ok ranked /\
    Permutation ranked items /\
    StronglySorted key_le (List.map (key_of target_dt) ranked).
Proof.
  intros Hs.
  assert (Hdt : Forall has_dt items).
  { eapply Forall_impl; [exact Hs|]. intros it [H _]. exact H. }
  set (dec := List.map (decorate target_dt) items).
  exists (List.map snd (sort_by_key dec)). split; [|split].
  - apply sorted_items_decorate, Hdt.
  - eapply Permutation_trans; [apply Permutation_map, sort_by_key_perm|].
    unfold dec. rewrite List.map_map. simpl. rewrite List.map_id. apply Permutation_refl.
  - assert (Hok : Forall (fun p : Key * Item => key_ok (fst p)) dec).
    { unfold dec. apply List.Forall_forall. intros p Hp.
      apply in_map_iff in Hp. destruct Hp as (it & E & Hit). subst p. simpl.
      apply key_of_ok. exact (proj1 (List.Forall_forall _ _) Hs _ Hit). }
    assert (Hkeys : List.map (key_of target_dt) (List.map snd (sort_by_key dec))
                    = List.map fst (sort_by_key dec)).
    { rewrite List.map_map. apply map_ext_in. intros p Hp.
      destruct (sorted_decorated target_dt items p Hp) as [_ E].
      rewrite E at 2. reflexivity. }
    rewrite Hkeys. apply strongly_sorted_keys.
    + apply (Permutation_Forall (Permutation_sym (sort_by_key_perm dec))). exact Hok.
    + apply sort_by_key_sorted. exact Hok.
Qed.




End ScoreFacts.

(** ** [s2_stac_pick_cloudfree.py]: [pick_topk_items] *)

Section PickFacts.
Import Manifest Pick.

Lemma collect_in (m n : Z) (l : list Item) (x : Item) :
  In x (collect m n l) -> In x l.
Proof.
  revert n. induction l as [|it l IH]; intros n H; simpl in *.
  - exact H.
  - destruct H as [H|H]; [left; exact H|].
    destruct (n + 1 >=? m); [destruct H|right; exact (IH _ H)].
Qed.

Lemma collect_nil (m n : Z) (l : list Item) : collect m n l = [] -> l = [].
Proof. destruct l; simpl; [reflexivity|discriminate]. Qed.







(** The scenario of the specification: of three scenes with 5 %, 50 % and
    15 % cloud the selector with [k = 2] returns the 5 % one, then the 15 %
    one. *)
Example select_scenario :
  exists td su assets,
    pick_topk_items client_three target_2021 cfg_default 2
    = Ok (StatusOk td su [to_candidate item_5; to_candidate item_15] assets).
Proof. do 3 eexists. reflexivity. Qed.


(** How the outcome of the selector depends on [k]: only through the slice
    of the ranked pool. *)
Lemma run_plan_k (client : Client) (target_dt : Z) (cfg : PickConfig)
    (tiers : list Tier) (last : option Reason) :
  (exists e, forall k, run_plan client target_dt cfg k tiers last = Raise e) \/
  (exists reason, forall k,
      run_plan client target_dt cfg k tiers last = Ok (StatusNoItems target_dt reason)) \/
  (exists su ranked, forall k,
      run_plan client target_dt cfg k tiers last
      = Ok (StatusOk target_dt su (List.map to_candidate (slice_to ranked k))
                                  (List.map to_asset_entry (slice_to ranked k)))).
Proof.
  revert last. induction tiers as [|[w c] tiers IH]; intros last.
  - right. left. eexists. intros k. reflexivity.
  - simpl. destruct (date_range target_dt w) as [range|e]; simpl.
    2:{ left. exists e. intros _. reflexivity. }
    destruct (collect (max_items cfg) 0 (client (tier_query cfg range c))) as [|x items'].
    + apply IH.
    + destruct (sorted_items (x :: items') target_dt) as [ranked|e]; simpl.
      * right. right. do 2 eexists. intros k. reflexivity.
      * left. exists e. intros _. reflexivity.
Qed.

Lemma slice_to_zero {A : Type} (l : list A) : slice_to l 0 = [].
Proof. reflexivity. Qed.

Lemma slice_to_negative {A : Type} (l : list A) (k : Z) :
  k < 0 -> slice_to l k = firstn (length l - Z.to_nat (- k)) l.
Proof.
  intros H. unfold slice_to.
  destruct (k <? 0) eqn:E; [|apply Z.ltb_ge in E; lia].
  f_equal. lia.
Qed.

(** C4, the claim as stated fails: the selector does not look at the sign of
    [k]. With [k = 0] it returns a result of status [ok] with two empty
    lists, with [k = -1] an [ok] result without the last ranked candidate. *)
Lemma nonpositive_k_returns_ok :
  (exists td su,
     pick_topk_items client_tie target_2021 cfg_default 0 = Ok (StatusOk td su [] [])) /\
  (exists td su,
     pick_topk_items client_tie target_2021 cfg_default (-1)
     = Ok (StatusOk td su [to_candidate item_a] [to_asset_entry item_a])).
Proof. split; do 2 eexists; reflexivity. Qed.

(** C4 (amended): [k <= 0] is not rejected. Whether the selector raises (a
    date out of range, an item whose [datetime] does not parse) or returns,
    and with which status, does not depend on [k]; [k] only bounds the slice
    [items_sorted[:k]], so an [ok] result for [k = 0] has two empty lists and
    an [ok] result for [k < 0] holds the ranked pool without its last [-k]
    candidates. *)
Theorem pick_topk_items_nonpositive_k (client : Client) (target_dt : Z) (cfg : PickConfig)
    (k : Z) :
  k <= 0 ->
  (exists e, forall k', pick_topk_items client target_dt cfg k' = Raise e) \/
  (exists reason, forall k',
      pick_topk_items client target_dt cfg k' = Ok (StatusNoItems target_dt reason)) \/
  (exists su ranked,
      (forall k', pick_topk_items client target_dt cfg k'
                  = Ok (StatusOk target_dt su (List.map to_candidate (slice_to ranked k'))
                                              (List.map to_asset_entry (slice_to ranked k')))) /\
      (k = 0 -> slice_to ranked k = []) /\
      (k < 0 -> slice_to ranked k = firstn (length ranked - Z.to_nat (- k)) ranked)).
Proof.
  intros Hk. unfold pick_topk_items.
  destruct (run_plan_k client target_dt cfg (plan cfg) None) as [H|[H|(su & ranked & H)]].
  - left. exact H.
  - right. left. exact H.
  - right. right. exists su, ranked. split; [exact H|]. split.
    + intros E. subst k. apply slice_to_zero.
    + apply slice_to_negative.
Qed.

Lemma pick_topk_items_nonpositive_k_witness :
  0 <= 0 /\
  ((exists e, forall k', pick_topk_items client_tie target_2021 cfg_default k' = Raise e) \/
   (exists reason, forall k',
       pick_topk_items client_tie target_2021 cfg_default k'
       = Ok (StatusNoItems target_2021 reason)) \/
   (exists su ranked,
       (forall k', pick_topk_items client_tie target_2021 cfg_default k'
                   = Ok (StatusOk target_2021 su (List.map to_candidate (slice_to ranked k'))
                                                 (List.map to_asset_entry (slice_to ranked k')))) /\
       (0 = 0 -> slice_to ranked 0 = []) /\
       (0 < 0 -> slice_to ranked 0 = firstn (length ranked - Z.to_nat (- 0)) ranked))).
Proof.
  split; [lia|].
  apply (pick_topk_items_nonpositive_k client_tie target_2021 cfg_default 0). lia.
Defined.

(** C5, the claim as stated fails: the window of a tier is computed before
    the tier is searched, and a window that leaves the calendar raises. With
    the target 0001-01-05 and the default configuration the first tier
    (3 days either side) is searched and yields nothing; the second tier
    starts 5 days before the target, before 0001-01-01, and the selector
    raises [OverflowError] although the catalog is empty. *)
Lemma empty_catalog_can_raise :
  (forall q, client_empty q = []) /\
  date_range target_year_1 3 = Ok (1, 7) /\
  date_range target_year_1 5 = Raise OverflowError /\
  pick_topk_items client_empty target_year_1 cfg_default 3 = Raise OverflowError.
Proof. repeat split; reflexivity. Qed.

(** C5 (amended): when the window of every tier of the plan is a range of
    dates and the search of every tier yields no candidate, the selector
    returns, without raising, the result of status [no_items] whose reason is
    the one of the last tier, [(max(window_days, 10), 100.0)]. *)
Theorem pick_topk_items_no_items (client : Client) (target_dt : Z) (cfg : PickConfig) (k : Z) :
  Forall (fun t : Tier =>
            exists range, date_range target_dt (fst t) = Ok range /\
                          client (tier_query cfg range (snd t)) = [])
         (plan cfg) ->
  pick_topk_items client target_dt cfg k
  = Ok (StatusNoItems target_dt (NoItemsIn (Z.max (window_days cfg) 10) f100)) /\
  List.last (List.map (fun t : Tier => NoItemsIn (fst t) (snd t)) (plan cfg)) NoItemsFound
  = NoItemsIn (Z.max (window_days cfg) 10) f100.
Proof.
  intros H. split; [|reflexivity].
  unfold pick_topk_items, plan in *.
  inversion H as [|t1 l1 (r1 & Hr1 & Hc1) H1]; subst.
  inversion H1 as [|t2 l2 (r2 & Hr2 & Hc2) H2]; subst.
  inversion H2 as [|t3 l3 (r3 & Hr3 & Hc3) _]; subst.
  simpl in *.
  rewrite Hr1. simpl. rewrite Hc1. simpl.
  rewrite Hr2. simpl. rewrite Hc2. simpl.
  rewrite Hr3. simpl. rewrite Hc3. simpl.
  reflexivity.
Qed.

Lemma pick_topk_items_no_items_witness :
  Forall (fun t : Tier =>
            exists range, date_range target_2021 (fst t) = Ok range /\
                          client_empty (tier_query cfg_default range (snd t)) = [])
         (plan cfg_default) /\
  pick_topk_items client_empty target_2021 cfg_default 3
  = Ok (StatusNoItems target_2021 (NoItemsIn (Z.max (window_days cfg_default) 10) f100)) /\
  List.last (List.map (fun t : Tier => NoItemsIn (fst t) (snd t)) (plan cfg_default)) NoItemsFound
  = NoItemsIn (Z.max (window_days cfg_default) 10) f100.
Proof.
  assert (H : Forall (fun t : Tier =>
            exists range, date_range target_2021 (fst t) = Ok range /\
                          client_empty (tier_query cfg_default range (snd t)) = [])
         (plan cfg_default)).
  { unfold plan. repeat constructor; eexists; split; reflexivity. }
  split; [exact H|].
  exact (pick_topk_items_no_items client_empty target_2021 cfg_default 3 H).
Defined.


End PickFacts.

(** ** [ensure_download] and the download stage *)

Section DownloadFacts.
Import Manifest Download.
Variable urlparse : Urlparse.

Lemma stable_bind {A B : Type} (F : gmap path (list Byte.byte))
    (m : M World A) (k : A -> M World B) :
  stable F m -> (forall a, stable F (k a)) -> stable F (m ≫= k).
Proof.
  intros Hm Hk w Hw. unfold mbind, M_bind.
  specialize (Hm w Hw). destruct (m w) as [[a|e] w']; simpl in *.
  - destruct Hm as [Hf Hn]. destruct (Hk a w' Hf) as [Hf' Hn'].
    split; [exact Hf'|congruence].
  - exact Hm.
Qed.

Lemma stable_bind_val {A B : Type} (F : gmap path (list Byte.byte))
    (m : M World A) (k : A -> M World B) (Q : A -> Prop) :
  (forall w, files w = F ->
     files (snd (m w)) = F /\ net (snd (m w)) = net w /\
     forall a, fst (m w) = Ok a -> Q a) ->
  (forall a, Q a -> stable F (k a)) -> stable F (m ≫= k).
Proof.
  intros Hm Hk w Hw. unfold mbind, M_bind.
  specialize (Hm w Hw). destruct (m w) as [[a|e] w']; simpl in *.
  - destruct Hm as (Hf & Hn & Hq). destruct (Hk a (Hq a eq_refl) w' Hf) as [Hf' Hn'].
    split; [exact Hf'|congruence].
  - destruct Hm as (Hf & Hn & _). auto.
Qed.

Lemma stable_ret {A : Type} (F : gmap path (list Byte.byte)) (a : A) :
  stable F (mret a : M World A).
Proof. intros w Hw. simpl. auto. Qed.

Lemma stable_raise {A : Type} (F : gmap path (list Byte.byte)) (e : exn) :
  stable F (raise e : M World A).
Proof. intros w Hw. simpl. auto. Qed.

Lemma stable_print (F : gmap path (list Byte.byte)) (m : Msg) : stable F (print m).
Proof. intros w Hw. simpl. auto. Qed.

Lemma stable_mkdir (F : gmap path (list Byte.byte)) (p : path) : stable F (mkdir_parents p).
Proof. intros w Hw. simpl. auto. Qed.

Lemma stable_for_each {A : Type} (F : gmap path (list Byte.byte))
    (xs : list A) (body : A -> M World unit) :
  (forall x, In x xs -> stable F (body x)) -> stable F (for_each xs body).
Proof.
  induction xs as [|x xs IH]; intros H; simpl.
  - apply stable_ret.
  - apply stable_bind.
    + apply H. left; reflexivity.
    + intros _. apply IH. intros y Hy. apply H. right; exact Hy.
Qed.

(** A file that is there and not empty is not fetched. *)
Lemma stable_fetch (F : gmap path (list Byte.byte)) (s3 : S3)
    (out_dir : path) (item_id href keyname : string) :
  nonempty_at F (asset_path out_dir item_id keyname) ->
  stable F (fetch urlparse s3 out_dir item_id href keyname).
Proof.
  intros (b & bs & Hp) w Hw. unfold fetch, nonempty_file.
  unfold mbind, M_bind, get_world, mret, M_ret. simpl.
  rewrite Hw, Hp. simpl. auto.
Qed.

Lemma stable_ref (F : gmap path (list Byte.byte)) (s3 : S3) (out_dir : path)
    (item_id : string) (named : string * option AssetRef) (otherwise : M World unit) :
  (forall p, In p (ref_paths out_dir item_id named) -> nonempty_at F p) ->
  stable F otherwise ->
  stable F (match has_href (snd named) with
            | None => otherwise
            | Some a => fetch urlparse s3 out_dir item_id (href a) (key_or a (fst named))
            end).
Proof.
  intros Hp Ho. unfold ref_paths in Hp.
  destruct (has_href (snd named)) as [a|]; [|exact Ho].
  apply stable_fetch, Hp. left; reflexivity.
Qed.

Lemma resolve_item_id_eq (cand : Candidate) (entry : AssetEntry) (w : World) :
  fst (resolve_item_id cand entry w) = Ok (path_id cand entry) /\
  files (snd (resolve_item_id cand entry w)) = files w /\
  net (snd (resolve_item_id cand entry w)) = net w.
Proof.
  unfold resolve_item_id, path_id.
  destruct (bool_decide (entry_id entry ≠ "") && bool_decide (entry_id entry ≠ cand_id cand));
    simpl; auto.
Qed.

Lemma stable_download_candidate (F : gmap path (list Byte.byte)) (s3 : S3)
    (sensor : string) (cand : Candidate) (entry : AssetEntry) :
  (forall p, In p (entry_paths sensor cand entry) -> nonempty_at F p) ->
  stable F (download_candidate urlparse s3 sensor cand entry).
Proof.
  intros Hp. unfold download_candidate.
  apply (stable_bind_val F _ _ (fun item_id => item_id = path_id cand entry)).
  { intros w Hw. destruct (resolve_item_id_eq cand entry w) as (Hr & Hf & Hn).
    split; [congruence|]. split; [exact Hn|].
    intros a Ha. rewrite Hr in Ha. inversion Ha. reflexivity. }
  intros item_id ->.
  unfold entry_paths in Hp. cbv zeta in Hp. cbv zeta.
  set (out_dir := dl_root ++ [sensor; path_id cand entry]) in *.
  apply stable_bind; [apply stable_mkdir|intros _].
  apply stable_bind; [apply stable_print|intros _].
  apply stable_bind; [|intros _; apply stable_bind; [|intros _]].
  - apply (stable_ref F s3 out_dir (path_id cand entry) ("TCI_10m", tci entry)).
    + intros p Hin. apply Hp. apply in_or_app. left. exact Hin.
    + apply stable_print.
  - destruct (bands entry) as [b|]; [|apply stable_print].
    apply stable_for_each. intros ba Hba.
    apply (stable_ref F s3 out_dir (path_id cand entry) ba); [|apply stable_raise].
    intros p Hin. apply Hp. apply in_or_app. right. apply in_or_app. left.
    apply in_flat_map. exists ba. split; assumption.
  - destruct (index entry) as [x|]; [|apply stable_print].
    apply stable_bind.
    + destruct (has_href (B08 x)); [apply stable_ret|apply stable_print].
    + intros _. apply stable_for_each. intros ka Hka.
      apply (stable_ref F s3 out_dir (path_id cand entry) ka); [|apply stable_print].
      intros p Hin. apply Hp. apply in_or_app. right. apply in_or_app. right.
      apply in_flat_map. exists ka. split; assumption.
Qed.

Lemma stable_download_target (F : gmap path (list Byte.byte)) (s3 : S3) (t : Target) :
  (forall p, In p (target_paths t) -> nonempty_at F p) ->
  stable F (download_target urlparse s3 t).
Proof.
  intros Hp. unfold download_target. unfold target_paths in Hp.
  destruct (res t) as [td su cands assets|td reason]; [|apply stable_print].
  destruct cands as [|c cands]; [apply stable_print|].
  destruct assets as [|e assets]; [apply stable_print|].
  apply stable_bind; [apply stable_print|intros _].
  apply stable_for_each. intros ce Hce.
  apply stable_download_candidate. intros p Hin.
  apply Hp. apply in_flat_map. exists ce. split; assumption.
Qed.

Lemma stable_main (F : gmap path (list Byte.byte)) (s3 : S3) (targets : list Target) :
  populated F targets -> stable F (main urlparse s3 targets).
Proof.
  intros Hp. unfold main.
  apply stable_bind; [apply stable_mkdir|intros _].
  apply stable_bind; [|intros _; apply stable_print].
  apply stable_for_each. intros t Ht.
  apply stable_download_target. intros p Hin. exact (Hp t p Ht Hin).
Qed.

(** C9, the claim as stated fails: [ensure_download] parses the reference
    before it looks at the destination, so with a reference that is not
    [s3://..] it raises [ValueError] even though the file is there and not
    empty. *)
Lemma ensure_download_other_scheme_raises :
  let p := ["downloads";"S2_TOPK_JP2";"ICEYE";"scene-05";"scene-05_TCI_10m.jp2"] in
  nonempty_at (files world_one_file) p /\
  fst (ensure_download urlparse_lib s3_any "https://zipper.dataspace.copernicus.eu/TCI_10m.jp2" p
         world_one_file)
  = Raise ValueError.
Proof.
  intros p. split; [|reflexivity].
  exists Byte.x4a, [Byte.x50]. reflexivity.
Qed.

(** C9 (amended): for every destination path at which a non-empty file
    already exists, [ensure_download] sends no request and leaves every file
    unchanged; it returns normally when [urlparse] accepts the reference and
    finds the scheme [s3], and raises [ValueError] otherwise: when the scheme
    is another one, or when [urlparse] itself rejects the reference. Run
    against a fully populated output tree, the download stage of
    [s2_s3_download_rgb.py] sends no request and modifies no file. This holds
    whatever [urlparse] does with a reference. *)
Theorem download_idempotent (s3 : S3) (w : World) :
  (forall href out_path, nonempty_at (files w) out_path ->
     files (snd (ensure_download urlparse s3 href out_path w)) = files w /\
     net (snd (ensure_download urlparse s3 href out_path w)) = net w /\
     match urlparse href with
     | Some u =>
         (scheme u = "s3" ->
          fst (ensure_download urlparse s3 href out_path w) = Ok tt) /\
         (scheme u <> "s3" ->
          fst (ensure_download urlparse s3 href out_path w) = Raise ValueError)
     | None => fst (ensure_download urlparse s3 href out_path w) = Raise ValueError
     end) /\
  (forall targets, populated (files w) targets ->
     files (snd (main urlparse s3 targets w)) = files w /\
     net (snd (main urlparse s3 targets w)) = net w).
Proof.
  split.
  - intros href out_path (b & bs & Hp).
    unfold ensure_download, parse_s3_href, nonempty_file.
    unfold mbind at 1, M_bind at 1, lift.
    destruct (urlparse href) as [u|]; [|simpl; auto].
    destruct (bool_decide (scheme u ≠ "s3")) eqn:E.
    + apply bool_decide_eq_true in E. simpl. repeat split; auto.
      intros H. destruct (E H).
    + apply bool_decide_eq_false in E.
      unfold mbind, M_bind, get_world, mret, M_ret. simpl. rewrite Hp. simpl.
      repeat split; auto. intros H. destruct (E H).
  - intros targets Hp. exact (stable_main (files w) s3 targets Hp w eq_refl).
Qed.

(** [urlparse] of the library on four references: leading blanks are
    stripped, an unbalanced bracket in the netloc is refused, and parameters,
    query and fragment are cut off the path. *)
Example urllib_urlparse_examples (check_bracketed_netloc checknetloc : string -> bool) :
  let urlparse := urllib_urlparse check_bracketed_netloc checknetloc in
  urlparse " S3://eodata/x"
  = Some {| scheme := "s3"; netloc := "eodata"; url_path := "/x" |} /\
  urlparse "s3://[eodata/x" = None /\
  urlparse "s3:eodata/x" = Some {| scheme := "s3"; netloc := ""; url_path := "eodata/x" |} /\
  urlparse "https://h/p;q?x#f" = Some {| scheme := "https"; netloc := "h"; url_path := "/p" |}.
Proof. repeat split; reflexivity. Qed.

(** The stage really downloads what is missing: against an empty tree the
    same target costs one request. *)
Example main_fetches_missing_file :
  net (snd (main urlparse_lib s3_any [target_one_file]
              {| files := ∅; dirs := ∅; net := []; stdout := [] |}))
  = [("eodata", "Sentinel-2/TCI_10m.jp2")].
Proof. reflexivity. Qed.


End DownloadFacts.

Section DownloadExamples.
Import Manifest Download.

Lemma download_idempotent_witness :
  let p := ["downloads";"S2_TOPK_JP2";"ICEYE";"scene-05";"scene-05_TCI_10m.jp2"] in
  let href := "s3://eodata/Sentinel-2/TCI_10m.jp2" in
  (nonempty_at (files world_one_file) p /\
   files (snd (ensure_download urlparse_lib s3_any href p world_one_file)) = files world_one_file /\
   net (snd (ensure_download urlparse_lib s3_any href p world_one_file)) = net world_one_file /\
   match urlparse_lib href with
   | Some u =>
       (scheme u = "s3" ->
        fst (ensure_download urlparse_lib s3_any href p world_one_file) = Ok tt) /\
       (scheme u <> "s3" ->
        fst (ensure_download urlparse_lib s3_any href p world_one_file) = Raise ValueError)
   | None => fst (ensure_download urlparse_lib s3_any href p world_one_file) = Raise ValueError
   end) /\
  (populated (files world_one_file) [target_one_file] /\
   files (snd (main urlparse_lib s3_any [target_one_file] world_one_file)) = files world_one_file /\
   net (snd (main urlparse_lib s3_any [target_one_file] world_one_file)) = net world_one_file).
Proof.
  intros p href.
  assert (H1 : nonempty_at (files world_one_file) p).
  { exists Byte.x4a, [Byte.x50]. reflexivity. }
  assert (H2 : populated (files world_one_file) [target_one_file]).
  { intros t q [E|[]] Hq. subst t. simpl in Hq.
    destruct Hq as [E|[]]. subst q. exact H1. }
  split.
  - split; [exact H1|].
    exact (proj1 (download_idempotent urlparse_lib s3_any world_one_file) href p H1).
  - split; [exact H2|].
    exact (proj2 (download_idempotent urlparse_lib s3_any world_one_file) [target_one_file] H2).
Defined.


End DownloadExamples.

(** ** [s2_make_indices.py]: the stage against the disk *)

Section IndexStageFacts.
Import Manifest Indices.

Lemma bind_ok {S A B : Type} (m : M S A) (k : A -> M S B) (w w' : S) (a : A) :
  m w = (Ok a, w') -> (m ≫= k) w = k a w'.
Proof. intros H. unfold mbind, M_bind. rewrite H. reflexivity. Qed.

Lemma append_inj (s a b : string) : s +:+ a = s +:+ b -> a = b.
Proof.
  induction s as [|c s IH]; simpl; intros H; [exact H|].
  inversion H. apply IH. assumption.
Qed.

(** Two outputs of one candidate with different suffixes are different
    files. *)
Lemma output_path_ne (out_dir : path) (item_id a b : string) :
  a <> b -> out_dir ++ [item_id +:+ a] <> out_dir ++ [item_id +:+ b].
Proof.
  intros Hab H. apply app_inv_head in H. inversion H as [H'].
  apply append_inj in H'. exact (Hab H').
Qed.

Lemma normalized_difference_ok (a b : array) :
  length a = length b ->
  normalized_difference a b
  = Ok (map2 safe_index_px (map2 F32.sub a b) (map2 F32.add a b)).
Proof.
  intros H. unfold normalized_difference, safe_index.
  rewrite (same_shape_true a b H).
  rewrite same_shape_true by (rewrite !map2_length by exact H; reflexivity).
  reflexivity.
Qed.

Variable resample : Resampling -> nat -> list Z -> list Z.
Hypothesis resample_shape : forall r n raw, length (resample r n raw) = n.

Lemma process_candidate_no_scl_ref (sensor : string) (cand : Candidate) (entry : AssetEntry)
    (w : World) :
  (forall x, index entry = Some x -> SCL x = None) ->
  process_candidate resample sensor cand entry w
  = (Ok tt, {| jp2 := jp2 w; written := written w;
               stdout := (stdout w ++ [DebugEntryKeys])
                         ++ [RequiredBandsMissing sensor (cand_id cand)] |}).
Proof.
  intros H. unfold process_candidate.
  assert (Hreq : required_refs entry = None).
  { unfold required_refs. destruct (bands entry) as [b|]; [|reflexivity].
    destruct (index entry) as [x|] eqn:Ex; [|reflexivity].
    rewrite (H x eq_refl).
    destruct (B03 b), (B04 b), (B08 x), (B11 x); reflexivity. }
  rewrite Hreq. reflexivity.
Qed.

Lemma exists_true (p : path) (w : World) (raw : list Z) :
  jp2 w !! p = Some raw -> exists_ p w = (Ok true, w).
Proof.
  intros H. unfold exists_, mbind, M_bind, get_world, mret, M_ret. simpl.
  rewrite H. reflexivity.
Qed.

Lemma exists_false (p : path) (w : World) :
  jp2 w !! p = None -> exists_ p w = (Ok false, w).
Proof.
  intros H. unfold exists_, mbind, M_bind, get_world, mret, M_ret. simpl.
  rewrite H. reflexivity.
Qed.

Lemma read_resampled_ok (p : path) (n : nat) (r : Resampling) (w : World) (raw : list Z) :
  jp2 w !! p = Some raw -> read_resampled resample p n r w = (Ok (resample r n raw), w).
Proof.
  intros H. unfold read_resampled, mbind, M_bind, get_world, mret, M_ret. simpl.
  rewrite H. reflexivity.
Qed.

Lemma check_exists_ok (p : path) (w : World) (raw : list Z) :
  jp2 w !! p = Some raw ->
  (exists_ p ≫= fun e : bool => if e then mret tt else raise FileNotFoundError) w = (Ok tt, w).
Proof. intros H. rewrite (bind_ok _ _ w w true (exists_true p w raw H)). reflexivity. Qed.

Lemma for_each_cons_ok {S A : Type} (x : A) (xs : list A) (body : A -> M S unit) (w w' : S) :
  body x w = (Ok tt, w') -> for_each (x :: xs) body w = for_each xs body w'.
Proof. intros H. exact (bind_ok (body x) (fun _ => for_each xs body) w w' tt H). Qed.

Lemma process_candidate_no_scl_file (sensor : string) (cand : Candidate) (entry : AssetEntry)
    (w : World) (a03 a04 a08 a11 ascl : AssetRef) (k03 k04 k08 k11 kscl : string)
    (r03 r04 r08 : list Z) :
  let item_id := cand_id cand in
  let base := dl_root ++ [sensor; item_id] in
  let out_dir := out_root ++ [sensor; item_id] in
  let file := fun k : string => base ++ [item_id +:+ "_" +:+ k +:+ ".jp2"] in
  let n := length r03 in
  let b03 := List.map F32.of_Z (resample bilinear n r03) in
  let b04 := List.map F32.of_Z (resample bilinear n r04) in
  let b08 := List.map F32.of_Z (resample bilinear n r08) in
  required_refs entry = Some (a03, a04, a08, a11, ascl) ->
  key a03 = Some k03 -> key a04 = Some k04 -> key a08 = Some k08 ->
  key a11 = Some k11 -> key ascl = Some kscl ->
  jp2 w !! file k03 = Some r03 -> jp2 w !! file k04 = Some r04 ->
  jp2 w !! file k08 = Some r08 ->
  jp2 w !! file kscl = None ->
  exists (ndvi ndwi : array) (w' : World),
    process_candidate resample sensor cand entry w = (Ok tt, w') /\
    normalized_difference b08 b04 = Ok ndvi /\
    normalized_difference b03 b08 = Ok ndwi /\
    written w' !! (out_dir ++ [item_id +:+ "_NDVI.tif"]) = Some ndvi /\
    written w' !! (out_dir ++ [item_id +:+ "_NDWI.tif"]) = Some ndwi /\
    jp2 w' = jp2 w /\
    stdout w' = (stdout w ++ [DebugEntryKeys])
                ++ [Saved sensor item_id (bool_decide (is_Some (jp2 w !! file k11)))].
Proof.
  intros item_id base out_dir file n b03 b04 b08 Hreq K03 K04 K08 K11 KSCL F03 F04 F08 FSCL.
  assert (L4 : length b04 = length b08).
  { unfold b04, b08. rewrite !length_map, !resample_shape. reflexivity. }
  assert (L3 : length b03 = length b08).
  { unfold b03, b08. rewrite !length_map, !resample_shape. reflexivity. }
  unfold process_candidate. rewrite Hreq.
  unfold band_path. rewrite K03, K04, K08, K11, KSCL.
  fold item_id. fold base. fold out_dir.
  unfold file in *.
  set (p03 := base ++ [item_id +:+ "_" +:+ k03 +:+ ".jp2"]) in *.
  set (p04 := base ++ [item_id +:+ "_" +:+ k04 +:+ ".jp2"]) in *.
  set (p08 := base ++ [item_id +:+ "_" +:+ k08 +:+ ".jp2"]) in *.
  set (p11 := base ++ [item_id +:+ "_" +:+ k11 +:+ ".jp2"]) in *.
  set (pscl := base ++ [item_id +:+ "_" +:+ kscl +:+ ".jp2"]) in *.
  clearbody p03 p04 p08 p11 pscl. clear file. clearbody out_dir. clear base. clearbody item_id.
  exists (map2 safe_index_px (map2 F32.sub b08 b04) (map2 F32.add b08 b04)),
         (map2 safe_index_px (map2 F32.sub b03 b08) (map2 F32.add b03 b08)).
  assert (N1 := normalized_difference_ok b08 b04 (eq_sym L4)).
  assert (N2 := normalized_difference_ok b03 b08 L3).
  set (w1 := {| jp2 := jp2 w; written := written w; stdout := stdout w ++ [DebugEntryKeys] |}).
  assert (E03 : jp2 w1 !! p03 = Some r03) by exact F03.
  assert (E04 : jp2 w1 !! p04 = Some r04) by exact F04.
  assert (E08 : jp2 w1 !! p08 = Some r08) by exact F08.
  assert (ESCL : jp2 w1 !! pscl = None) by exact FSCL.
  rewrite (bind_ok _ _ w w1 tt) by reflexivity.
  do 5 (erewrite bind_ok by reflexivity).
  erewrite bind_ok.
  2:{ rewrite (for_each_cons_ok _ _ _ w1 w1) by (exact (check_exists_ok _ _ _ E03)).
      rewrite (for_each_cons_ok _ _ _ w1 w1) by (exact (check_exists_ok _ _ _ E04)).
      rewrite (for_each_cons_ok _ _ _ w1 w1) by (exact (check_exists_ok _ _ _ E08)).
      reflexivity. }
  erewrite bind_ok by reflexivity.
  rewrite E03.
  erewrite bind_ok by (exact (read_resampled_ok _ _ _ _ _ E03)).
  erewrite bind_ok by (exact (read_resampled_ok _ _ _ _ _ E04)).
  erewrite bind_ok by (exact (read_resampled_ok _ _ _ _ _ E08)).
  erewrite bind_ok by (exact (exists_false _ _ ESCL)).
  erewrite bind_ok by reflexivity.
  destruct (jp2 w !! p11) as [r11|] eqn:E11.
  - assert (E11' : jp2 w1 !! p11 = Some r11) by exact E11.
    erewrite bind_ok by (exact (exists_true _ _ _ E11')).
    erewrite bind_ok.
    2:{ erewrite bind_ok by (exact (read_resampled_ok _ _ _ _ _ E11')). reflexivity. }
    assert (L11 : length b03 = length (List.map F32.of_Z (resample bilinear n r11))).
    { unfold b03. rewrite !length_map, !resample_shape. reflexivity. }
    assert (N3 := normalized_difference_ok b03 _ L11).
    erewrite bind_ok.
    2:{ unfold lift, compute_indices. fold n. fold b03 b04 b08. rewrite N1, N2. simpl.
        rewrite N3. reflexivity. }
    cbv beta iota zeta. erewrite bind_ok by reflexivity. cbv beta iota zeta.
    do 6 (erewrite bind_ok by reflexivity).
    eexists. split; [reflexivity|]. simpl.
    split; [exact N1|]. split; [exact N2|].
    split.
    { rewrite !lookup_insert_ne by (apply output_path_ne; discriminate).
      apply lookup_insert_eq. }
    split.
    { rewrite !lookup_insert_ne by (apply output_path_ne; discriminate).
      apply lookup_insert_eq. }
    split; reflexivity.
  - assert (E11' : jp2 w1 !! p11 = None) by exact E11.
    erewrite bind_ok by (exact (exists_false _ _ E11')).
    erewrite bind_ok by reflexivity.
    erewrite bind_ok.
    2:{ unfold lift, compute_indices. fold n. fold b03 b04 b08. rewrite N1, N2.
        reflexivity. }
    cbv beta iota zeta. erewrite bind_ok by reflexivity. cbv beta iota zeta.
    do 6 (erewrite bind_ok by reflexivity).
    eexists. split; [reflexivity|]. simpl.
    split; [exact N1|]. split; [exact N2|].
    split.
    { rewrite !lookup_insert_ne by (apply output_path_ne; discriminate).
      apply lookup_insert_eq. }
    split.
    { rewrite !lookup_insert_ne by (apply output_path_ne; discriminate).
      apply lookup_insert_eq. }
    split; reflexivity.
Qed.

Lemma bind_raise {S A B : Type} (m : M S A) (k : A -> M S B) (w w' : S) (e : exn) :
  m w = (Raise e, w') -> (m ≫= k) w = (Raise e, w').
Proof. intros H. unfold mbind, M_bind. rewrite H. reflexivity. Qed.

Lemma check_exists_raise (p : path) (w : World) :
  jp2 w !! p = None ->
  (exists_ p ≫= fun e : bool => if e then mret tt else raise FileNotFoundError) w
  = (Raise FileNotFoundError, w).
Proof. intros H. rewrite (bind_ok _ _ w w false (exists_false p w H)). reflexivity. Qed.

(** The existence check of the three required bands. *)
Lemma required_files_checked (p03 p04 p08 : path) (w : World) :
  jp2 w !! p03 = None \/ jp2 w !! p04 = None \/ jp2 w !! p08 = None ->
  for_each [p03; p04; p08]
    (fun p => exists_ p ≫= fun e : bool => if e then mret tt else raise FileNotFoundError) w
  = (Raise FileNotFoundError, w).
Proof.
  intros H.
  destruct (jp2 w !! p03) as [r03|] eqn:E03.
  2:{ simpl. apply bind_raise. apply (check_exists_raise _ _ E03). }
  rewrite (for_each_cons_ok _ _ _ w w) by (exact (check_exists_ok _ _ _ E03)).
  destruct (jp2 w !! p04) as [r04|] eqn:E04.
  2:{ simpl. apply bind_raise. apply (check_exists_raise _ _ E04). }
  rewrite (for_each_cons_ok _ _ _ w w) by (exact (check_exists_ok _ _ _ E04)).
  destruct (jp2 w !! p08) as [r08|] eqn:E08.
  2:{ simpl. apply bind_raise. apply (check_exists_raise _ _ E08). }
  destruct H as [H|[H|H]]; discriminate H.
Qed.

Lemma process_candidate_missing_band (sensor : string) (cand : Candidate) (entry : AssetEntry)
    (w : World) (a03 a04 a08 a11 ascl : AssetRef) (k03 k04 k08 k11 kscl : string) :
  let item_id := cand_id cand in
  let base := dl_root ++ [sensor; item_id] in
  let file := fun k : string => base ++ [item_id +:+ "_" +:+ k +:+ ".jp2"] in
  required_refs entry = Some (a03, a04, a08, a11, ascl) ->
  key a03 = Some k03 -> key a04 = Some k04 -> key a08 = Some k08 ->
  key a11 = Some k11 -> key ascl = Some kscl ->
  jp2 w !! file k03 = None \/ jp2 w !! file k04 = None \/ jp2 w !! file k08 = None ->
  fst (process_candidate resample sensor cand entry w) = Raise FileNotFoundError.
Proof.
  intros item_id base file Hreq K03 K04 K08 K11 KSCL Hmiss.
  unfold process_candidate. rewrite Hreq.
  unfold band_path. rewrite K03, K04, K08, K11, KSCL.
  fold item_id. fold base.
  set (w1 := {| jp2 := jp2 w; written := written w; stdout := stdout w ++ [DebugEntryKeys] |}).
  rewrite (bind_ok _ _ w w1 tt) by reflexivity.
  do 5 (erewrite bind_ok by reflexivity).
  erewrite bind_raise; [reflexivity|].
  apply required_files_checked. exact Hmiss.
Qed.

(** C10: an entry that lists no SCL reference is skipped with a message. For
    an entry that lists all five references, only the B03, B04 and B08 files
    have to exist (a missing one raises [FileNotFoundError]); when the SCL
    file is not on the disk the round still succeeds: NDVI and NDWI are
    computed and written as [safe_index] returns them, with no pixel masked,
    and the only messages are the debug line and the line that reports the
    indices as saved. *)
Theorem missing_scl_file_is_silent (sensor : string) (cand : Candidate) (entry : AssetEntry)
    (w : World) (a03 a04 a08 a11 ascl : AssetRef) (k03 k04 k08 k11 kscl : string)
    (r03 r04 r08 : list Z) :
  let item_id := cand_id cand in
  let base := dl_root ++ [sensor; item_id] in
  let out_dir := out_root ++ [sensor; item_id] in
  let file := fun k : string => base ++ [item_id +:+ "_" +:+ k +:+ ".jp2"] in
  let n := length r03 in
  let b03 := List.map F32.of_Z (resample bilinear n r03) in
  let b04 := List.map F32.of_Z (resample bilinear n r04) in
  let b08 := List.map F32.of_Z (resample bilinear n r08) in
  required_refs entry = Some (a03, a04, a08, a11, ascl) ->
  key a03 = Some k03 -> key a04 = Some k04 -> key a08 = Some k08 ->
  key a11 = Some k11 -> key ascl = Some kscl ->
  (jp2 w !! file k03 = Some r03 -> jp2 w !! file k04 = Some r04 ->
   jp2 w !! file k08 = Some r08 -> jp2 w !! file kscl = None ->
   exists (ndvi ndwi : array) (w' : World),
     process_candidate resample sensor cand entry w = (Ok tt, w') /\
     normalized_difference b08 b04 = Ok ndvi /\
     normalized_difference b03 b08 = Ok ndwi /\
     written w' !! (out_dir ++ [item_id +:+ "_NDVI.tif"]) = Some ndvi /\
     written w' !! (out_dir ++ [item_id +:+ "_NDWI.tif"]) = Some ndwi /\
     jp2 w' = jp2 w /\
     stdout w' = (stdout w ++ [DebugEntryKeys])
                 ++ [Saved sensor item_id (bool_decide (is_Some (jp2 w !! file k11)))]) /\
  (jp2 w !! file k03 = None \/ jp2 w !! file k04 = None \/ jp2 w !! file k08 = None ->
   fst (process_candidate resample sensor cand entry w) = Raise FileNotFoundError) /\
  (forall entry' : AssetEntry,
     (forall x, index entry' = Some x -> SCL x = None) ->
     process_candidate resample sensor cand entry' w
     = (Ok tt, {| jp2 := jp2 w; written := written w;
                  stdout := (stdout w ++ [DebugEntryKeys])
                            ++ [RequiredBandsMissing sensor (cand_id cand)] |})).
Proof.
  intros item_id base out_dir file n b03 b04 b08 Hreq K03 K04 K08 K11 KSCL.
  split; [|split].
  - intros F03 F04 F08 FSCL.
    exact (process_candidate_no_scl_file sensor cand entry w a03 a04 a08 a11 ascl
             k03 k04 k08 k11 kscl r03 r04 r08 Hreq K03 K04 K08 K11 KSCL F03 F04 F08 FSCL).
  - intros Hmiss.
    exact (process_candidate_missing_band sensor cand entry w a03 a04 a08 a11 ascl
             k03 k04 k08 k11 kscl Hreq K03 K04 K08 K11 KSCL Hmiss).
  - intros entry' H. apply process_candidate_no_scl_ref, H.
Qed.

End IndexStageFacts.

Lemma resample_nn_shape (r : Indices.Resampling) (n : nat) (raw : list Z) :
  length (resample_nn r n raw) = n.
Proof. unfold resample_nn. rewrite length_map, length_seq. reflexivity. Qed.

(** The round of a scene whose disk has the three 10 m bands and neither B11
    nor SCL: NDVI is [(800 - 400) / (800 + 400)] at the first pixel and NaN at
    the second, where NIR and red are both zero. *)
Example no_scl_example :
  let out := Indices.process_candidate resample_nn "ICEYE" (Pick.to_candidate item_5)
               entry_five world_no_scl in
  fst out = Ok tt /\
  Indices.written (snd out)
    !! ["downloads";"S2_INDICES";"ICEYE";"scene-05";"scene-05_NDVI.tif"]
  = Some [F32.div (F32.of_Z 1) (F32.of_Z 3); Float.nan] /\
  Indices.stdout (snd out) = [Indices.DebugEntryKeys; Indices.Saved "ICEYE" "scene-05" false].
Proof. vm_compute. repeat split. Qed.

Lemma missing_scl_file_is_silent_witness :
  let cand := Pick.to_candidate item_5 in
  let file := fun k : string =>
    Indices.dl_root ++ ["ICEYE"; "scene-05"] ++ ["scene-05" +:+ "_" +:+ k +:+ ".jp2"] in
  let out_dir := Indices.out_root ++ ["ICEYE"; "scene-05"] in
  let b03 := List.map F32.of_Z (resample_nn Indices.bilinear 2 [600; 900]) in
  let b04 := List.map F32.of_Z (resample_nn Indices.bilinear 2 [400; 0]) in
  let b08 := List.map F32.of_Z (resample_nn Indices.bilinear 2 [800; 0]) in
  (Indices.required_refs entry_five
   = Some (ref_of "B03_10m", ref_of "B04_10m", ref_of "B08_10m", ref_of "B11_20m",
           ref_of "SCL_20m") /\
   Indices.jp2 world_no_scl !! file "B03_10m" = Some [600; 900] /\
   Indices.jp2 world_no_scl !! file "B04_10m" = Some [400; 0] /\
   Indices.jp2 world_no_scl !! file "B08_10m" = Some [800; 0] /\
   Indices.jp2 world_no_scl !! file "SCL_20m" = None) /\
  exists (ndvi ndwi : Indices.array) (w' : Indices.World),
    Indices.process_candidate resample_nn "ICEYE" cand entry_five world_no_scl = (Ok tt, w') /\
    Indices.normalized_difference b08 b04 = Ok ndvi /\
    Indices.normalized_difference b03 b08 = Ok ndwi /\
    Indices.written w' !! (out_dir ++ ["scene-05" +:+ "_NDVI.tif"]) = Some ndvi /\
    Indices.written w' !! (out_dir ++ ["scene-05" +:+ "_NDWI.tif"]) = Some ndwi /\
    Indices.jp2 w' = Indices.jp2 world_no_scl /\
    Indices.stdout w'
    = (Indices.stdout world_no_scl ++ [Indices.DebugEntryKeys])
      ++ [Indices.Saved "ICEYE" "scene-05"
            (bool_decide (is_Some (Indices.jp2 world_no_scl !! file "B11_20m")))].
Proof.
  intros cand file out_dir b03 b04 b08.
  split.
  - repeat split; reflexivity.
  - apply (proj1 (missing_scl_file_is_silent resample_nn resample_nn_shape
                    "ICEYE" cand entry_five world_no_scl
                    (ref_of "B03_10m") (ref_of "B04_10m") (ref_of "B08_10m")
                    (ref_of "B11_20m") (ref_of "SCL_20m")
                    "B03_10m" "B04_10m" "B08_10m" "B11_20m" "SCL_20m"
                    [600; 900] [400; 0] [800; 0]
                    eq_refl eq_refl eq_refl eq_refl eq_refl eq_refl)); reflexivity.
Defined.

(** ** The visualisation stretch *)

Section StretchFacts.

Variables percentile nanpercentile : Np.Percentile.

Lemma np_min_nonempty (x : spec_float) (v : list spec_float) :
  exists m, Np.min (x :: v) = Ok m.
Proof. eexists. reflexivity. Qed.

Lemma np_max_nonempty (x : spec_float) (v : list spec_float) :
  exists m, Np.max (x :: v) = Ok m.
Proof. eexists. reflexivity. Qed.

(** [s2_make_compare_png.py]: the range of a channel, and it never raises. *)
Lemma compare_png_range (chan : list spec_float) (plo phi : spec_float) :
  ComparePng.percentiles percentile chan = (plo, phi) ->
  (Float.leb phi plo = false ->
   ComparePng.channel_range percentile chan = Ok (plo, phi)) /\
  (Float.leb phi plo = true ->
   exists lo hi,
     ComparePng.channel_range percentile chan = Ok (lo, hi) /\
     (Np.positive_finite chan = [] -> lo = F64.zero /\ hi = F64.one) /\
     (forall mn mx, Np.min (Np.positive_finite chan) = Ok mn ->
                    Np.max (Np.positive_finite chan) = Ok mx ->
        lo = Np.float_of_f32 mn /\
        ((Float.leb (Np.float_of_f32 mx) lo = false /\ hi = Np.float_of_f32 mx) \/
         (Float.leb (Np.float_of_f32 mx) lo = true /\ hi = F64.add lo F64.one))) /\
     (Float.leb hi lo = false \/ hi = F64.add lo F64.one)).
Proof.
  intros Hp. unfold ComparePng.channel_range. rewrite Hp. split.
  - intros H. rewrite H. reflexivity.
  - intros H. rewrite H.
    destruct (Np.positive_finite chan) as [|x v] eqn:Ev.
    + simpl. exists F64.zero, F64.one.
      split; [reflexivity|]. split; [auto|]. split; [|left; reflexivity].
      intros mn mx Hmn. discriminate Hmn.
    + destruct (np_min_nonempty x v) as [mn Hmn], (np_max_nonempty x v) as [mx Hmx].
      rewrite Hmn, Hmx. simpl.
      destruct (Float.leb (Np.float_of_f32 mx) (Np.float_of_f32 mn)) eqn:E.
      * eexists _, _. split; [reflexivity|]. split; [discriminate|]. split; [|auto].
        intros mn' mx' H1 H2. inversion H1; inversion H2; subst. auto.
      * eexists _, _. split; [reflexivity|]. split; [discriminate|]. split; [|auto].
        intros mn' mx' H1 H2. inversion H1; inversion H2; subst. auto.
Qed.

(** [s2_download_top3_and_compare.py]: the same range when the channel has a
    positive finite sample. *)
Lemma top3_range (chan : list spec_float) (plo phi : spec_float) :
  Top3Compare.percentiles percentile chan = (plo, phi) ->
  (Float.leb phi plo = false ->
   Top3Compare.channel_range percentile chan = Ok (plo, phi)) /\
  (Float.leb phi plo = true ->
   forall mn mx, Np.min (Np.positive_finite chan) = Ok mn ->
                 Np.max (Np.positive_finite chan) = Ok mx ->
   exists lo hi,
     Top3Compare.channel_range percentile chan = Ok (lo, hi) /\
     lo = Np.float_of_f32 mn /\
     ((Float.leb (Np.float_of_f32 mx) lo = false /\ hi = Np.float_of_f32 mx) \/
      (Float.leb (Np.float_of_f32 mx) lo = true /\ hi = F64.add lo F64.one))).
Proof.
  intros Hp. unfold Top3Compare.channel_range. rewrite Hp. split.
  - intros H. rewrite H. reflexivity.
  - intros H mn mx Hmn Hmx. rewrite H, Hmn. simpl.
    destruct (Np.positive_finite chan) as [|x v] eqn:Ev; [discriminate Hmn|].
    rewrite Hmx. simpl.
    destruct (Float.leb (Np.float_of_f32 mx) (Np.float_of_f32 mn)) eqn:E;
      eexists _, _; (split; [reflexivity|]); auto.
Qed.

(** [s2_make_rgb.py]: no widening; a range that stays degenerate gives the
    array of zeros. *)
Lemma make_rgb_range (x : list spec_float) (p_low p_high : Z) :
  let plo := nanpercentile x p_low in
  let phi := nanpercentile x p_high in
  (MakeRgb.degenerate plo phi = false ->
   MakeRgb.percentile_stretch nanpercentile x p_low p_high = Ok (MakeRgb.Mapped plo phi)) /\
  (MakeRgb.degenerate plo phi = true ->
   forall mn mx, Np.nanmin x = Ok mn -> Np.nanmax x = Ok mx ->
     (MakeRgb.degenerate (Np.float_of_f32 mn) (Np.float_of_f32 mx) = true ->
      MakeRgb.percentile_stretch nanpercentile x p_low p_high = Ok MakeRgb.Zeros) /\
     (MakeRgb.degenerate (Np.float_of_f32 mn) (Np.float_of_f32 mx) = false ->
      MakeRgb.percentile_stretch nanpercentile x p_low p_high
      = Ok (MakeRgb.Mapped (Np.float_of_f32 mn) (Np.float_of_f32 mx)))).
Proof.
  intros plo phi. unfold MakeRgb.percentile_stretch. fold plo phi. split.
  - intros H. rewrite H. reflexivity.
  - intros H mn mx Hmn Hmx. rewrite H, Hmn. simpl. rewrite Hmx. simpl.
    split; intros H'; rewrite H'; reflexivity.
Qed.

Lemma minimum_cases (a b : spec_float) : Np.minimum a b = a \/ Np.minimum a b = b.
Proof.
  unfold Np.minimum. destruct (Float.isnan a); [auto|].
  destruct (Float.isnan b); [auto|]. destruct (Float.ltb b a); auto.
Qed.

Lemma maximum_cases (a b : spec_float) : Np.maximum a b = a \/ Np.maximum a b = b.
Proof.
  unfold Np.maximum. destruct (Float.isnan a); [auto|].
  destruct (Float.isnan b); [auto|]. destruct (Float.ltb a b); auto.
Qed.

Lemma fold_left_in (f : spec_float -> spec_float -> spec_float)
    (l : list spec_float) (x : spec_float) :
  (forall a b, f a b = a \/ f a b = b) -> In (List.fold_left f l x) (x :: l).
Proof.
  intros Hf. revert x. induction l as [|y l IH]; intros x; simpl.
  - left; reflexivity.
  - destruct (IH (f x y)) as [H|H].
    + rewrite <- H. destruct (Hf x y) as [E|E]; rewrite E; [left|right; left]; reflexivity.
    + right; right; exact H.
Qed.

(** The minimum and the maximum of an array are samples of it. *)
Lemma np_min_in (v : list spec_float) (m : spec_float) : Np.min v = Ok m -> In m v.
Proof.
  destruct v as [|x v]; simpl; intros H; [discriminate H|].
  inversion H; subst. apply (fold_left_in Np.minimum v x minimum_cases).
Qed.

Lemma np_max_in (v : list spec_float) (m : spec_float) : Np.max v = Ok m -> In m v.
Proof.
  destruct v as [|x v]; simpl; intros H; [discriminate H|].
  inversion H; subst. apply (fold_left_in Np.maximum v x maximum_cases).
Qed.

Lemma in_upto (n : nat) (a z : Z) : a <= z < a + Z.of_nat n -> In z (upto n a).
Proof.
  revert a. induction n as [|n IH]; intros a H; simpl.
  - lia.
  - destruct (Z.eq_dec a z) as [E|E]; [left; exact E|right].
    apply IH. lia.
Qed.

(** Every 16-bit sample passes the check: its widened range is a range. *)
Lemma widen_check_16bit (z : Z) : 1 <= z <= 65535 -> widen_check z = true.
Proof.
  intros H.
  assert (Hall : forallb widen_check (upto (Z.to_nat 65535) 1) = true)
    by (vm_compute; reflexivity).
  rewrite forallb_forall in Hall. apply Hall. apply in_upto. lia.
Qed.

(** A positive finite sample of a channel of 16-bit digital numbers is one of
    1..65535. *)
Lemma positive_finite_dn (dns : list Z) (m : spec_float) :
  Forall (fun z => 0 <= z <= 65535) dns ->
  In m (Np.positive_finite (List.map F32.of_Z dns)) ->
  exists z, m = F32.of_Z z /\ 1 <= z <= 65535.
Proof.
  intros Hd Hm. unfold Np.positive_finite in Hm.
  apply filter_In in Hm. destruct Hm as [Hin Hpos].
  apply in_map_iff in Hin. destruct Hin as (z & E & Hz). subst m.
  exists z. split; [reflexivity|].
  pose proof (proj1 (List.Forall_forall _ _) Hd z Hz) as Hr. cbv beta in Hr.
  destruct (Z.eq_dec z 0) as [E|E]; [|lia].
  subst z. vm_compute in Hpos. discriminate Hpos.
Qed.

Lemma widened_is_above (z : Z) :
  1 <= z <= 65535 ->
  let lo := Np.float_of_f32 (F32.of_Z z) in
  Float.ltb lo (F64.add lo F64.one) = true /\ Float.isnan lo = false.
Proof.
  intros Hz lo. pose proof (widen_check_16bit z Hz) as H.
  unfold widen_check in H. fold lo in H.
  apply andb_prop in H. destruct H as [H _]. split; [exact H|].
  unfold Float.ltb, SFltb in H. destruct lo; simpl in *; try reflexivity; discriminate H.
Qed.

(** The divisor of the widened range of a 16-bit sample is 1. *)
Lemma widened_divisor (z : Z) :
  1 <= z <= 65535 ->
  let lo := Np.float_of_f32 (F32.of_Z z) in
  F64.sub (F64.add lo F64.one) lo = F64.one.
Proof.
  intros Hz lo. pose proof (widen_check_16bit z Hz) as H.
  unfold widen_check in H. fold lo in H.
  apply andb_prop in H. destruct H as [_ H].
  destruct (F64.sub (F64.add lo F64.one) lo) as [| | |[] [m|m|] e]; try discriminate H.
  revert H. unfold F64.one.
  repeat match goal with
         | |- context [match ?x with _ => _ end] => destruct x; try discriminate
         end.
  reflexivity.
Qed.

Lemma leb_false_ltb (x y : spec_float) :
  Float.isnan x = false -> Float.isnan y = false ->
  Float.leb x y = false -> Float.ltb y x = true.
Proof.
  intros Hx Hy H. apply ltb_rank; [exact Hy|exact Hx|].
  destruct (lex3_trichotomy (rank x) (rank y)) as [L|[E|L]]; [| |exact L].
  - assert (Float.leb x y = true) by (apply leb_rank; auto). congruence.
  - assert (Float.leb x y = true) by (apply leb_rank; auto). congruence.
Qed.

(** On 16-bit samples both ways out of the fallback give [lo < hi]. *)
Lemma fallback_range_16bit (z1 z2 : Z) (hi : spec_float) :
  1 <= z1 <= 65535 -> 1 <= z2 <= 65535 ->
  let lo := Np.float_of_f32 (F32.of_Z z1) in
  let mx := Np.float_of_f32 (F32.of_Z z2) in
  (Float.leb mx lo = false /\ hi = mx) \/ (Float.leb mx lo = true /\ hi = F64.add lo F64.one) ->
  Float.ltb lo hi = true.
Proof.
  intros H1 H2 lo mx [[H E]|[H E]]; subst hi.
  - apply leb_false_ltb; [|  |exact H].
    + exact (proj2 (widened_is_above z2 H2)).
    + exact (proj2 (widened_is_above z1 H1)).
  - exact (proj1 (widened_is_above z1 H1)).
Qed.

(** C8 (amended): in [normalize_rgb_uint8] of [s2_make_compare_png.py],
    whenever the high percentile does not exceed the low one the range
    becomes [[min, max]] of the positive finite samples of the channel
    ([[0, 1]] when there are none), and it is widened to [[min, min + 1.0]]
    only when that maximum does not exceed that minimum either; the choice of
    the range never raises, and on a channel of 16-bit digital numbers the
    range it falls back to has [lo < hi], with [hi - lo = 1.0] when it was
    widened, so that the linear map does not divide by zero. The copy in
    [s2_download_top3_and_compare.py] chooses the same range for a channel
    that has a positive finite sample. [percentile_stretch] of
    [s2_make_rgb.py] does not widen: its fallback is [[nanmin, nanmax]], and
    when that is degenerate too it returns the array of zeros. *)
Theorem stretch_range_fallback (chan : list spec_float) (p_low p_high : Z) :
  (forall plo phi,
     ComparePng.percentiles percentile chan = (plo, phi) ->
     Float.leb phi plo = true ->
     exists lo hi,
       ComparePng.channel_range percentile chan = Ok (lo, hi) /\
       (Np.positive_finite chan = [] -> lo = F64.zero /\ hi = F64.one) /\
       (forall mn mx, Np.min (Np.positive_finite chan) = Ok mn ->
                      Np.max (Np.positive_finite chan) = Ok mx ->
          lo = Np.float_of_f32 mn /\
          ((Float.leb (Np.float_of_f32 mx) lo = false /\ hi = Np.float_of_f32 mx) \/
           (Float.leb (Np.float_of_f32 mx) lo = true /\ hi = F64.add lo F64.one))) /\
       (forall dns, chan = List.map F32.of_Z dns ->
                    Forall (fun z => 0 <= z <= 65535) dns ->
          Float.ltb lo hi = true /\
          (hi = F64.add lo F64.one -> F64.sub hi lo = F64.one))) /\
  (exists r, ComparePng.channel_range percentile chan = Ok r) /\
  (forall plo phi mn mx,
     Top3Compare.percentiles percentile chan = (plo, phi) ->
     Float.leb phi plo = true ->
     Np.min (Np.positive_finite chan) = Ok mn ->
     Np.max (Np.positive_finite chan) = Ok mx ->
     exists lo hi,
       Top3Compare.channel_range percentile chan = Ok (lo, hi) /\
       lo = Np.float_of_f32 mn /\
       ((Float.leb (Np.float_of_f32 mx) lo = false /\ hi = Np.float_of_f32 mx) \/
        (Float.leb (Np.float_of_f32 mx) lo = true /\ hi = F64.add lo F64.one)) /\
       (forall dns, chan = List.map F32.of_Z dns ->
                    Forall (fun z => 0 <= z <= 65535) dns ->
          Float.ltb lo hi = true /\
          (hi = F64.add lo F64.one -> F64.sub hi lo = F64.one))) /\
  (forall mn mx,
     MakeRgb.degenerate (nanpercentile chan p_low) (nanpercentile chan p_high) = true ->
     Np.nanmin chan = Ok mn -> Np.nanmax chan = Ok mx ->
     (MakeRgb.degenerate (Np.float_of_f32 mn) (Np.float_of_f32 mx) = true ->
      MakeRgb.percentile_stretch nanpercentile chan p_low p_high = Ok MakeRgb.Zeros) /\
     (MakeRgb.degenerate (Np.float_of_f32 mn) (Np.float_of_f32 mx) = false ->
      MakeRgb.percentile_stretch nanpercentile chan p_low p_high
      = Ok (MakeRgb.Mapped (Np.float_of_f32 mn) (Np.float_of_f32 mx)))).
Proof.
  split; [|split; [|split]].
  - intros plo phi Hp H.
    destruct (proj2 (compare_png_range chan plo phi Hp) H) as (lo & hi & Hr & Hnil & Hmm & _).
    exists lo, hi. split; [exact Hr|]. split; [exact Hnil|]. split; [exact Hmm|].
    intros dns Hchan Hdn.
    destruct (Np.positive_finite chan) as [|x v] eqn:Ev.
    + destruct (Hnil eq_refl) as [-> ->]. split; reflexivity.
    + destruct (np_min_nonempty x v) as [mn Hmn], (np_max_nonempty x v) as [mx Hmx].
      destruct (Hmm mn mx Hmn Hmx) as [Hlo Hhi].
      apply np_min_in in Hmn. apply np_max_in in Hmx.
      rewrite <- Ev, Hchan in Hmn, Hmx.
      destruct (positive_finite_dn dns mn Hdn Hmn) as (z1 & -> & Hz1).
      destruct (positive_finite_dn dns mx Hdn Hmx) as (z2 & -> & Hz2).
      subst lo. split; [exact (fallback_range_16bit z1 z2 hi Hz1 Hz2 Hhi)|].
      intros ->. exact (widened_divisor z1 Hz1).
  - destruct (ComparePng.percentiles percentile chan) as [plo phi] eqn:Hp.
    destruct (Float.leb phi plo) eqn:E.
    + destruct (proj2 (compare_png_range chan plo phi Hp) E) as (lo & hi & H & _).
      eexists. exact H.
    + eexists. exact (proj1 (compare_png_range chan plo phi Hp) E).
  - intros plo phi mn mx Hp H Hmn Hmx.
    destruct (proj2 (top3_range chan plo phi Hp) H mn mx Hmn Hmx) as (lo & hi & Hr & Hlo & Hhi).
    exists lo, hi. split; [exact Hr|]. split; [exact Hlo|]. split; [exact Hhi|].
    intros dns Hchan Hdn.
    apply np_min_in in Hmn. apply np_max_in in Hmx. rewrite Hchan in Hmn, Hmx.
    destruct (positive_finite_dn dns mn Hdn Hmn) as (z1 & -> & Hz1).
    destruct (positive_finite_dn dns mx Hdn Hmx) as (z2 & -> & Hz2).
    subst lo. split; [exact (fallback_range_16bit z1 z2 hi Hz1 Hz2 Hhi)|].
    intros ->. exact (widened_divisor z1 Hz1).
  - intros mn mx H Hmn Hmx.
    exact (proj2 (make_rgb_range chan p_low p_high) H mn mx Hmn Hmx).
Qed.

End StretchFacts.

(** A channel with a spread keeps its percentiles, here 106 and 394. *)
Example stretch_keeps_percentiles :
  ComparePng.channel_range percentile_linear chan_ramp = Ok (F64.of_Z 106, F64.of_Z 394).
Proof. vm_compute. reflexivity. Qed.

(** C8, the claim as stated fails. A channel of ninety-nine samples 5 and one
    sample 7 has both percentiles at 5, and [normalize_rgb_uint8] takes the
    range [[5, 7]], the minimum and the maximum, not [[5, 6]]. A flat channel
    is returned by [percentile_stretch] as the array of zeros, with no
    widening at all. *)
Lemma stretch_fallback_is_not_min_plus_one :
  (ComparePng.percentiles percentile_linear chan_5_7 = (F64.of_Z 5, F64.of_Z 5) /\
   Np.min (Np.positive_finite chan_5_7) = Ok (F32.of_Z 5) /\
   ComparePng.channel_range percentile_linear chan_5_7 = Ok (F64.of_Z 5, F64.of_Z 7) /\
   ComparePng.channel_range percentile_linear chan_5_7
   <> Ok (F64.of_Z 5, F64.add (F64.of_Z 5) F64.one)) /\
  (MakeRgb.degenerate (nanpercentile_linear chan_flat 2) (nanpercentile_linear chan_flat 98)
   = true /\
   MakeRgb.percentile_stretch nanpercentile_linear chan_flat 2 98 = Ok MakeRgb.Zeros).
Proof.
  split.
  - split; [vm_compute; reflexivity|]. split; [vm_compute; reflexivity|].
    split; [vm_compute; reflexivity|].
    vm_compute. intros H. discriminate H.
  - split; vm_compute; reflexivity.
Qed.

Lemma stretch_range_fallback_witness :
  (ComparePng.percentiles percentile_linear chan_flat = (F64.of_Z 5, F64.of_Z 5) /\
   Float.leb (F64.of_Z 5) (F64.of_Z 5) = true /\
   exists lo hi,
     ComparePng.channel_range percentile_linear chan_flat = Ok (lo, hi) /\
     (Np.positive_finite chan_flat = [] -> lo = F64.zero /\ hi = F64.one) /\
     (forall mn mx, Np.min (Np.positive_finite chan_flat) = Ok mn ->
                    Np.max (Np.positive_finite chan_flat) = Ok mx ->
        lo = Np.float_of_f32 mn /\
        ((Float.leb (Np.float_of_f32 mx) lo = false /\ hi = Np.float_of_f32 mx) \/
         (Float.leb (Np.float_of_f32 mx) lo = true /\ hi = F64.add lo F64.one))) /\
     (forall dns, chan_flat = List.map F32.of_Z dns ->
                  Forall (fun z => 0 <= z <= 65535) dns ->
        Float.ltb lo hi = true /\
        (hi = F64.add lo F64.one -> F64.sub hi lo = F64.one))) /\
  (MakeRgb.degenerate (nanpercentile_linear chan_flat 2) (nanpercentile_linear chan_flat 98)
   = true /\
   Np.nanmin chan_flat = Ok (F32.of_Z 5) /\ Np.nanmax chan_flat = Ok (F32.of_Z 5) /\
   MakeRgb.degenerate (Np.float_of_f32 (F32.of_Z 5)) (Np.float_of_f32 (F32.of_Z 5)) = true /\
   MakeRgb.percentile_stretch nanpercentile_linear chan_flat 2 98 = Ok MakeRgb.Zeros).
Proof.
  assert (H1 : ComparePng.percentiles percentile_linear chan_flat = (F64.of_Z 5, F64.of_Z 5))
    by (vm_compute; reflexivity).
  assert (H2 : Float.leb (F64.of_Z 5) (F64.of_Z 5) = true) by reflexivity.
  assert (H3 : MakeRgb.degenerate (nanpercentile_linear chan_flat 2)
                 (nanpercentile_linear chan_flat 98) = true) by (vm_compute; reflexivity).
  assert (H4 : Np.nanmin chan_flat = Ok (F32.of_Z 5)) by (vm_compute; reflexivity).
  assert (H5 : Np.nanmax chan_flat = Ok (F32.of_Z 5)) by (vm_compute; reflexivity).
  assert (H6 : MakeRgb.degenerate (Np.float_of_f32 (F32.of_Z 5))
                 (Np.float_of_f32 (F32.of_Z 5)) = true) by (vm_compute; reflexivity).
  split.
  - split; [exact H1|]. split; [exact H2|].
    exact (proj1 (stretch_range_fallback percentile_linear nanpercentile_linear
                    chan_flat 2 98) _ _ H1 H2).
  - split; [exact H3|]. split; [exact H4|]. split; [exact H5|]. split; [exact H6|].
    exact (proj1 (proj2 (proj2 (proj2
             (stretch_range_fallback percentile_linear nanpercentile_linear chan_flat 2 98)))
             _ _ H3 H4 H5) H6).
Defined.

(** * Further properties *)

(** ** [s2_stac_pick_cloudfree.py]: the references of an item *)

Section AssetFacts.
Import Manifest Pick.

Lemma get_asset_usable (assets : gmap string Asset) (k : string) :
  is_Some (get_asset assets k) <-> usable assets k.
Proof.
  unfold get_asset, usable. split.
  - intros [r Hr]. destruct (assets !! k) as [a|]; [|discriminate].
    destruct (asset_href a) as [h|] eqn:Eh; [|discriminate].
    destruct (bool_decide (h = "")) eqn:E; [discriminate|].
    apply bool_decide_eq_false in E. exists a, h. auto.
  - intros (a & h & Ha & Hh & Hne). rewrite Ha, Hh.
    rewrite bool_decide_eq_false_2 by exact Hne. eauto.
Qed.

Lemma get_asset_ref (assets : gmap string Asset) (k : string) (r : AssetRef) :
  get_asset assets k = Some r ->
  key r = Some k /\ href r <> "" /\
  exists a, assets !! k = Some a /\ asset_href a = Some (href r) /\ type r = asset_media_type a.
Proof.
  unfold get_asset. intros H.
  destruct (assets !! k) as [a|]; [|discriminate].
  destruct (asset_href a) as [h|] eqn:Eh; [|discriminate].
  destruct (bool_decide (h = "")) eqn:E; [discriminate|].
  apply bool_decide_eq_false in E. inversion H; subst; simpl.
  split; [reflexivity|]. split; [exact E|]. exists a. auto.
Qed.

Lemma bool_decide_is_Some {A : Type} (o : option A) :
  bool_decide (is_Some o) = match o with Some _ => true | None => false end.
Proof.
  destruct o.
  - apply bool_decide_eq_true_2. eauto.
  - apply bool_decide_eq_false_2. intros [? H]. discriminate H.
Qed.

(** X1: [pick_s2_rgb_bands] is all or nothing, [pick_s2_index_assets] asks for B08
    only: the bands of an entry are there exactly when the item has the three
    assets [B02_10m], [B03_10m] and [B04_10m] with an [href], and then all
    three references are there; the index assets are there exactly when the
    item has [B08_10m] with an [href], and then B11 and SCL are there or not
    as the item has [B11_20m] and [SCL_20m]. *)
Theorem bands_all_or_nothing (it : Item) :
  (is_Some (pick_s2_rgb_bands it) <->
   usable (assets it) "B02_10m" /\ usable (assets it) "B03_10m" /\
   usable (assets it) "B04_10m") /\
  (forall b, pick_s2_rgb_bands it = Some b ->
     is_Some (B02 b) /\ is_Some (B03 b) /\ is_Some (B04 b)) /\
  (is_Some (pick_s2_index_assets it) <-> usable (assets it) "B08_10m") /\
  (forall x, pick_s2_index_assets it = Some x ->
     is_Some (B08 x) /\
     (is_Some (B11 x) <-> usable (assets it) "B11_20m") /\
     (is_Some (SCL x) <-> usable (assets it) "SCL_20m")).
Proof.
  pose proof (get_asset_usable (assets it)) as U.
  unfold pick_s2_rgb_bands, pick_s2_index_assets. simpl.
  rewrite !bool_decide_is_Some.
  split; [|split; [|split]].
  - rewrite <- !U.
    destruct (get_asset (assets it) "B02_10m") as [r2|],
             (get_asset (assets it) "B03_10m") as [r3|],
             (get_asset (assets it) "B04_10m") as [r4|]; simpl;
      split; intros H; try (destruct H as [? H]; discriminate H);
      try (destruct H as ([? ?] & [? ?] & [? ?]); discriminate); eauto.
  - intros b.
    destruct (get_asset (assets it) "B02_10m") as [r2|],
             (get_asset (assets it) "B03_10m") as [r3|],
             (get_asset (assets it) "B04_10m") as [r4|]; simpl;
      intros H; inversion H; subst; simpl; eauto.
  - rewrite <- U.
    destruct (get_asset (assets it) "B08_10m") as [r8|]; simpl.
    + split; eauto.
    + split; intros [? H]; discriminate H.
  - intros x. rewrite <- !U.
    destruct (get_asset (assets it) "B08_10m") as [r8|]; simpl.
    + intros H. inversion H; subst; simpl. split; [eauto|]. split; reflexivity.
    + discriminate.
Qed.

(** X2: Every reference the selector writes into an entry names the asset it was
    read from and has a non-empty [href]. The later stages rely on both: the
    index stage finds the [key] it subscripts ([band_path] does not raise),
    and the download stage takes the reference as one with an [href]. *)
Theorem entry_refs_well_formed (it : Item) (name : string) (r : AssetRef) :
  In (name, Some r) (entry_refs (to_asset_entry it)) ->
  key r = Some name /\ href r <> "" /\
  Download.has_href (Some r) = Some r /\
  forall base item_id,
    Indices.band_path base item_id r = Ok (base ++ [item_id +:+ "_" +:+ name +:+ ".jp2"]).
Proof.
  intros Hin.
  assert (Hget : get_asset (assets it) name = Some r).
  { unfold entry_refs, to_asset_entry in Hin. simpl in Hin.
    destruct Hin as [E|Hin]; [inversion E; subst; first [assumption | reflexivity | congruence]|].
    apply in_app_or in Hin. destruct Hin as [Hin|Hin].
    - unfold pick_s2_rgb_bands in Hin.
      destruct (negb _) in Hin; [destruct Hin|]. simpl in Hin.
      destruct Hin as [E|[E|[E|[]]]]; inversion E; subst; first [assumption | reflexivity | congruence].
    - unfold pick_s2_index_assets in Hin.
      destruct (negb _) in Hin; [destruct Hin|]. simpl in Hin.
      destruct Hin as [E|[E|[E|[]]]]; inversion E; subst; first [assumption | reflexivity | congruence]. }
  destruct (get_asset_ref _ _ _ Hget) as (Hk & Hh & _).
  split; [exact Hk|]. split; [exact Hh|]. split.
  - simpl. rewrite bool_decide_eq_false_2 by exact Hh. reflexivity.
  - intros base item_id. unfold Indices.band_path. rewrite Hk. reflexivity.
Qed.

End AssetFacts.

Lemma entry_refs_well_formed_witness :
  let r := {| Manifest.key := Some "SCL_20m";
              Manifest.href := "s3://eodata/scene-full/SCL_20m.jp2";
              Manifest.type := Some "image/jp2" |} in
  In ("SCL_20m", Some r) (entry_refs (Pick.to_asset_entry item_full)) /\
  Manifest.key r = Some "SCL_20m" /\ Manifest.href r <> "" /\
  Download.has_href (Some r) = Some r /\
  forall base item_id,
    Indices.band_path base item_id r = Ok (base ++ [item_id +:+ "_" +:+ "SCL_20m" +:+ ".jp2"]).
Proof.
  intros r.
  assert (H : In ("SCL_20m", Some r) (entry_refs (Pick.to_asset_entry item_full))).
  { vm_compute. do 6 right. left. reflexivity. }
  split; [exact H|].
  exact (entry_refs_well_formed item_full "SCL_20m" r H).
Defined.

(** ** [s2_stac_pick_cloudfree.py]: the tiers, the pool and the candidates *)

Section SelectorFacts.
Import Manifest Pick.

Lemma date_range_days (target_dt w : Z) (range : Z * Z) :
  date_range target_dt w = Ok range ->
  fst range = day_of target_dt - w /\ snd range = day_of target_dt + w.
Proof.
  unfold date_range, timedelta_days, datetime_add.
  destruct (bool_decide (-999999999 <= w <= 999999999)); [|discriminate]. simpl.
  destruct (bool_decide (0 <= target_dt + - (w * US_PER_DAY) < MAX_INSTANT));
    [|discriminate]. simpl.
  destruct (bool_decide (0 <= target_dt + w * US_PER_DAY < MAX_INSTANT));
    [|discriminate]. simpl.
  intros H. inversion H; subst; simpl. unfold day_of.
  replace (target_dt + - (w * US_PER_DAY)) with (target_dt + (- w) * US_PER_DAY) by lia.
  rewrite !Z.div_add by (unfold US_PER_DAY; lia). lia.
Qed.

Lemma score_all_snd (items : list Item) (target_dt : Z) (ks : list (Key * Item)) :
  score_all items target_dt = Ok ks -> List.map snd ks = items.
Proof.
  revert ks. induction items as [|it items IH]; intros ks H; simpl in H.
  - inversion H. reflexivity.
  - destruct (_score_item it target_dt) as [k|e]; [|discriminate]. simpl in H.
    destruct (score_all items target_dt) as [ks'|e]; [|discriminate]. simpl in H.
    inversion H; subst. simpl. f_equal. apply IH. reflexivity.
Qed.

(** [sorted] returns the items of the pool, each once. *)
Lemma sorted_items_perm (items ranked : list Item) (target_dt : Z) :
  sorted_items items target_dt = Ok ranked -> Permutation ranked items.
Proof.
  unfold sorted_items. intros H.
  destruct (score_all items target_dt) as [ks|e] eqn:E; [|discriminate]. simpl in H.
  inversion H; subst. rewrite <- (score_all_snd _ _ _ E).
  apply Permutation_map, sort_by_key_perm.
Qed.

(** What an [ok] result tells about the run that produced it. *)
Lemma run_plan_ok_inv (client : Client) (target_dt : Z) (cfg : PickConfig) (k : Z)
    (tiers : list Tier) (last : option Reason)
    (td : Z) (su : SearchUsed) (cands : list Candidate) (assets : list AssetEntry) :
  run_plan client target_dt cfg k tiers last = Ok (StatusOk td su cands assets) ->
  exists (before after : list Tier) (range : Z * Z) (ranked : list Item),
    tiers = before ++ (used_window_days su, used_cloud_lt su) :: after /\
    Forall (tier_empty client target_dt cfg) before /\
    date_range target_dt (used_window_days su) = Ok range /\
    client (tier_query cfg range (used_cloud_lt su)) <> [] /\
    sorted_items (pool_of client cfg range (used_cloud_lt su)) target_dt = Ok ranked /\
    td = target_dt /\
    used_start_day su = fst range /\ used_end_day su = snd range /\
    cands = List.map to_candidate (slice_to ranked k) /\
    assets = List.map to_asset_entry (slice_to ranked k).
Proof.
  revert last. induction tiers as [|[w c] tiers IH]; intros last H.
  - discriminate H.
  - simpl in H. destruct (date_range target_dt w) as [range|e] eqn:Er; [|discriminate H].
    simpl in H.
    destruct (collect (max_items cfg) 0 (client (tier_query cfg range c)))
      as [|x items'] eqn:Ec.
    + apply collect_nil in Ec.
      destruct (IH _ H) as (before & after & range' & ranked & E & Hb & Hrest).
      exists ((w, c) :: before), after, range', ranked. split.
      * rewrite E. reflexivity.
      * split; [|exact Hrest]. constructor; [|exact Hb]. exists range. auto.
    + destruct (sorted_items (x :: items') target_dt) as [ranked|e] eqn:Es;
        [|discriminate H]. simpl in H. inversion H; subst; simpl.
      exists [], tiers, range, ranked. unfold pool_of. rewrite Ec.
      repeat split; auto.
      intros E. rewrite E in Ec. discriminate Ec.
Qed.

(** X3: The window of an [ok] result is centred on the day of the target: it
    runs from [window_days] days before it to [window_days] days after it,
    and the tier it names is one of the three of the plan. *)
Theorem search_window_around_target (client : Client) (target_dt : Z) (cfg : PickConfig)
    (k : Z) (td : Z) (su : SearchUsed) (cands : list Candidate) (assets : list AssetEntry) :
  pick_topk_items client target_dt cfg k = Ok (StatusOk td su cands assets) ->
  td = target_dt /\
  In (used_window_days su, used_cloud_lt su) (plan cfg) /\
  used_start_day su = day_of target_dt - used_window_days su /\
  used_end_day su = day_of target_dt + used_window_days su.
Proof.
  intros H. unfold pick_topk_items in H.
  destruct (run_plan_ok_inv _ _ _ _ _ _ _ _ _ _ H)
    as (before & after & range & ranked & E & _ & Hr & _ & _ & Htd & Hs & He & _).
  destruct (date_range_days _ _ _ Hr) as [H1 H2].
  split; [exact Htd|]. split.
  - rewrite E. apply in_or_app. right. left. reflexivity.
  - rewrite Hs, He. auto.
Qed.

(** X4: The tiers are tried in order and the first one whose search yields an
    item is the one used: every tier before it was searched and answered
    nothing. In particular the starting criteria are the ones used whenever
    their search yields anything. *)
Theorem first_tier_with_items_is_used (client : Client) (target_dt : Z) (cfg : PickConfig)
    (k : Z) (td : Z) (su : SearchUsed) (cands : list Candidate) (assets : list AssetEntry) :
  pick_topk_items client target_dt cfg k = Ok (StatusOk td su cands assets) ->
  (exists (before after : list Tier) (range : Z * Z),
     plan cfg = before ++ (used_window_days su, used_cloud_lt su) :: after /\
     Forall (tier_empty client target_dt cfg) before /\
     date_range target_dt (used_window_days su) = Ok range /\
     client (tier_query cfg range (used_cloud_lt su)) <> []) /\
  (forall range, date_range target_dt (window_days cfg) = Ok range ->
     client (tier_query cfg range (cloud_lt cfg)) <> [] ->
     used_window_days su = window_days cfg /\ used_cloud_lt su = cloud_lt cfg).
Proof.
  intros H. unfold pick_topk_items in H.
  destruct (run_plan_ok_inv _ _ _ _ _ _ _ _ _ _ H)
    as (before & after & range & ranked & E & Hb & Hr & Hne & _).
  split.
  - exists before, after, range. auto.
  - intros range1 Hr1 Hne1. destruct before as [|t before].
    + unfold plan in E. simpl in E. inversion E. auto.
    + unfold plan in E. simpl in E. inversion E; subst t.
      inversion Hb as [|? ? (r & Hr' & Hempty) _]; subst. simpl in *.
      rewrite Hr1 in Hr'. inversion Hr'; subst. destruct (Hne1 Hempty).
Qed.

Lemma length_slice_to {A : Type} (l : list A) (k : Z) :
  0 <= k -> Z.of_nat (length (slice_to l k)) = Z.min k (Z.of_nat (length l)).
Proof.
  intros Hk. unfold slice_to.
  destruct (k <? 0) eqn:E; [apply Z.ltb_lt in E; lia|].
  rewrite length_firstn. lia.
Qed.

(** X5: The candidates of an [ok] result are the first [k] of the pool of the
    tier used, ranked: the ranked list is a permutation of the pool, so no
    candidate is invented and none appears twice unless the catalog returned
    it twice; for [k >= 0] there are [min(k, len(pool))] of them, and for
    [k >= 1] both lists hold at least one entry, so subscripting the first
    entry of an [ok] result, as [main] does, cannot fail. *)
Theorem candidates_are_ranked_pool (client : Client) (target_dt : Z) (cfg : PickConfig)
    (k : Z) (td : Z) (su : SearchUsed) (cands : list Candidate) (assets : list AssetEntry) :
  pick_topk_items client target_dt cfg k = Ok (StatusOk td su cands assets) ->
  exists (range : Z * Z) (ranked : list Item),
    date_range target_dt (used_window_days su) = Ok range /\
    Permutation ranked (pool_of client cfg range (used_cloud_lt su)) /\
    cands = List.map to_candidate (slice_to ranked k) /\
    assets = List.map to_asset_entry (slice_to ranked k) /\
    (0 <= k ->
     Z.of_nat (length cands)
     = Z.min k (Z.of_nat (length (pool_of client cfg range (used_cloud_lt su))))) /\
    (1 <= k -> cands <> [] /\ assets <> []).
Proof.
  intros H. unfold pick_topk_items in H.
  destruct (run_plan_ok_inv _ _ _ _ _ _ _ _ _ _ H)
    as (before & after & range & ranked & _ & _ & Hr & Hne & Hs & _ & _ & _ & Hc & Ha).
  pose proof (sorted_items_perm _ _ _ Hs) as Hp.
  assert (Hpool : pool_of client cfg range (used_cloud_lt su) <> []).
  { unfold pool_of. intros E. apply collect_nil in E. exact (Hne E). }
  exists range, ranked. split; [exact Hr|]. split; [exact Hp|].
  split; [exact Hc|]. split; [exact Ha|]. split.
  - intros Hk. rewrite Hc, length_map, length_slice_to by exact Hk.
    rewrite (Permutation_length Hp). reflexivity.
  - intros Hk.
    assert (Hlen : 1 <= Z.of_nat (length (slice_to ranked k))).
    { rewrite length_slice_to by lia. rewrite (Permutation_length Hp).
      destruct (pool_of client cfg range (used_cloud_lt su)); [congruence|].
      simpl length. lia. }
    rewrite Hc, Ha.
    destruct (slice_to ranked k); simpl in *; [lia|]. split; discriminate.
Qed.

(** X6: The pool cap is checked after the append: the pool is the first
    [max(1, max_items)] items of the answer, so a cap of zero or less still
    lets one item in. *)
Theorem collect_cap (max_items : Z) (found : list Item) :
  collect max_items 0 found = firstn (Z.to_nat (Z.max 1 max_items)) found.
Proof.
  assert (G : forall n, collect max_items n found
                        = firstn (Z.to_nat (Z.max 1 (max_items - n))) found).
  { induction found as [|it rest IH]; intros n; simpl.
    - rewrite firstn_nil. reflexivity.
    - destruct (n + 1 >=? max_items) eqn:E.
      + apply Z.geb_le in E.
        replace (Z.to_nat (Z.max 1 (max_items - n))) with 1%nat by lia. reflexivity.
      + assert (E' : n + 1 < max_items).
        { destruct (Z.geb_spec (n + 1) max_items); [discriminate|lia]. }
        replace (Z.to_nat (Z.max 1 (max_items - n)))
          with (S (Z.to_nat (Z.max 1 (max_items - (n + 1))))) by lia.
        simpl. f_equal. apply IH. }
  rewrite G. f_equal. f_equal. lia.
Qed.

Lemma score_all_raises (items : list Item) (target_dt : Z) :
  Exists (fun it => forall us, datetime it <> Some (DtInstant us)) items ->
  exists e, score_all items target_dt = Raise e /\ (e = KeyError \/ e = ValueError).
Proof.
  induction items as [|it items IH]; intros H.
  - inversion H.
  - simpl. unfold _score_item at 1, item_dt.
    destruct (datetime it) as [[us|]|] eqn:Ed; simpl.
    + inversion H as [? ? Hit|? ? Hrest]; subst.
      * destruct (Hit us). exact Ed.
      * destruct (IH Hrest) as (e & He & Hk). rewrite He. simpl. eauto.
    + eauto.
    + eauto.
Qed.

(** X7: One item without a usable [datetime] fails the whole selection: when the
    pool of the first tier searched with an answer holds an item whose
    [datetime] is missing or does not parse, [pick_topk_items] raises
    ([KeyError] for a missing one, [ValueError] for an unparsable one) instead
    of leaving the item out. Shown here for the first tier of the plan. *)
Theorem unusable_datetime_fails_selection (client : Client) (target_dt : Z)
    (cfg : PickConfig) (k : Z) (range : Z * Z) :
  date_range target_dt (window_days cfg) = Ok range ->
  Exists (fun it => forall us, datetime it <> Some (DtInstant us))
         (pool_of client cfg range (cloud_lt cfg)) ->
  exists e, pick_topk_items client target_dt cfg k = Raise e /\
            (e = KeyError \/ e = ValueError).
Proof.
  intros Hr Hbad. unfold pick_topk_items, plan. simpl. rewrite Hr. simpl.
  unfold pool_of in Hbad.
  destruct (collect (max_items cfg) 0 (client (tier_query cfg range (cloud_lt cfg))))
    as [|x items'] eqn:Ec.
  - inversion Hbad.
  - unfold sorted_items.
    destruct (score_all_raises _ target_dt Hbad) as (e & He & Hk).
    rewrite He. simpl. eauto.
Qed.

End SelectorFacts.

Lemma pick_three_scenes :
  Pick.pick_topk_items client_three target_2021 cfg_default 2
  = Ok (Manifest.StatusOk target_2021 su_default
          [Pick.to_candidate item_5; Pick.to_candidate item_15]
          [Pick.to_asset_entry item_5; Pick.to_asset_entry item_15]).
Proof. vm_compute. reflexivity. Qed.

Lemma pick_widest_tier :
  Pick.pick_topk_items client_wide target_2021 cfg_default 3
  = Ok (Manifest.StatusOk target_2021 su_widest
          [Pick.to_candidate item_5; Pick.to_candidate item_50]
          [Pick.to_asset_entry item_5; Pick.to_asset_entry item_50]).
Proof. vm_compute. reflexivity. Qed.

Lemma search_window_around_target_witness :
  Pick.pick_topk_items client_wide target_2021 cfg_default 3
  = Ok (Manifest.StatusOk target_2021 su_widest
          [Pick.to_candidate item_5; Pick.to_candidate item_50]
          [Pick.to_asset_entry item_5; Pick.to_asset_entry item_50]) /\
  target_2021 = target_2021 /\
  In (Manifest.used_window_days su_widest, Manifest.used_cloud_lt su_widest)
     (Pick.plan cfg_default) /\
  Manifest.used_start_day su_widest
  = Pick.day_of target_2021 - Manifest.used_window_days su_widest /\
  Manifest.used_end_day su_widest
  = Pick.day_of target_2021 + Manifest.used_window_days su_widest.
Proof.
  split; [exact pick_widest_tier|].
  exact (search_window_around_target _ _ _ _ _ _ _ _ pick_widest_tier).
Defined.

Lemma first_tier_with_items_is_used_witness :
  Pick.pick_topk_items client_wide target_2021 cfg_default 3
  = Ok (Manifest.StatusOk target_2021 su_widest
          [Pick.to_candidate item_5; Pick.to_candidate item_50]
          [Pick.to_asset_entry item_5; Pick.to_asset_entry item_50]) /\
  (exists (before after : list Pick.Tier) (range : Z * Z),
     Pick.plan cfg_default
     = before ++ (Manifest.used_window_days su_widest, Manifest.used_cloud_lt su_widest)
                 :: after /\
     Forall (tier_empty client_wide target_2021 cfg_default) before /\
     Pick.date_range target_2021 (Manifest.used_window_days su_widest) = Ok range /\
     client_wide (Pick.tier_query cfg_default range (Manifest.used_cloud_lt su_widest)) <> []) /\
  (forall range, Pick.date_range target_2021 (Pick.window_days cfg_default) = Ok range ->
     client_wide (Pick.tier_query cfg_default range (Pick.cloud_lt cfg_default)) <> [] ->
     Manifest.used_window_days su_widest = Pick.window_days cfg_default /\
     Manifest.used_cloud_lt su_widest = Pick.cloud_lt cfg_default).
Proof.
  split; [exact pick_widest_tier|].
  exact (first_tier_with_items_is_used _ _ _ _ _ _ _ _ pick_widest_tier).
Defined.

Lemma candidates_are_ranked_pool_witness :
  Pick.pick_topk_items client_three target_2021 cfg_default 2
  = Ok (Manifest.StatusOk target_2021 su_default
          [Pick.to_candidate item_5; Pick.to_candidate item_15]
          [Pick.to_asset_entry item_5; Pick.to_asset_entry item_15]) /\
  exists (range : Z * Z) (ranked : list Pick.Item),
    Pick.date_range target_2021 (Manifest.used_window_days su_default) = Ok range /\
    Permutation ranked (pool_of client_three cfg_default range
                          (Manifest.used_cloud_lt su_default)) /\
    [Pick.to_candidate item_5; Pick.to_candidate item_15]
    = List.map Pick.to_candidate (Pick.slice_to ranked 2) /\
    [Pick.to_asset_entry item_5; Pick.to_asset_entry item_15]
    = List.map Pick.to_asset_entry (Pick.slice_to ranked 2) /\
    (0 <= 2 ->
     Z.of_nat (length [Pick.to_candidate item_5; Pick.to_candidate item_15])
     = Z.min 2 (Z.of_nat (length (pool_of client_three cfg_default range
                                    (Manifest.used_cloud_lt su_default))))) /\
    (1 <= 2 ->
     [Pick.to_candidate item_5; Pick.to_candidate item_15] <> [] /\
     [Pick.to_asset_entry item_5; Pick.to_asset_entry item_15] <> []).
Proof.
  split; [exact pick_three_scenes|].
  exact (candidates_are_ranked_pool _ _ _ _ _ _ _ _ pick_three_scenes).
Defined.

Lemma unusable_datetime_fails_selection_witness :
  Pick.date_range target_2021 (Pick.window_days cfg_default) = Ok (737807, 737813) /\
  Exists (fun it => forall us, Pick.datetime it <> Some (Manifest.DtInstant us))
         (pool_of client_bad cfg_default (737807, 737813) (Pick.cloud_lt cfg_default)) /\
  exists e, Pick.pick_topk_items client_bad target_2021 cfg_default 3 = Raise e /\
            (e = KeyError \/ e = ValueError).
Proof.
  assert (H1 : Pick.date_range target_2021 (Pick.window_days cfg_default)
               = Ok (737807, 737813)) by reflexivity.
  assert (H2 : Exists (fun it => forall us, Pick.datetime it <> Some (Manifest.DtInstant us))
                 (pool_of client_bad cfg_default (737807, 737813)
                    (Pick.cloud_lt cfg_default))).
  { apply Exists_cons_tl, Exists_cons_hd. intros us H. discriminate H. }
  split; [exact H1|]. split; [exact H2|].
  exact (unusable_datetime_fails_selection client_bad target_2021 cfg_default 3 _ H1 H2).
Defined.

(** ** [_score_item]: scenes at the same distance before and after the target *)

Section DistanceFacts.
Import Manifest Pick.

(** The sign of a quotient is the only thing the sign of the dividend
    decides. *)
Lemma SFabs_round_sign (prec emax : Z) (s s' : bool) (m e : Z) (l : location) :
  SFabs (binary_round_aux prec emax s m e l) = SFabs (binary_round_aux prec emax s' m e l).
Proof.
  unfold binary_round_aux.
  destruct (shr_fexp prec emax m e l) as [mrs e1].
  destruct (shr_fexp prec emax _ e1 loc_Exact) as [mrs' e2].
  destruct (shr_m mrs') as [|p|p]; simpl; [reflexivity| |reflexivity].
  destruct (e2 <=? emax - prec); reflexivity.
Qed.

Lemma SFabs_div_sign (prec emax : Z) (s s' : bool) (m : positive) (e : Z) (y : spec_float) :
  SFabs (SFdiv prec emax (S754_finite s m e) y)
  = SFabs (SFdiv prec emax (S754_finite s' m e) y).
Proof.
  destruct y as [sy|sy| |sy my ey]; simpl; try reflexivity.
  destruct (SFdiv_core_binary prec emax (Z.pos m) e (Z.pos my) ey) as [[mz ez] lz].
  apply SFabs_round_sign.
Qed.

Lemma abs_total_seconds_opp (us : Z) :
  SFabs (total_seconds (- us)) = SFabs (total_seconds us).
Proof.
  unfold total_seconds, int_true_div.
  destruct us as [|p|p]; [reflexivity| |]; cbn [Z.opp]; unfold F64.div;
    apply SFabs_div_sign.
Qed.

Lemma eqb_not_nan (x y : spec_float) :
  Float.eqb x y = true -> Float.isnan x = false /\ Float.isnan y = false.
Proof.
  unfold Float.eqb, SFeqb.
  destruct x as [[]|[]| |[] mx ex], y as [[]|[]| |[] my ey]; simpl; intros H;
    try discriminate; auto.
Qed.

Lemma eqb_sym (x y : spec_float) : Float.eqb x y = true -> Float.eqb y x = true.
Proof.
  intros H. destruct (eqb_not_nan _ _ H) as [Hx Hy].
  apply eqb_rank; [assumption..|]. symmetry. apply eqb_rank; assumption.
Qed.

(** X8: Two scenes with equal cloud cover, one [d] before the target and one [d]
    after it, get the same distance in hours; the acquisition instant then
    decides, so the earlier scene is ranked first. *)
Theorem equidistant_scenes_earlier_first (x y : Item) (target_dt d : Z) :
  0 < d ->
  item_dt x = Ok (target_dt - d) -> item_dt y = Ok (target_dt + d) ->
  Float.eqb (_safe_get_cloud x) (_safe_get_cloud y) = true ->
  exists kx ky : Key,
    _score_item x target_dt = Ok kx /\ _score_item y target_dt = Ok ky /\
    snd (fst kx) = snd (fst ky) /\
    key_lt kx ky = true /\ key_lt ky kx = false.
Proof.
  intros Hd Hx Hy Hc. unfold _score_item. rewrite Hx, Hy. simpl.
  replace (target_dt - d - target_dt) with (- d) by lia.
  replace (target_dt + d - target_dt) with d by lia.
  rewrite abs_total_seconds_opp.
  set (h := F64.div (SFabs (total_seconds d)) f3600).
  assert (Hh : Float.eqb h h = true).
  { apply eqb_rank; try apply hours_not_nan. reflexivity. }
  eexists _, _. split; [reflexivity|]. split; [reflexivity|].
  split; [reflexivity|]. unfold key_lt, Float.neqb.
  change (SFeqb h h) with (Float.eqb h h). rewrite Hh.
  change (SFeqb (_safe_get_cloud x) (_safe_get_cloud y))
    with (Float.eqb (_safe_get_cloud x) (_safe_get_cloud y)).
  change (SFeqb (_safe_get_cloud y) (_safe_get_cloud x))
    with (Float.eqb (_safe_get_cloud y) (_safe_get_cloud x)).
  rewrite Hc, (eqb_sym _ _ Hc). simpl. split; [apply Z.ltb_lt|apply Z.ltb_ge]; lia.
Qed.

End DistanceFacts.

Lemma equidistant_scenes_earlier_first_witness :
  0 < 7200000000 /\
  Pick.item_dt item_15 = Ok (target_2021 - 7200000000) /\
  Pick.item_dt item_15_after = Ok (target_2021 + 7200000000) /\
  Float.eqb (Pick._safe_get_cloud item_15) (Pick._safe_get_cloud item_15_after) = true /\
  exists kx ky : Pick.Key,
    Pick._score_item item_15 target_2021 = Ok kx /\
    Pick._score_item item_15_after target_2021 = Ok ky /\
    snd (fst kx) = snd (fst ky) /\
    Pick.key_lt kx ky = true /\ Pick.key_lt ky kx = false.
Proof.
  assert (H0 : 0 < 7200000000) by lia.
  assert (H1 : Pick.item_dt item_15 = Ok (target_2021 - 7200000000)) by reflexivity.
  assert (H2 : Pick.item_dt item_15_after = Ok (target_2021 + 7200000000)) by reflexivity.
  assert (H3 : Float.eqb (Pick._safe_get_cloud item_15) (Pick._safe_get_cloud item_15_after)
               = true) by reflexivity.
  split; [exact H0|]. split; [exact H1|]. split; [exact H2|]. split; [exact H3|].
  exact (equidistant_scenes_earlier_first item_15 item_15_after target_2021 7200000000
           H0 H1 H2 H3).
Defined.

(** ** Stages as state transformers *)

Section PostFacts.
Context {S : Type} (R : S -> S -> Prop).
Hypothesis R_refl : forall w, R w w.
Hypothesis R_trans : forall w1 w2 w3, R w1 w2 -> R w2 w3 -> R w1 w3.

Lemma post_ret {A : Type} (a : A) (Q : S -> Prop) :
  (forall w, Q w) -> post R (mret a : M S A) Q.
Proof. intros H w. simpl. auto. Qed.

Lemma post_raise {A : Type} (e : exn) (Q : S -> Prop) : post R (raise e : M S A) Q.
Proof. intros w. simpl. split; [apply R_refl|]. intros a H. discriminate H. Qed.

Lemma post_weaken {A : Type} (m : M S A) (Q Q' : S -> Prop) :
  post R m Q -> (forall w, Q w -> Q' w) -> post R m Q'.
Proof. intros H HQ w. destruct (H w) as [Hr Hq]. split; [exact Hr|]. eauto. Qed.

Lemma post_bind {A B : Type} (m : M S A) (k : A -> M S B) (Q1 Q2 : S -> Prop) :
  post R m Q1 -> (forall a, post R (k a) Q2) ->
  (forall w w', Q1 w -> R w w' -> Q1 w') ->
  post R (m ≫= k) (fun w => Q1 w /\ Q2 w).
Proof.
  intros Hm Hk Hc w. unfold mbind, M_bind.
  destruct (Hm w) as [Hr Hq]. destruct (m w) as [[a|e] w1]; simpl in *.
  - destruct (Hk a w1) as [Hr' Hq']. split; [eauto|].
    intros b Hb. split; [|eauto]. apply (Hc w1); eauto.
  - split; [exact Hr|]. intros b Hb. discriminate Hb.
Qed.

Lemma post_bind_val {A B : Type} (m : M S A) (k : A -> M S B) (P : A -> Prop)
    (Q : S -> Prop) :
  (forall w, R w (snd (m w)) /\ forall a, fst (m w) = Ok a -> P a) ->
  (forall a, P a -> post R (k a) Q) ->
  post R (m ≫= k) Q.
Proof.
  intros Hm Hk w. unfold mbind, M_bind.
  destruct (Hm w) as [Hr Hp]. destruct (m w) as [[a|e] w1]; simpl in *.
  - destruct (Hk a (Hp a eq_refl) w1) as [Hr' Hq']. split; eauto.
  - split; [exact Hr|]. intros b Hb. discriminate Hb.
Qed.

Lemma post_seq {A B : Type} (m : M S A) (k : A -> M S B) (Q : S -> Prop) :
  post R m (fun _ => True) -> (forall a, post R (k a) Q) -> post R (m ≫= k) Q.
Proof.
  intros Hm Hk. apply (post_bind_val m k (fun _ => True)).
  - intros w. destruct (Hm w) as [Hr _]. auto.
  - intros a _. apply Hk.
Qed.

Lemma post_for_each {A : Type} (xs : list A) (body : A -> M S unit) (Q : A -> S -> Prop) :
  (forall x, In x xs -> post R (body x) (Q x)) ->
  (forall x w w', Q x w -> R w w' -> Q x w') ->
  post R (for_each xs body) (fun w => forall x, In x xs -> Q x w).
Proof.
  intros Hb Hc. induction xs as [|x xs IH]; simpl.
  - apply post_ret. intros w y [].
  - eapply post_weaken.
    + apply (post_bind (body x) (fun _ => for_each xs body) (Q x)
               (fun w => forall y, In y xs -> Q y w)).
      * apply Hb. left. reflexivity.
      * intros _. apply IH. intros y Hy. apply Hb. right. exact Hy.
      * apply Hc.
    + intros w [H1 H2] y [E|Hy]; [subst; exact H1|exact (H2 y Hy)].
Qed.

End PostFacts.

(** ** The download stage: what it keeps and what it leaves *)

Section DownloadStageFacts.
Import Manifest Download.

Variable urlparse : Urlparse.
Variable s3 : S3.
Variable good : path -> Prop.

Lemma kept_refl (w : World) : kept s3 good w w.
Proof. repeat split; auto. exists []. rewrite app_nil_r. reflexivity. Qed.

Lemma kept_trans (w1 w2 w3 : World) :
  kept s3 good w1 w2 -> kept s3 good w2 w3 -> kept s3 good w1 w3.
Proof.
  intros (A1 & A2 & A3 & A4 & A5 & r1 & A6) (B1 & B2 & B3 & B4 & B5 & r2 & B6).
  split; [|split; [|split; [|split; [|split]]]].
  - intros p Hp. rewrite <- (A1 p Hp). apply B1.
    destruct Hp as (b & bs & Hp). exists b, bs. rewrite (A1 p); eauto.
    exists b, bs. exact Hp.
  - auto.
  - intros p Hp. rewrite (B3 p Hp). auto.
  - auto.
  - auto.
  - exists (r1 ++ r2). rewrite B6, A6, app_assoc. reflexivity.
Qed.

(** A step that leaves the files alone. *)
Lemma kept_quiet (w w' : World) :
  files w' = files w -> (exists reqs, net w' = net w ++ reqs) ->
  (forall d, d ∈ dirs w -> d ∈ dirs w') ->
  kept s3 good w w'.
Proof. intros Hf Hn Hd. unfold kept. rewrite Hf. repeat split; auto. Qed.

(** A step that stores a fetched object where no file, or an empty one, was. *)
Lemma kept_write (w w' : World) (p : path) (bucket k : string) (bytes : list Byte.byte) :
  ~ nonempty_at (files w) p -> good p -> s3 bucket k = Some bytes ->
  files w' = <[p := bytes]> (files w) ->
  (exists reqs, net w' = net w ++ reqs) ->
  (forall d, d ∈ dirs w -> d ∈ dirs w') ->
  kept s3 good w w'.
Proof.
  intros Hne Hgood Hs Hf Hn Hd. unfold kept. rewrite Hf.
  split; [|split; [|split; [|split; [|split]]]]; auto.
  - intros q Hq. apply lookup_insert_ne. intros E. subst q. exact (Hne Hq).
  - intros q (bs & Hq & He). destruct (decide (p = q)) as [E|E].
    + subst q. exists bytes. rewrite lookup_insert_eq. split; [reflexivity|].
      intros E. subst bytes. eauto.
    + exists bs. rewrite lookup_insert_ne by exact E. auto.
  - intros q Hq. apply lookup_insert_ne. intros E. subst q. exact (Hq Hgood).
  - intros q Hq. destruct (decide (p = q)) as [E|E].
    + subst q. rewrite lookup_insert_eq. eauto.
    + rewrite lookup_insert_ne by exact E. exact Hq.
Qed.

Lemma no_reqs (l : list (string * string)) : exists reqs, l = l ++ reqs.
Proof. exists []. rewrite app_nil_r. reflexivity. Qed.

Lemma one_req (l : list (string * string)) (r : string * string) :
  exists reqs, l ++ [r] = l ++ reqs.
Proof. exists [r]. reflexivity. Qed.

Lemma post_print (m : Msg) : post (kept s3 good) (print m) (fun _ => True).
Proof. intros w. split; [|auto]. apply kept_quiet; simpl; auto using no_reqs. Qed.

Lemma dirs_grow (D E : gset path) : forall d, d ∈ D -> d ∈ D ∪ E.
Proof. intros d Hd. apply elem_of_union. left. exact Hd. Qed.

Lemma post_mkdir (p : path) : post (kept s3 good) (mkdir_parents p) (fun _ => True).
Proof.
  intros w. split; [|auto]. apply kept_quiet; simpl; auto using no_reqs, dirs_grow.
Qed.

(** [fetch]: the destination is left alone when it holds a file that is not
    empty, and holds the object when [fetch] returns. *)
Lemma post_fetch (out_dir : path) (item_id href keyname : string) :
  good (asset_path out_dir item_id keyname) ->
  post (kept s3 good) (fetch urlparse s3 out_dir item_id href keyname)
       (fun w => held s3 (files w) (asset_path out_dir item_id keyname)).
Proof.
  intros Hgood w.
  set (p := asset_path out_dir item_id keyname) in *.
  assert (Hmiss : forall bucket k,
            files w !! p = None \/ files w !! p = Some [] ->
            match s3 bucket k with
            | Some bytes =>
                kept s3 good w
                  {| files := <[p := bytes]> (files w);
                     dirs := dirs w ∪ list_to_set (ancestors (parent p));
                     net := net w ++ [(bucket, k)];
                     stdout := (stdout w ++ [Downloading keyname]) ++ [SavedTo p] |} /\
                held s3 (<[p := bytes]> (files w)) p
            | None => True
            end).
  { intros bucket k Hp. destruct (s3 bucket k) as [bytes|] eqn:Es; [|exact I]. split.
    - apply (kept_write _ _ p bucket k bytes); simpl; auto using one_req, dirs_grow.
      intros (b & bs & Hb). destruct Hp as [Hp|Hp]; rewrite Hp in Hb; discriminate Hb.
    - exists bytes. rewrite lookup_insert_eq. split; [reflexivity|].
      intros E. subst bytes. eauto. }
  unfold fetch, ensure_download, nonempty_file, download_file, print, mkdir_parents,
    lift, modify, get_world, raise, mbind, M_bind, mret, M_ret. simpl. fold p.
  destruct (files w !! p) as [[|b bs]|] eqn:Ep; simpl.
  - destruct (parse_s3_href urlparse href) as [[bucket k]|e]; simpl; rewrite ?Ep; simpl.
    + specialize (Hmiss bucket k (or_intror eq_refl)).
      destruct (s3 bucket k) as [bytes|]; simpl.
      * destruct Hmiss as [H1 H2]. split; [exact H1|]. intros _ _. exact H2.
      * split; [|intros a H; discriminate H].
        apply kept_quiet; simpl; auto using one_req, dirs_grow.
    + split; [|intros a H; discriminate H].
      apply kept_quiet; simpl; auto using no_reqs.
  - split.
    + apply kept_quiet; simpl; auto using no_reqs.
    + intros _ _. exists (b :: bs). split; [exact Ep|]. discriminate.
  - destruct (parse_s3_href urlparse href) as [[bucket k]|e]; simpl; rewrite ?Ep; simpl.
    + specialize (Hmiss bucket k (or_introl eq_refl)).
      destruct (s3 bucket k) as [bytes|]; simpl.
      * destruct Hmiss as [H1 H2]. split; [exact H1|]. intros _ _. exact H2.
      * split; [|intros a H; discriminate H].
        apply kept_quiet; simpl; auto using one_req, dirs_grow.
    + split; [|intros a H; discriminate H].
      apply kept_quiet; simpl; auto using no_reqs.
Qed.

Lemma held_kept (p : path) (w w' : World) :
  held s3 (files w) p -> kept s3 good w w' -> held s3 (files w') p.
Proof. intros H (_ & K & _). auto. Qed.

Lemma held_all_kept (ps : list path) (w w' : World) :
  (forall p, In p ps -> held s3 (files w) p) -> kept s3 good w w' ->
  forall p, In p ps -> held s3 (files w') p.
Proof. intros H K p Hp. exact (held_kept p w w' (H p Hp) K). Qed.

Lemma post_ref (out_dir : path) (item_id : string) (named : string * option AssetRef)
    (otherwise : M World unit) :
  (forall p, In p (ref_paths out_dir item_id named) -> good p) ->
  post (kept s3 good) otherwise (fun _ => True) ->
  post (kept s3 good)
       (match has_href (snd named) with
        | None => otherwise
        | Some a => fetch urlparse s3 out_dir item_id (href a) (key_or a (fst named))
        end)
       (fun w => forall p, In p (ref_paths out_dir item_id named) -> held s3 (files w) p).
Proof.
  intros Hg Ho. unfold ref_paths in *.
  destruct (has_href (snd named)) as [a|].
  - eapply post_weaken.
    + apply post_fetch. apply Hg. left. reflexivity.
    + intros w H p [E|[]]. subst p. exact H.
  - eapply post_weaken; [exact Ho|]. intros w _ p [].
Qed.

Lemma post_refs (out_dir : path) (item_id : string)
    (refs : list (string * option AssetRef)) (otherwise : string -> M World unit) :
  (forall p, In p (flat_map (ref_paths out_dir item_id) refs) -> good p) ->
  (forall name, post (kept s3 good) (otherwise name) (fun _ => True)) ->
  post (kept s3 good)
       (for_each refs (fun named =>
          match has_href (snd named) with
          | None => otherwise (fst named)
          | Some a => fetch urlparse s3 out_dir item_id (href a) (key_or a (fst named))
          end))
       (fun w => forall p, In p (flat_map (ref_paths out_dir item_id) refs) ->
                           held s3 (files w) p).
Proof.
  intros Hg Ho. eapply post_weaken.
  - apply (post_for_each (kept s3 good) kept_refl kept_trans refs _
             (fun named w => forall p, In p (ref_paths out_dir item_id named) ->
                                       held s3 (files w) p)).
    + intros named Hin. apply post_ref; [|apply Ho].
      intros p Hp. apply Hg. apply in_flat_map. exists named. auto.
    + intros named w w' H K. exact (held_all_kept _ w w' H K).
  - intros w H p Hp. apply in_flat_map in Hp. destruct Hp as (named & Hin & Hp).
    exact (H named Hin p Hp).
Qed.

Lemma post_download_candidate (sensor : string) (cand : Candidate) (entry : AssetEntry) :
  (forall p, In p (entry_paths sensor cand entry) -> good p) ->
  post (kept s3 good) (download_candidate urlparse s3 sensor cand entry)
       (fun w => forall p, In p (entry_paths sensor cand entry) -> held s3 (files w) p).
Proof.
  intros Hg. unfold download_candidate.
  apply (post_bind_val (kept s3 good) kept_trans _ _ (fun item_id => item_id = path_id cand entry)).
  { intros w. unfold resolve_item_id, path_id.
    destruct (bool_decide (entry_id entry ≠ "") && bool_decide (entry_id entry ≠ cand_id cand));
      simpl; (split; [apply kept_quiet; simpl; auto using no_reqs|]);
      intros a H; inversion H; reflexivity. }
  intros item_id ->.
  unfold entry_paths in *. cbv zeta in *.
  set (out_dir := dl_root ++ [sensor; path_id cand entry]) in *.
  apply (post_seq (kept s3 good) kept_trans); [apply post_mkdir|intros _].
  apply (post_seq (kept s3 good) kept_trans); [apply post_print|intros _].
  eapply post_weaken.
  - apply (post_bind (kept s3 good) kept_trans _ _
             (fun w => forall p, In p (ref_paths out_dir (path_id cand entry)
                                         ("TCI_10m", tci entry)) -> held s3 (files w) p)
             (fun w =>
                (forall p, In p (match bands entry with
                                 | Some b => flat_map (ref_paths out_dir (path_id cand entry))
                                               [("B02", B02 b); ("B03", B03 b); ("B04", B04 b)]
                                 | None => []
                                 end) -> held s3 (files w) p) /\
                (forall p, In p (match index entry with
                                 | Some x => flat_map (ref_paths out_dir (path_id cand entry))
                                               [("B08", B08 x); ("B11", B11 x); ("SCL", SCL x)]
                                 | None => []
                                 end) -> held s3 (files w) p))).
    + apply (post_ref out_dir (path_id cand entry) ("TCI_10m", tci entry)).
      * intros p Hp. apply Hg. apply in_or_app. left. exact Hp.
      * apply post_print.
    + intros _. apply (post_bind (kept s3 good) kept_trans).
      * destruct (bands entry) as [b|].
        -- apply (post_refs out_dir (path_id cand entry)
                    [("B02", B02 b); ("B03", B03 b); ("B04", B04 b)]
                    (fun _ => raise RuntimeError)).
           ++ intros p Hp. apply Hg. apply in_or_app. right. apply in_or_app. left. exact Hp.
           ++ intros _. apply post_raise, kept_refl.
        -- eapply post_weaken; [apply post_print|]. intros w _ p [].
      * intros _. destruct (index entry) as [x|].
        -- apply (post_seq (kept s3 good) kept_trans).
           ++ destruct (has_href (B08 x)); [apply post_ret; auto using kept_refl|apply post_print].
           ++ intros _.
              apply (post_refs out_dir (path_id cand entry)
                       [("B08", B08 x); ("B11", B11 x); ("SCL", SCL x)]
                       (fun name => print (KeyNone name))).
              ** intros p Hp. apply Hg. apply in_or_app. right. apply in_or_app. right.
                 exact Hp.
              ** intros name. apply post_print.
        -- eapply post_weaken; [apply post_print|]. intros w _ p [].
      * intros w w' H K. exact (held_all_kept _ w w' H K).
    + intros w w' H K. exact (held_all_kept _ w w' H K).
  - intros w (H1 & H2 & H3) p Hp.
    apply in_app_or in Hp. destruct Hp as [Hp|Hp]; [exact (H1 p Hp)|].
    apply in_app_or in Hp. destruct Hp as [Hp|Hp]; [exact (H2 p Hp)|exact (H3 p Hp)].
Qed.

Lemma post_download_target (t : Target) :
  (forall p, In p (target_paths t) -> good p) ->
  post (kept s3 good) (download_target urlparse s3 t)
       (fun w => forall p, In p (target_paths t) -> held s3 (files w) p).
Proof.
  intros Hg. unfold download_target. unfold target_paths in *.
  destruct (res t) as [td su cands assets|td reason].
  2:{ eapply post_weaken; [apply post_print|]. intros w _ p []. }
  destruct cands as [|c cands].
  { eapply post_weaken; [apply post_print|]. intros w _ p []. }
  destruct assets as [|e assets].
  { eapply post_weaken; [apply post_print|]. intros w _ p []. }
  apply (post_seq (kept s3 good) kept_trans); [apply post_print|intros _].
  eapply post_weaken.
  - apply (post_for_each (kept s3 good) kept_refl kept_trans _ _
             (fun ce w => forall p, In p (entry_paths (sensor t) (fst ce) (snd ce)) ->
                                    held s3 (files w) p)).
    + intros ce Hce. apply post_download_candidate.
      intros p Hp. apply Hg. apply in_flat_map. exists ce. auto.
    + intros ce w w' H K. exact (held_all_kept _ w w' H K).
  - intros w H p Hp. apply in_flat_map in Hp. destruct Hp as (ce & Hce & Hp).
    exact (H ce Hce p Hp).
Qed.

Lemma post_main (targets : list Target) :
  (forall p, listed targets p -> good p) ->
  post (kept s3 good) (main urlparse s3 targets)
       (fun w => forall p, listed targets p -> held s3 (files w) p).
Proof.
  intros Hg. unfold main.
  apply (post_seq (kept s3 good) kept_trans); [apply post_mkdir|intros _].
  eapply post_weaken.
  - apply (post_bind (kept s3 good) kept_trans _ _
             (fun w => forall p, listed targets p -> held s3 (files w) p)
             (fun _ => True)).
    + eapply post_weaken.
      * apply (post_for_each (kept s3 good) kept_refl kept_trans _ _
                 (fun t w => forall p, In p (target_paths t) -> held s3 (files w) p)).
        -- intros t Ht. apply post_download_target.
           intros p Hp. apply Hg. exists t. auto.
        -- intros t w w' H K. exact (held_all_kept _ w w' H K).
      * intros w H p (t & Ht & Hp). exact (H t Ht p Hp).
    + intros _. apply post_print.
    + intros w w' H K p Hp. exact (held_kept p w w' (H p Hp) K).
  - intros w [H _]. exact H.
Qed.

End DownloadStageFacts.

Section DownloadRunFacts.
Import Manifest Download.
Variable urlparse : Download.Urlparse.

(** X9: Whatever the manifest and the object store, and whether the run returns
    or raises, the download stage keeps every file that is there and not
    empty as it is, and removes no file and no directory. *)
Theorem download_keeps_existing_files (s3 : S3) (targets : list Target) (w : World) :
  (forall p, nonempty_at (files w) p ->
             files (snd (main urlparse s3 targets w)) !! p = files w !! p) /\
  (forall p, is_Some (files w !! p) -> is_Some (files (snd (main urlparse s3 targets w)) !! p)) /\
  (forall d, d ∈ dirs w -> d ∈ dirs (snd (main urlparse s3 targets w))).
Proof.
  destruct (post_main urlparse s3 (fun _ => True) targets (fun _ _ => I) w)
    as [(K1 & _ & _ & K4 & K5 & _) _].
  auto.
Qed.

(** X10: The download stage writes only to the destinations the manifest names:
    every other path holds after the run what it held before; and the
    requests of earlier runs stay on record, new ones are added after them. *)
Theorem download_touches_only_listed (s3 : S3) (targets : list Target) (w : World) :
  (forall p, ~ listed targets p -> files (snd (main urlparse s3 targets w)) !! p = files w !! p) /\
  (exists reqs, net (snd (main urlparse s3 targets w)) = net w ++ reqs).
Proof.
  destruct (post_main urlparse s3 (listed targets) targets (fun _ H => H) w)
    as [(_ & _ & K3 & _ & _ & K6) _].
  auto.
Qed.

Lemma download_completes_aux (s3 : S3) (targets : list Target) (w w' : World) :
  main urlparse s3 targets w = (Ok tt, w') ->
  forall t p, In t targets -> In p (target_paths t) -> held s3 (files w') p.
Proof.
  intros H t p Ht Hp.
  destruct (post_main urlparse s3 (fun _ => True) targets (fun _ _ => I) w) as [_ Hq].
  rewrite H in Hq. simpl in Hq. apply (Hq tt eq_refl). exists t. auto.
Qed.

(** X11: When the download stage returns, every destination the manifest names
    holds a file; the file is empty only if the object store served an
    empty object. *)
Theorem download_completes (s3 : S3) (targets : list Target) (w w' : World) :
  main urlparse s3 targets w = (Ok tt, w') ->
  forall t p, In t targets -> In p (target_paths t) ->
    exists bytes, files w' !! p = Some bytes /\
                  (bytes = [] -> exists b k, s3 b k = Some []).
Proof. exact (download_completes_aux s3 targets w w'). Qed.

(** X12: A run that returned is not repeated by the next one: when the object
    store serves no empty object, running the stage again on the tree the
    first run left sends no request and changes no file. *)
Theorem second_run_is_quiet (s3 : S3) (targets : list Target) (w w' : World) :
  (forall b k, s3 b k <> Some []) ->
  main urlparse s3 targets w = (Ok tt, w') ->
  populated (files w') targets /\
  files (snd (main urlparse s3 targets w')) = files w' /\
  net (snd (main urlparse s3 targets w')) = net w'.
Proof.
  intros Hs H.
  assert (Hp : populated (files w') targets).
  { intros t p Ht Hp.
    destruct (download_completes_aux s3 targets w w' H t p Ht Hp) as (bytes & Hb & He).
    destruct bytes as [|b bs].
    - destruct (He eq_refl) as (b & k & Hbk). destruct (Hs b k Hbk).
    - exists b, bs. exact Hb. }
  split; [exact Hp|]. exact (stable_main urlparse (files w') s3 targets Hp w' eq_refl).
Qed.

End DownloadRunFacts.

Lemma first_run_ok : fst (Download.main urlparse_lib s3_any [target_one_file] world_empty) = Ok tt.
Proof. vm_compute. reflexivity. Qed.

Lemma first_run_returns :
  Download.main urlparse_lib s3_any [target_one_file] world_empty
  = (Ok tt, snd (Download.main urlparse_lib s3_any [target_one_file] world_empty)).
Proof.
  pose proof first_run_ok as H.
  destruct (Download.main urlparse_lib s3_any [target_one_file] world_empty) as [r w1].
  simpl in *. subst r. reflexivity.
Qed.

Lemma download_completes_witness :
  let w' := snd (Download.main urlparse_lib s3_any [target_one_file] world_empty) in
  let p := ["downloads";"S2_TOPK_JP2";"ICEYE";"scene-05";"scene-05_TCI_10m.jp2"] in
  Download.main urlparse_lib s3_any [target_one_file] world_empty = (Ok tt, w') /\
  In target_one_file [target_one_file] /\
  In p (target_paths target_one_file) /\
  exists bytes, Download.files w' !! p = Some bytes /\
                (bytes = [] -> exists b k, s3_any b k = Some []).
Proof.
  intros w' p.
  assert (H1 : In target_one_file [target_one_file]) by (left; reflexivity).
  assert (H2 : In p (target_paths target_one_file)) by (left; reflexivity).
  split; [exact first_run_returns|]. split; [exact H1|]. split; [exact H2|].
  exact (download_completes urlparse_lib s3_any [target_one_file] world_empty w' first_run_returns
           target_one_file p H1 H2).
Defined.

Lemma second_run_is_quiet_witness :
  let w' := snd (Download.main urlparse_lib s3_any [target_one_file] world_empty) in
  (forall b k, s3_any b k <> Some []) /\
  Download.main urlparse_lib s3_any [target_one_file] world_empty = (Ok tt, w') /\
  populated (Download.files w') [target_one_file] /\
  Download.files (snd (Download.main urlparse_lib s3_any [target_one_file] w')) = Download.files w' /\
  Download.net (snd (Download.main urlparse_lib s3_any [target_one_file] w')) = Download.net w'.
Proof.
  intros w'.
  assert (H1 : forall b k, s3_any b k <> Some []) by (intros b k H; discriminate H).
  split; [exact H1|]. split; [exact first_run_returns|].
  exact (second_run_is_quiet urlparse_lib s3_any [target_one_file] world_empty w' H1 first_run_returns).
Defined.

(** ** [parse_s3_href] and [ensure_download] *)

Section HrefFacts.
Import Manifest Download.
Variable urlparse : Download.Urlparse.

Lemma url_char_facts (a : Ascii.ascii) :
  url_char a = true ->
  unsafe_byte a = false /\ (Ascii.nat_of_ascii a <? 128)%nat = true /\
  Ascii.eqb a "?"%char = false /\ Ascii.eqb a "#"%char = false /\
  Ascii.eqb a "["%char = false /\ Ascii.eqb a "]"%char = false /\
  Ascii.eqb "#"%char a = false /\ Ascii.eqb "?"%char a = false.
Proof.
  destruct a as [[] [] [] [] [] [] [] []]; intros H; vm_compute in H;
    try discriminate H; vm_compute; repeat split; reflexivity.
Qed.

Lemma lower_s (a : Ascii.ascii) :
  lower_ascii a = "s"%char -> a = "s"%char \/ a = "S"%char.
Proof.
  destruct a as [[] [] [] [] [] [] [] []]; intros H; vm_compute in H;
    try discriminate H; auto.
Qed.

Lemma lower_3 (a : Ascii.ascii) : lower_ascii a = "3"%char -> a = "3"%char.
Proof.
  destruct a as [[] [] [] [] [] [] [] []]; intros H; vm_compute in H;
    try discriminate H; reflexivity.
Qed.

Lemma all_chars_impl (f g : Ascii.ascii -> bool) (s : string) :
  (forall a, f a = true -> g a = true) -> all_chars f s = true -> all_chars g s = true.
Proof.
  intros Hfg. induction s as [|a s IH]; simpl; intros H; [reflexivity|].
  apply andb_true_iff in H. destruct H as [Ha Hs].
  rewrite (Hfg a Ha), (IH Hs). reflexivity.
Qed.

Lemma all_chars_app (f : Ascii.ascii -> bool) (s t : string) :
  all_chars f (s +:+ t) = all_chars f s && all_chars f t.
Proof.
  induction s as [|a s IH]; [reflexivity|].
  change (String a s +:+ t) with (String a (s +:+ t)). simpl.
  rewrite IH, andb_assoc. reflexivity.
Qed.

Lemma remove_unsafe_id (s : string) :
  all_chars (fun a => negb (unsafe_byte a)) s = true -> remove_unsafe s = s.
Proof.
  induction s as [|a s IH]; simpl; intros H; [reflexivity|].
  apply andb_true_iff in H. destruct H as [Ha Hs].
  apply negb_true_iff in Ha. rewrite Ha, (IH Hs). reflexivity.
Qed.

Lemma break_where_none (f : Ascii.ascii -> bool) (s : string) :
  all_chars (fun a => negb (f a)) s = true -> break_where f s = (s, EmptyString).
Proof.
  induction s as [|a s IH]; simpl; intros H; [reflexivity|].
  apply andb_true_iff in H. destruct H as [Ha Hs].
  apply negb_true_iff in Ha. rewrite Ha, (IH Hs). reflexivity.
Qed.

Lemma break_where_at (f : Ascii.ascii -> bool) (host : string) (c : Ascii.ascii)
    (rest : string) :
  all_chars (fun a => negb (f a)) host = true -> f c = true ->
  break_where f (host +:+ String c rest) = (host, String c rest).
Proof.
  intros Hh Hc. induction host as [|a host IH].
  - change (EmptyString +:+ String c rest) with (String c rest).
    cbn [break_where]. rewrite Hc. reflexivity.
  - simpl in Hh. apply andb_true_iff in Hh. destruct Hh as [Ha Hh].
    apply negb_true_iff in Ha.
    change (String a host +:+ String c rest) with (String a (host +:+ String c rest)).
    cbn [break_where]. rewrite Ha, (IH Hh). reflexivity.
Qed.

Lemma has_none (c : Ascii.ascii) (s : string) :
  all_chars (fun a => negb (Ascii.eqb a c)) s = true -> has c s = false.
Proof. intros H. unfold has. rewrite H. reflexivity. Qed.

(** [urlsplit] on a reference [s3://bucket/key] of plain characters. *)
Lemma urlsplit_s3 (chk1 chk2 : string -> bool) (a b : Ascii.ascii) (bucket k : string) :
  a = "s"%char \/ a = "S"%char -> b = "3"%char ->
  all_chars url_char bucket = true -> all_chars not_slash bucket = true ->
  all_chars url_char k = true ->
  urlsplit chk1 chk2 (String a (String b ("://" +:+ bucket +:+ "/" +:+ k)))
  = Some ("s3", bucket, String "/"%char k).
Proof.
  intros Ha Hb Hub Hsb Huk. subst b.
  set (U := bucket +:+ "/" +:+ k).
  assert (Hsafe : forall s, all_chars url_char s = true ->
                            all_chars (fun c => negb (unsafe_byte c)) s = true).
  { intros s. apply all_chars_impl. intros c Hc.
    destruct (url_char_facts c Hc) as (E & _). rewrite E. reflexivity. }
  assert (HU : all_chars (fun c => negb (unsafe_byte c)) U = true).
  { unfold U. rewrite !all_chars_app, (Hsafe _ Hub), (Hsafe _ Huk). reflexivity. }
  assert (Hdelim : all_chars (fun c => negb (netloc_delim c)) bucket = true).
  { clear -Hub Hsb. induction bucket as [|c s IH]; [reflexivity|].
    cbn [all_chars] in *. apply andb_true_iff in Hub. destruct Hub as [Hc Hs].
    apply andb_true_iff in Hsb. destruct Hsb as [Hn Hs'].
    destruct (url_char_facts c Hc) as (_ & _ & E1 & E2 & _).
    unfold not_slash in Hn. apply negb_true_iff in Hn.
    apply andb_true_iff. split; [|exact (IH Hs Hs')].
    unfold netloc_delim. rewrite Hn, E1, E2. reflexivity. }
  assert (Hbr : has "["%char bucket = false /\ has "]"%char bucket = false).
  { split; apply has_none; revert Hub; apply all_chars_impl; intros c Hc;
      destruct (url_char_facts c Hc) as (_ & _ & _ & _ & E1 & E2 & _);
      [rewrite E1|rewrite E2]; reflexivity. }
  assert (Hasc : is_ascii bucket = true).
  { revert Hub. apply all_chars_impl. intros c Hc.
    destruct (url_char_facts c Hc) as (_ & E & _). exact E. }
  assert (Hk : forall d, (d = "#"%char \/ d = "?"%char) ->
                         all_chars (fun c => negb (Ascii.eqb d c)) (String "/"%char k) = true).
  { intros d Hd. simpl. apply andb_true_iff. split.
    - destruct Hd; subst d; reflexivity.
    - revert Huk. apply all_chars_impl. intros c Hc.
      destruct (url_char_facts c Hc) as (_ & _ & _ & _ & _ & _ & E1 & E2).
      destruct Hd; subst d; [rewrite E1|rewrite E2]; reflexivity. }
  unfold urlsplit.
  assert (E1 : remove_unsafe (lstrip_c0 (String a (String "3"%char ("://" +:+ U))))
               = String a (String "3"%char ("://" +:+ U))).
  { assert (El : lstrip_c0 (String a (String "3"%char ("://" +:+ U)))
                 = String a (String "3"%char ("://" +:+ U)))
      by (destruct Ha; subst a; reflexivity).
    rewrite El. apply remove_unsafe_id.
    change ("://" +:+ U) with (String ":"%char (String "/"%char (String "/"%char U))).
    cbn [all_chars]. rewrite HU. destruct Ha; subst a; reflexivity. }
  fold U. rewrite E1.
  assert (E2 : split_scheme (String a (String "3"%char ("://" +:+ U)))
               = ("s3", String "/"%char (String "/"%char U))).
  { destruct Ha; subst a; reflexivity. }
  rewrite E2.
  unfold U at 1.
  change (bucket +:+ "/" +:+ k) with (bucket +:+ String "/"%char k).
  rewrite (break_where_at netloc_delim bucket "/"%char k Hdelim eq_refl).
  destruct Hbr as [B1 B2]. rewrite B1, B2. cbn [andb orb negb].
  rewrite (break_where_none _ _ (Hk "#"%char (or_introl eq_refl))). cbn [fst].
  rewrite (break_where_none _ _ (Hk "?"%char (or_intror eq_refl))). cbn [fst].
  rewrite Hasc. reflexivity.
Qed.

(** X13: A reference [s3://bucket/key] is taken apart into its bucket and its
    key: the scheme is matched whatever its case, the bucket is the text up
    to the first slash, and the key loses its leading slashes. The bucket
    and the key are made of characters that [urlparse] neither strips nor
    takes for a delimiter (printable ones other than [?], [#] and the square
    brackets); on such a reference [urlparse] asks neither of its two
    checks. *)
Theorem parse_s3_href_round_trip (check_bracketed_netloc checknetloc : string -> bool)
    (sch bucket k : string) :
  lower sch = "s3" ->
  all_chars url_char bucket = true -> all_chars not_slash bucket = true ->
  all_chars url_char k = true ->
  parse_s3_href (urllib_urlparse check_bracketed_netloc checknetloc)
                (sch +:+ "://" +:+ bucket +:+ "/" +:+ k)
  = Ok (bucket, lstrip_slash k).
Proof.
  intros Hs Hub Hsb Huk.
  destruct sch as [|a [|b [|c sch]]]; simpl in Hs; try discriminate Hs.
  injection Hs as Ha Hb.
  apply lower_s in Ha. apply lower_3 in Hb.
  unfold parse_s3_href, urllib_urlparse.
  change (String a (String b EmptyString) +:+ "://" +:+ bucket +:+ "/" +:+ k)
    with (String a (String b ("://" +:+ bucket +:+ "/" +:+ k))).
  rewrite (urlsplit_s3 _ _ a b bucket k Ha Hb Hub Hsb Huk).
  reflexivity.
Qed.

(** X14: [ensure_download] when the destination holds no file, or an empty one:
    a reference that does not parse raises [ValueError] and leaves no trace,
    not even a directory; otherwise the directories above the destination
    are made and exactly one request is sent, for the bucket and key of the
    reference; the object served becomes the file, and a refused request
    raises with the files as they were. An empty file counts as missing: it
    is fetched again. *)
Theorem ensure_download_fetches (s3 : S3) (href : string) (out_path : path) (w : World) :
  (files w !! out_path = None \/ files w !! out_path = Some []) ->
  match parse_s3_href urlparse href with
  | Raise e => e = ValueError /\ ensure_download urlparse s3 href out_path w = (Raise ValueError, w)
  | Ok (bucket, k) =>
      let made := dirs w ∪ list_to_set (ancestors (parent out_path)) in
      match s3 bucket k with
      | Some bytes =>
          ensure_download urlparse s3 href out_path w
          = (Ok tt, {| files := <[out_path := bytes]> (files w); dirs := made;
                       net := net w ++ [(bucket, k)]; stdout := stdout w |})
      | None =>
          ensure_download urlparse s3 href out_path w
          = (Raise ClientError, {| files := files w; dirs := made;
                                   net := net w ++ [(bucket, k)]; stdout := stdout w |})
      end
  end.
Proof.
  intros Hp.
  unfold ensure_download, nonempty_file, download_file, mkdir_parents,
    lift, modify, get_world, raise, mbind, M_bind, mret, M_ret.
  destruct (parse_s3_href urlparse href) as [[bucket k]|e] eqn:Ep; simpl.
  - assert (E : match files w !! out_path with Some (_ :: _) => true | _ => false end = false)
      by (destruct Hp as [Hp|Hp]; rewrite Hp; reflexivity).
    rewrite E. destruct (s3 bucket k); reflexivity.
  - unfold parse_s3_href in Ep.
    destruct (urlparse href) as [u|]; [|inversion Ep; destruct w; auto].
    destruct (bool_decide (scheme u ≠ "s3")); inversion Ep.
    destruct w; auto.
Qed.

End HrefFacts.

Lemma parse_s3_href_round_trip_witness :
  Download.lower "S3" = "s3" /\
  all_chars url_char "EODATA" = true /\ all_chars not_slash "EODATA" = true /\
  all_chars url_char "/Sentinel-2/MSI/B04_10m.jp2" = true /\
  Download.parse_s3_href urlparse_lib
    ("S3" +:+ "://" +:+ "EODATA" +:+ "/" +:+ "/Sentinel-2/MSI/B04_10m.jp2")
  = Ok ("EODATA", Download.lstrip_slash "/Sentinel-2/MSI/B04_10m.jp2").
Proof.
  assert (H1 : Download.lower "S3" = "s3") by reflexivity.
  assert (H2 : all_chars url_char "EODATA" = true) by reflexivity.
  assert (H3 : all_chars not_slash "EODATA" = true) by reflexivity.
  assert (H4 : all_chars url_char "/Sentinel-2/MSI/B04_10m.jp2" = true) by reflexivity.
  split; [exact H1|]. split; [exact H2|]. split; [exact H3|]. split; [exact H4|].
  exact (parse_s3_href_round_trip _ _ "S3" "EODATA" "/Sentinel-2/MSI/B04_10m.jp2" H1 H2 H3 H4).
Defined.

Lemma ensure_download_fetches_witness :
  let p := ["downloads";"S2_TOPK_JP2";"ICEYE";"scene-05";"scene-05_TCI_10m.jp2"] in
  let w := {| Download.files := {[ p := [] ]}; Download.dirs := ∅; Download.net := [];
              Download.stdout := [] |} in
  let href := "s3://eodata/Sentinel-2/TCI_10m.jp2" in
  (Download.files w !! p = None \/ Download.files w !! p = Some []) /\
  match Download.parse_s3_href urlparse_lib href with
  | Raise e => e = ValueError /\
               Download.ensure_download urlparse_lib s3_any href p w = (Raise ValueError, w)
  | Ok (bucket, k) =>
      let made := Download.dirs w ∪ list_to_set (Download.ancestors (Download.parent p)) in
      match s3_any bucket k with
      | Some bytes =>
          Download.ensure_download urlparse_lib s3_any href p w
          = (Ok tt, {| Download.files := <[p := bytes]> (Download.files w);
                       Download.dirs := made;
                       Download.net := Download.net w ++ [(bucket, k)];
                       Download.stdout := Download.stdout w |})
      | None =>
          Download.ensure_download urlparse_lib s3_any href p w
          = (Raise ClientError, {| Download.files := Download.files w;
                                   Download.dirs := made;
                                   Download.net := Download.net w ++ [(bucket, k)];
                                   Download.stdout := Download.stdout w |})
      end
  end.
Proof.
  intros p w href.
  assert (H : Download.files w !! p = None \/ Download.files w !! p = Some []).
  { right. apply lookup_singleton_eq. }
  split; [exact H|]. exact (ensure_download_fetches urlparse_lib s3_any href p w H).
Defined.

(** ** The download stage: which entries fail *)

Section DownloadErrorFacts.
Import Manifest Download.
Variable urlparse : Download.Urlparse.

Lemma fails_bind_l {S A B : Type} (m : M S A) (k : A -> M S B) :
  (forall w, exists e, fst (m w) = Raise e) ->
  forall w, exists e, fst ((m ≫= k) w) = Raise e.
Proof.
  intros H w. unfold mbind, M_bind. destruct (H w) as [e He].
  destruct (m w) as [[a|e'] w1]; simpl in *; [discriminate He|eauto].
Qed.

Lemma fails_bind_r {S A B : Type} (m : M S A) (k : A -> M S B) :
  (forall a w, exists e, fst (k a w) = Raise e) ->
  forall w, exists e, fst ((m ≫= k) w) = Raise e.
Proof.
  intros H w. unfold mbind, M_bind.
  destruct (m w) as [[a|e'] w1]; simpl in *; eauto.
Qed.

Lemma fails_for_each {S A : Type} (xs : list A) (body : A -> M S unit) (x : A) :
  In x xs -> (forall w, exists e, fst (body x w) = Raise e) ->
  forall w, exists e, fst (for_each xs body w) = Raise e.
Proof.
  intros Hin Hx. induction xs as [|y ys IH]; [destruct Hin|].
  simpl. destruct Hin as [E|Hin].
  - subst y. apply fails_bind_l, Hx.
  - apply fails_bind_r. intros _. exact (IH Hin).
Qed.

(** X15: A band without an [href] is an error, an index asset without one is not.
    When the bands of an entry are listed and one of B02, B03, B04 has no
    [href], the round of the candidate never completes; it raises
    [RuntimeError] without having touched the disk or the network when the
    entry names no TCI and B02 is the band that lacks the [href]. An entry
    that only lists index assets, none with an [href], is gone through
    without an error and without a request. *)
Theorem missing_band_href_raises (s3 : S3) (sensor : string) (cand : Candidate)
    (entry : AssetEntry) (w : World) :
  (forall b, bands entry = Some b ->
     has_href (B02 b) = None \/ has_href (B03 b) = None \/ has_href (B04 b) = None ->
     (exists e, fst (download_candidate urlparse s3 sensor cand entry w) = Raise e) /\
     (has_href (tci entry) = None -> has_href (B02 b) = None ->
      fst (download_candidate urlparse s3 sensor cand entry w) = Raise RuntimeError /\
      files (snd (download_candidate urlparse s3 sensor cand entry w)) = files w /\
      net (snd (download_candidate urlparse s3 sensor cand entry w)) = net w)) /\
  (forall x, has_href (tci entry) = None -> bands entry = None -> index entry = Some x ->
     has_href (B08 x) = None -> has_href (B11 x) = None -> has_href (SCL x) = None ->
     fst (download_candidate urlparse s3 sensor cand entry w) = Ok tt /\
     files (snd (download_candidate urlparse s3 sensor cand entry w)) = files w /\
     net (snd (download_candidate urlparse s3 sensor cand entry w)) = net w).
Proof.
  split.
  - intros b Hb Hmiss. split.
    + unfold download_candidate. apply fails_bind_r. intros item_id.
      apply fails_bind_r. intros _. apply fails_bind_r. intros _.
      apply fails_bind_r. intros _. apply fails_bind_l. rewrite Hb.
      destruct Hmiss as [H|[H|H]].
      * apply (fails_for_each _ _ ("B02", B02 b)); [simpl; auto|].
        intros w1. simpl. rewrite H. eauto.
      * apply (fails_for_each _ _ ("B03", B03 b)); [simpl; auto|].
        intros w1. simpl. rewrite H. eauto.
      * apply (fails_for_each _ _ ("B04", B04 b)); [simpl; auto|].
        intros w1. simpl. rewrite H. eauto.
    + intros Ht H2.
      unfold download_candidate, resolve_item_id, print, mkdir_parents,
        modify, raise, mbind, M_bind, mret, M_ret.
      rewrite Hb, Ht.
      destruct (bool_decide (entry_id entry ≠ "")
                && bool_decide (entry_id entry ≠ cand_id cand)); simpl; rewrite H2; simpl; auto.
  - intros x Ht Hb Hx H8 H11 Hscl.
    unfold download_candidate, resolve_item_id, print, mkdir_parents,
      modify, raise, mbind, M_bind, mret, M_ret.
    rewrite Hb, Ht, Hx.
    destruct (bool_decide (entry_id entry ≠ "")
              && bool_decide (entry_id entry ≠ cand_id cand)); simpl;
      rewrite H8, H11, Hscl; simpl; auto.
Qed.

Lemma raises_only_ret {S A : Type} (E : exn -> Prop) (a : A) :
  raises_only E (mret a : M S A).
Proof. intros w e H. discriminate H. Qed.

Lemma raises_only_bind {S A B : Type} (E : exn -> Prop) (m : M S A) (k : A -> M S B) :
  raises_only E m -> (forall a, raises_only E (k a)) -> raises_only E (m ≫= k).
Proof.
  intros Hm Hk w e. unfold mbind, M_bind.
  specialize (Hm w). destruct (m w) as [[a|e'] w1]; simpl in *.
  - apply Hk.
  - intros H. inversion H; subst. apply Hm. reflexivity.
Qed.

Lemma raises_only_for_each {S A : Type} (E : exn -> Prop) (xs : list A)
    (body : A -> M S unit) :
  (forall x, In x xs -> raises_only E (body x)) -> raises_only E (for_each xs body).
Proof.
  induction xs as [|x xs IH]; intros H; simpl.
  - apply raises_only_ret.
  - apply raises_only_bind; [apply H; left; reflexivity|].
    intros _. apply IH. intros y Hy. apply H. right. exact Hy.
Qed.

Lemma raises_only_print (E : exn -> Prop) (m : Msg) : raises_only E (print m).
Proof. intros w e H. discriminate H. Qed.

Lemma raises_only_mkdir (E : exn -> Prop) (p : path) : raises_only E (mkdir_parents p).
Proof. intros w e H. discriminate H. Qed.

Lemma raises_only_fetch (s3 : S3) (out_dir : path) (item_id href keyname : string) :
  raises_only transfer_error (fetch urlparse s3 out_dir item_id href keyname).
Proof.
  intros w e.
  unfold fetch, ensure_download, nonempty_file, download_file, print, mkdir_parents,
    lift, modify, get_world, raise, mbind, M_bind, mret, M_ret. simpl.
  destruct (match files w !! asset_path out_dir item_id keyname with
            | Some (_ :: _) => true | _ => false end) eqn:E1; simpl; [discriminate|].
  unfold parse_s3_href.
  destruct (urlparse href) as [u|]; simpl; [|intros H; inversion H; left; reflexivity].
  destruct (bool_decide (scheme u ≠ "s3")); simpl.
  - intros H. inversion H. left. reflexivity.
  - rewrite E1. simpl.
    destruct (s3 _ _); simpl; intros H; inversion H. right. reflexivity.
Qed.

Lemma get_asset_has_href (assets : gmap string Pick.Asset) (k : string) :
  has_href (Pick.get_asset assets k) = Pick.get_asset assets k.
Proof.
  destruct (Pick.get_asset assets k) as [r|] eqn:E; [|reflexivity].
  destruct (get_asset_ref _ _ _ E) as (_ & Hh & _).
  simpl. rewrite bool_decide_eq_false_2 by exact Hh. reflexivity.
Qed.

(** X16: A manifest entry the selector wrote never makes the download stage
    complain: the identifiers of the candidate and of the entry agree, so no
    mismatch is reported, and since the bands are all there or all absent,
    "Missing href" is never raised; the round of the candidate returns, or
    raises what a transfer raises ([ValueError] for a reference that
    [parse_s3_href] rejects, the store's error for a refused request). *)
Theorem selector_entries_download_cleanly (s3 : S3) (sensor : string) (it : Pick.Item)
    (w : World) :
  resolve_item_id (Pick.to_candidate it) (Pick.to_asset_entry it) w = (Ok (Pick.id it), w) /\
  (fst (download_candidate urlparse s3 sensor (Pick.to_candidate it) (Pick.to_asset_entry it) w) = Ok tt \/
   fst (download_candidate urlparse s3 sensor (Pick.to_candidate it) (Pick.to_asset_entry it) w)
   = Raise ValueError \/
   fst (download_candidate urlparse s3 sensor (Pick.to_candidate it) (Pick.to_asset_entry it) w)
   = Raise ClientError).
Proof.
  split.
  - unfold resolve_item_id. simpl.
    rewrite (bool_decide_eq_false_2 (Pick.id it ≠ Pick.id it)) by (intros H; apply H; reflexivity).
    rewrite andb_false_r. reflexivity.
  - assert (H : raises_only transfer_error
                  (download_candidate urlparse s3 sensor (Pick.to_candidate it) (Pick.to_asset_entry it))).
    { unfold download_candidate.
      apply raises_only_bind.
      { intros w1 e. unfold resolve_item_id.
        destruct (_ && _); simpl; discriminate. }
      intros item_id. apply raises_only_bind; [apply raises_only_mkdir|intros _].
      apply raises_only_bind; [apply raises_only_print|intros _].
      apply raises_only_bind; [|intros _; apply raises_only_bind; [|intros _]].
      - destruct (has_href _); [apply raises_only_fetch|apply raises_only_print].
      - destruct (bands (Pick.to_asset_entry it)) as [b|] eqn:Eb; [|apply raises_only_print].
        apply raises_only_for_each. intros ba Hba.
        assert (Hsome : is_Some (has_href (snd ba))).
        { simpl in Eb. unfold Pick.pick_s2_rgb_bands in Eb.
          rewrite !bool_decide_is_Some in Eb. cbn [B02 B03 B04] in Eb.
          destruct (Pick.get_asset (Pick.assets it) "B02_10m") as [r2|] eqn:E2;
            [|discriminate Eb].
          destruct (Pick.get_asset (Pick.assets it) "B03_10m") as [r3|] eqn:E3;
            [|discriminate Eb].
          destruct (Pick.get_asset (Pick.assets it) "B04_10m") as [r4|] eqn:E4;
            [|discriminate Eb].
          simpl in Eb. inversion Eb; subst b. simpl in Hba.
          destruct Hba as [E|[E|[E|[]]]]; subst ba; cbn [snd];
            [rewrite <- E2|rewrite <- E3|rewrite <- E4];
            rewrite get_asset_has_href; [rewrite E2|rewrite E3|rewrite E4]; eauto. }
        destruct Hsome as [a Ha]. rewrite Ha. apply raises_only_fetch.
      - destruct (index (Pick.to_asset_entry it)) as [x|]; [|apply raises_only_print].
        apply raises_only_bind.
        + destruct (has_href _); [apply raises_only_ret|apply raises_only_print].
        + intros _. apply raises_only_for_each. intros ka _.
          destruct (has_href _); [apply raises_only_fetch|apply raises_only_print]. }
    specialize (H w).
    destruct (fst (download_candidate urlparse s3 sensor (Pick.to_candidate it)
                     (Pick.to_asset_entry it) w)) as [[]|e]; [auto|].
    destruct (H e eq_refl) as [->| ->]; auto.
Qed.

End DownloadErrorFacts.

Lemma missing_band_href_raises_witness :
  let cand := Pick.to_candidate item_5 in
  let b := {| Manifest.B02 := Some (ref_of "B02_10m"); Manifest.B03 := None;
              Manifest.B04 := Some (ref_of "B04_10m") |} in
  let x := {| Manifest.B08 := None; Manifest.B11 := None; Manifest.SCL := None |} in
  (Manifest.bands entry_no_b03 = Some b /\
   (Download.has_href (Manifest.B02 b) = None \/ Download.has_href (Manifest.B03 b) = None \/
    Download.has_href (Manifest.B04 b) = None) /\
   exists e, fst (Download.download_candidate urlparse_lib s3_any "ICEYE" cand entry_no_b03 world_empty)
             = Raise e) /\
  (Download.has_href (Manifest.tci entry_no_index_refs) = None /\
   Manifest.bands entry_no_index_refs = None /\ Manifest.index entry_no_index_refs = Some x /\
   fst (Download.download_candidate urlparse_lib s3_any "ICEYE" cand entry_no_index_refs world_empty) = Ok tt /\
   Download.files (snd (Download.download_candidate urlparse_lib s3_any "ICEYE" cand entry_no_index_refs
                          world_empty)) = Download.files world_empty /\
   Download.net (snd (Download.download_candidate urlparse_lib s3_any "ICEYE" cand entry_no_index_refs
                        world_empty)) = Download.net world_empty).
Proof.
  intros cand b x.
  assert (H1 : Manifest.bands entry_no_b03 = Some b) by reflexivity.
  assert (H2 : Download.has_href (Manifest.B02 b) = None \/
               Download.has_href (Manifest.B03 b) = None \/
               Download.has_href (Manifest.B04 b) = None) by (right; left; reflexivity).
  split.
  - split; [exact H1|]. split; [exact H2|].
    exact (proj1 (proj1 (missing_band_href_raises urlparse_lib s3_any "ICEYE" cand entry_no_b03 world_empty)
                    b H1 H2)).
  - split; [reflexivity|]. split; [reflexivity|]. split; [reflexivity|].
    exact (proj2 (missing_band_href_raises urlparse_lib s3_any "ICEYE" cand entry_no_index_refs world_empty)
             x eq_refl eq_refl eq_refl eq_refl eq_refl eq_refl).
Defined.

(** ** From the selector to the disk: the stages agree on the file names *)

Section FileNameFacts.
Import Manifest.
Variable urlparse : Download.Urlparse.

Lemma path_id_selector (it : Pick.Item) :
  path_id (Pick.to_candidate it) (Pick.to_asset_entry it) = Pick.id it.
Proof.
  unfold path_id. simpl.
  rewrite (bool_decide_eq_false_2 (Pick.id it ≠ Pick.id it)) by (intros H; apply H; reflexivity).
  rewrite andb_false_r. reflexivity.
Qed.

(** The file the download stage writes for the asset [name] of a scene. *)
Lemma ref_paths_selector (out_dir : path) (item_id short name : string)
    (assets : gmap string Pick.Asset) (r : AssetRef) :
  Pick.get_asset assets name = Some r ->
  ref_paths out_dir item_id (short, Some r)
  = [out_dir ++ [item_id +:+ "_" +:+ name +:+ ".jp2"]].
Proof.
  intros H. destruct (get_asset_ref _ _ _ H) as (Hk & Hh & _).
  unfold ref_paths. simpl. rewrite bool_decide_eq_false_2 by exact Hh.
  unfold Download.asset_path, Download.key_or. rewrite Hk. reflexivity.
Qed.

Lemma rgb_bands_fields (it : Pick.Item) (b : Bands) :
  Pick.pick_s2_rgb_bands it = Some b ->
  B02 b = Pick.get_asset (Pick.assets it) "B02_10m" /\
  B03 b = Pick.get_asset (Pick.assets it) "B03_10m" /\
  B04 b = Pick.get_asset (Pick.assets it) "B04_10m".
Proof.
  unfold Pick.pick_s2_rgb_bands. destruct (negb _); [discriminate|].
  intros H. inversion H. auto.
Qed.

Lemma index_assets_fields (it : Pick.Item) (x : IndexAssets) :
  Pick.pick_s2_index_assets it = Some x ->
  B08 x = Pick.get_asset (Pick.assets it) "B08_10m" /\
  B11 x = Pick.get_asset (Pick.assets it) "B11_20m" /\
  SCL x = Pick.get_asset (Pick.assets it) "SCL_20m".
Proof.
  unfold Pick.pick_s2_index_assets. destruct (negb _); [discriminate|].
  intros H. inversion H. auto.
Qed.

(** X17: For an entry the selector wrote, the index stage looks for each of its
    five rasters exactly where the download stage stores it (paths as on
    Windows, where [.\downloads] of the download stage is the directory
    [downloads] of the index stage): the path [band_path] builds from the
    candidate's identifier and the reference's [key] is one of the
    destinations of the entry. *)
Theorem index_stage_reads_downloaded_files (sensor : string) (it : Pick.Item)
    (a03 a04 a08 a11 ascl : AssetRef) :
  Indices.required_refs (Pick.to_asset_entry it) = Some (a03, a04, a08, a11, ascl) ->
  forall a, In a [a03; a04; a08; a11; ascl] ->
    exists p,
      Indices.band_path (Indices.dl_root ++ [sensor; cand_id (Pick.to_candidate it)])
                        (cand_id (Pick.to_candidate it)) a = Ok p /\
      In p (entry_paths sensor (Pick.to_candidate it) (Pick.to_asset_entry it)).
Proof.
  intros Hreq a Ha. unfold Indices.required_refs in Hreq.
  destruct (bands (Pick.to_asset_entry it)) as [b|] eqn:Eb; [|discriminate Hreq].
  destruct (index (Pick.to_asset_entry it)) as [x|] eqn:Ex; [|discriminate Hreq].
  destruct (B03 b) as [r03|] eqn:E03; [|discriminate Hreq].
  destruct (B04 b) as [r04|] eqn:E04; [|discriminate Hreq].
  destruct (B08 x) as [r08|] eqn:E08; [|discriminate Hreq].
  destruct (B11 x) as [r11|] eqn:E11; [|discriminate Hreq].
  destruct (SCL x) as [rscl|] eqn:Escl; [|discriminate Hreq].
  inversion Hreq; subst r03 r04 r08 r11 rscl. clear Hreq.
  destruct (rgb_bands_fields it b Eb) as (_ & G03 & G04).
  destruct (index_assets_fields it x Ex) as (G08 & G11 & Gscl).
  rewrite E03 in G03. rewrite E04 in G04. rewrite E08 in G08.
  rewrite E11 in G11. rewrite Escl in Gscl.
  unfold entry_paths. rewrite path_id_selector, Eb, Ex. cbv zeta.
  change (cand_id (Pick.to_candidate it)) with (Pick.id it).
  set (out_dir := Download.dl_root ++ [sensor; Pick.id it]).
  change (Indices.dl_root ++ [sensor; Pick.id it]) with out_dir.
  assert (Hone : forall (short name : string) (r : AssetRef)
                        (refs : list (string * option AssetRef)),
             Some r = Pick.get_asset (Pick.assets it) name ->
             In (short, Some r) refs ->
             exists p, Indices.band_path out_dir (Pick.id it) r = Ok p /\
                       In p (flat_map (ref_paths out_dir (Pick.id it)) refs)).
  { intros short name r refs Hr Hin. symmetry in Hr.
    destruct (get_asset_ref _ _ _ Hr) as (Hk & _).
    exists (out_dir ++ [Pick.id it +:+ "_" +:+ name +:+ ".jp2"]). split.
    - unfold Indices.band_path. rewrite Hk. reflexivity.
    - apply in_flat_map. exists (short, Some r). split; [exact Hin|].
      rewrite (ref_paths_selector out_dir (Pick.id it) short name _ r Hr).
      left. reflexivity. }
  destruct Ha as [<-|[<-|[<-|[<-|[<-|[]]]]]].
  - destruct (Hone "B03" "B03_10m" a03 [("B02", B02 b); ("B03", B03 b); ("B04", B04 b)] G03)
      as (p & Hp & Hin); [rewrite E03; simpl; auto|].
    exists p. split; [exact Hp|]. apply in_or_app. right. apply in_or_app. left. exact Hin.
  - destruct (Hone "B04" "B04_10m" a04 [("B02", B02 b); ("B03", B03 b); ("B04", B04 b)] G04)
      as (p & Hp & Hin); [rewrite E04; simpl; auto|].
    exists p. split; [exact Hp|]. apply in_or_app. right. apply in_or_app. left. exact Hin.
  - destruct (Hone "B08" "B08_10m" a08 [("B08", B08 x); ("B11", B11 x); ("SCL", SCL x)] G08)
      as (p & Hp & Hin); [rewrite E08; simpl; auto|].
    exists p. split; [exact Hp|]. apply in_or_app. right. apply in_or_app. right. exact Hin.
  - destruct (Hone "B11" "B11_20m" a11 [("B08", B08 x); ("B11", B11 x); ("SCL", SCL x)] G11)
      as (p & Hp & Hin); [rewrite E11; simpl; auto|].
    exists p. split; [exact Hp|]. apply in_or_app. right. apply in_or_app. right. exact Hin.
  - destruct (Hone "SCL" "SCL_20m" ascl [("B08", B08 x); ("B11", B11 x); ("SCL", SCL x)] Gscl)
      as (p & Hp & Hin); [rewrite Escl; simpl; auto|].
    exists p. split; [exact Hp|]. apply in_or_app. right. apply in_or_app. right. exact Hin.
Qed.

End FileNameFacts.

Lemma index_stage_reads_downloaded_files_witness :
  Indices.required_refs (Pick.to_asset_entry item_full)
  = Some (full_ref "B03_10m", full_ref "B04_10m", full_ref "B08_10m",
          full_ref "B11_20m", full_ref "SCL_20m") /\
  In (full_ref "SCL_20m")
     [full_ref "B03_10m"; full_ref "B04_10m"; full_ref "B08_10m";
      full_ref "B11_20m"; full_ref "SCL_20m"] /\
  exists p,
    Indices.band_path
      (Indices.dl_root ++ ["ICEYE"; Manifest.cand_id (Pick.to_candidate item_full)])
      (Manifest.cand_id (Pick.to_candidate item_full)) (full_ref "SCL_20m") = Ok p /\
    In p (entry_paths "ICEYE" (Pick.to_candidate item_full) (Pick.to_asset_entry item_full)).
Proof.
  assert (H1 : Indices.required_refs (Pick.to_asset_entry item_full)
               = Some (full_ref "B03_10m", full_ref "B04_10m", full_ref "B08_10m",
                       full_ref "B11_20m", full_ref "SCL_20m")) by (vm_compute; reflexivity).
  assert (H2 : In (full_ref "SCL_20m")
                 [full_ref "B03_10m"; full_ref "B04_10m"; full_ref "B08_10m";
                  full_ref "B11_20m"; full_ref "SCL_20m"]) by (simpl; tauto).
  split; [exact H1|]. split; [exact H2|].
  exact (index_stage_reads_downloaded_files "ICEYE" item_full _ _ _ _ _ H1 _ H2).
Defined.

(** ** The index stage *)

Section IndexRunFacts.
Import Manifest Indices.

Variable resample : Resampling -> nat -> list Z -> list Z.

(** X18: The index stage goes on with a scene only if the selector found all six
    of its assets, the blue band among them although no index uses it: the
    bands of an entry are all there or all absent. Any other scene is
    skipped with a message; nothing is read or written for it and nothing is
    raised, whatever the disk holds. *)
Theorem index_stage_needs_six_assets (it : Pick.Item) :
  (is_Some (required_refs (Pick.to_asset_entry it)) <-> six_assets it) /\
  (forall (sensor : string) (w : World),
     ~ six_assets it ->
     process_candidate resample sensor (Pick.to_candidate it) (Pick.to_asset_entry it) w
     = (Ok tt, {| jp2 := jp2 w; written := written w;
                  stdout := (stdout w ++ [DebugEntryKeys])
                            ++ [RequiredBandsMissing sensor (Pick.id it)] |})).
Proof.
  assert (H : is_Some (required_refs (Pick.to_asset_entry it)) <-> six_assets it).
  { unfold six_assets. rewrite <- !get_asset_usable.
    unfold required_refs. simpl.
    unfold Pick.pick_s2_rgb_bands, Pick.pick_s2_index_assets. cbn [B02 B03 B04 B08 B11 SCL].
    rewrite !bool_decide_is_Some.
    destruct (Pick.get_asset (Pick.assets it) "B02_10m"),
             (Pick.get_asset (Pick.assets it) "B03_10m"),
             (Pick.get_asset (Pick.assets it) "B04_10m"),
             (Pick.get_asset (Pick.assets it) "B08_10m"),
             (Pick.get_asset (Pick.assets it) "B11_20m"),
             (Pick.get_asset (Pick.assets it) "SCL_20m"); simpl;
      (split; [intros [? E]; try discriminate E; repeat split; eauto
              |intros (H2 & H3 & H4 & H8 & H11 & Hs);
               try (destruct H2 as [? E]; discriminate E);
               try (destruct H3 as [? E]; discriminate E);
               try (destruct H4 as [? E]; discriminate E);
               try (destruct H8 as [? E]; discriminate E);
               try (destruct H11 as [? E]; discriminate E);
               try (destruct Hs as [? E]; discriminate E); eauto]). }
  split; [exact H|].
  intros sensor w Hno. unfold process_candidate.
  destruct (required_refs (Pick.to_asset_entry it)) as [refs|] eqn:E.
  - destruct Hno. apply H. eauto.
  - reflexivity.
Qed.

End IndexRunFacts.

Section MaskedRunFacts.
Import Manifest Indices.

Variable resample : Resampling -> nat -> list Z -> list Z.
Hypothesis resample_shape : forall r n raw, length (resample r n raw) = n.

Lemma normalized_difference_length (a b out : array) :
  length a = length b -> normalized_difference a b = Ok out -> length out = length a.
Proof.
  intros H E. rewrite (normalized_difference_ok a b H) in E. inversion E; subst.
  rewrite map2_length; rewrite !map2_length by exact H; reflexivity.
Qed.

Lemma process_candidate_with_scl_file (sensor : string) (cand : Candidate)
    (entry : AssetEntry) (w : World) (a03 a04 a08 a11 ascl : AssetRef)
    (k03 k04 k08 k11 kscl : string) (r03 r04 r08 rscl : list Z) :
  let item_id := cand_id cand in
  let base := dl_root ++ [sensor; item_id] in
  let out_dir := out_root ++ [sensor; item_id] in
  let file := fun k : string => base ++ [item_id +:+ "_" +:+ k +:+ ".jp2"] in
  let n := length r03 in
  let b03 := List.map F32.of_Z (resample bilinear n r03) in
  let b04 := List.map F32.of_Z (resample bilinear n r04) in
  let b08 := List.map F32.of_Z (resample bilinear n r08) in
  let mask_bad := isin (List.map to_int16 (resample nearest n rscl)) SCL_EXCLUDE in
  required_refs entry = Some (a03, a04, a08, a11, ascl) ->
  key a03 = Some k03 -> key a04 = Some k04 -> key a08 = Some k08 ->
  key a11 = Some k11 -> key ascl = Some kscl ->
  jp2 w !! file k03 = Some r03 -> jp2 w !! file k04 = Some r04 ->
  jp2 w !! file k08 = Some r08 -> jp2 w !! file kscl = Some rscl ->
  exists (ndvi0 ndwi0 ndvi ndwi : array) (w' : World),
    process_candidate resample sensor cand entry w = (Ok tt, w') /\
    normalized_difference b08 b04 = Ok ndvi0 /\
    normalized_difference b03 b08 = Ok ndwi0 /\
    set_nan_where ndvi0 mask_bad = Ok ndvi /\
    set_nan_where ndwi0 mask_bad = Ok ndwi /\
    written w' !! (out_dir ++ [item_id +:+ "_NDVI.tif"]) = Some ndvi /\
    written w' !! (out_dir ++ [item_id +:+ "_NDVI.png"]) = Some ndvi /\
    written w' !! (out_dir ++ [item_id +:+ "_NDWI.tif"]) = Some ndwi /\
    written w' !! (out_dir ++ [item_id +:+ "_NDWI.png"]) = Some ndwi /\
    match jp2 w !! file k11 with
    | Some r11 =>
        exists mndwi0 mndwi : array,
          normalized_difference b03 (List.map F32.of_Z (resample bilinear n r11)) = Ok mndwi0 /\
          set_nan_where mndwi0 mask_bad = Ok mndwi /\
          written w' !! (out_dir ++ [item_id +:+ "_MNDWI.tif"]) = Some mndwi /\
          written w' !! (out_dir ++ [item_id +:+ "_MNDWI.png"]) = Some mndwi
    | None =>
        written w' !! (out_dir ++ [item_id +:+ "_MNDWI.tif"])
        = written w !! (out_dir ++ [item_id +:+ "_MNDWI.tif"]) /\
        written w' !! (out_dir ++ [item_id +:+ "_MNDWI.png"])
        = written w !! (out_dir ++ [item_id +:+ "_MNDWI.png"])
    end /\
    stdout w' = (stdout w ++ [DebugEntryKeys])
                ++ [Saved sensor item_id (bool_decide (is_Some (jp2 w !! file k11)))].
Proof.
  intros item_id base out_dir file n b03 b04 b08 mask_bad
         Hreq K03 K04 K08 K11 KSCL F03 F04 F08 FSCL.
  assert (L4 : length b04 = length b08).
  { unfold b04, b08. rewrite !length_map, !resample_shape. reflexivity. }
  assert (L3 : length b03 = length b08).
  { unfold b03, b08. rewrite !length_map, !resample_shape. reflexivity. }
  assert (Ln : length b08 = n).
  { unfold b08. rewrite !length_map, !resample_shape. reflexivity. }
  assert (Lm : length mask_bad = n).
  { unfold mask_bad. rewrite isin_length, length_map, resample_shape. reflexivity. }
  unfold process_candidate. rewrite Hreq.
  unfold band_path. rewrite K03, K04, K08, K11, KSCL.
  fold item_id. fold base. fold out_dir.
  unfold file in *.
  set (p03 := base ++ [item_id +:+ "_" +:+ k03 +:+ ".jp2"]) in *.
  set (p04 := base ++ [item_id +:+ "_" +:+ k04 +:+ ".jp2"]) in *.
  set (p08 := base ++ [item_id +:+ "_" +:+ k08 +:+ ".jp2"]) in *.
  set (p11 := base ++ [item_id +:+ "_" +:+ k11 +:+ ".jp2"]) in *.
  set (pscl := base ++ [item_id +:+ "_" +:+ kscl +:+ ".jp2"]) in *.
  clearbody p03 p04 p08 p11 pscl. clear file. clearbody out_dir. clear base. clearbody item_id.
  set (ndvi0 := map2 safe_index_px (map2 F32.sub b08 b04) (map2 F32.add b08 b04)).
  set (ndwi0 := map2 safe_index_px (map2 F32.sub b03 b08) (map2 F32.add b03 b08)).
  set (mask := fun arr : array =>
         map2 (fun x (b : bool) => if b then Float.nan else x) arr mask_bad).
  assert (N1 : normalized_difference b08 b04 = Ok ndvi0)
    by exact (normalized_difference_ok b08 b04 (eq_sym L4)).
  assert (N2 : normalized_difference b03 b08 = Ok ndwi0)
    by exact (normalized_difference_ok b03 b08 L3).
  assert (M1 : set_nan_where ndvi0 mask_bad = Ok (mask ndvi0)).
  { apply set_nan_where_ok.
    rewrite (normalized_difference_length _ _ _ (eq_sym L4) N1). congruence. }
  assert (M2 : set_nan_where ndwi0 mask_bad = Ok (mask ndwi0)).
  { apply set_nan_where_ok.
    rewrite (normalized_difference_length _ _ _ L3 N2). congruence. }
  exists ndvi0, ndwi0, (mask ndvi0), (mask ndwi0).
  set (w1 := {| jp2 := jp2 w; written := written w; stdout := stdout w ++ [DebugEntryKeys] |}).
  assert (E03 : jp2 w1 !! p03 = Some r03) by exact F03.
  assert (E04 : jp2 w1 !! p04 = Some r04) by exact F04.
  assert (E08 : jp2 w1 !! p08 = Some r08) by exact F08.
  assert (ESCL : jp2 w1 !! pscl = Some rscl) by exact FSCL.
  rewrite (bind_ok _ _ w w1 tt) by reflexivity.
  do 5 (erewrite bind_ok by reflexivity).
  erewrite bind_ok.
  2:{ rewrite (for_each_cons_ok _ _ _ w1 w1) by (exact (check_exists_ok _ _ _ E03)).
      rewrite (for_each_cons_ok _ _ _ w1 w1) by (exact (check_exists_ok _ _ _ E04)).
      rewrite (for_each_cons_ok _ _ _ w1 w1) by (exact (check_exists_ok _ _ _ E08)).
      reflexivity. }
  erewrite bind_ok by reflexivity.
  rewrite E03.
  erewrite bind_ok by (exact (read_resampled_ok resample _ _ _ _ _ E03)).
  erewrite bind_ok by (exact (read_resampled_ok resample _ _ _ _ _ E04)).
  erewrite bind_ok by (exact (read_resampled_ok resample _ _ _ _ _ E08)).
  erewrite bind_ok by (exact (exists_true _ _ _ ESCL)).
  erewrite bind_ok.
  2:{ erewrite bind_ok by (exact (read_resampled_ok resample _ _ _ _ _ ESCL)). reflexivity. }
  destruct (jp2 w !! p11) as [r11|] eqn:E11.
  - assert (E11' : jp2 w1 !! p11 = Some r11) by exact E11.
    erewrite bind_ok by (exact (exists_true _ _ _ E11')).
    erewrite bind_ok.
    2:{ erewrite bind_ok by (exact (read_resampled_ok resample _ _ _ _ _ E11')). reflexivity. }
    assert (L11 : length b03 = length (List.map F32.of_Z (resample bilinear n r11))).
    { unfold b03. rewrite !length_map, !resample_shape. reflexivity. }
    assert (N3 := normalized_difference_ok b03 _ L11).
    set (mndwi0 := map2 safe_index_px
                     (map2 F32.sub b03 (List.map F32.of_Z (resample bilinear n r11)))
                     (map2 F32.add b03 (List.map F32.of_Z (resample bilinear n r11)))) in *.
    assert (M3 : set_nan_where mndwi0 mask_bad = Ok (mask mndwi0)).
    { apply set_nan_where_ok.
      rewrite (normalized_difference_length _ _ _ L11 N3). congruence. }
    erewrite bind_ok.
    2:{ unfold lift, compute_indices. fold n. fold b03 b04 b08. rewrite N1, N2. simpl.
        rewrite N3. reflexivity. }
    cbv beta iota zeta.
    erewrite bind_ok.
    2:{ unfold lift, apply_scl_mask. fold n. fold mask_bad. rewrite M1. simpl.
        rewrite M2. simpl. rewrite M3. reflexivity. }
    cbv beta iota zeta.
    do 6 (erewrite bind_ok by reflexivity).
    eexists. split; [reflexivity|]. simpl.
    split; [exact N1|]. split; [exact N2|]. split; [exact M1|]. split; [exact M2|].
    split.
    { rewrite !lookup_insert_ne by (apply output_path_ne; discriminate).
      apply lookup_insert_eq. }
    split.
    { rewrite !lookup_insert_ne by (apply output_path_ne; discriminate).
      apply lookup_insert_eq. }
    split.
    { rewrite !lookup_insert_ne by (apply output_path_ne; discriminate).
      apply lookup_insert_eq. }
    split.
    { rewrite !lookup_insert_ne by (apply output_path_ne; discriminate).
      apply lookup_insert_eq. }
    split; [|reflexivity].
    exists mndwi0, (mask mndwi0). split; [exact N3|]. split; [exact M3|]. split.
    { rewrite !lookup_insert_ne by (apply output_path_ne; discriminate).
      apply lookup_insert_eq. }
    { apply lookup_insert_eq. }
  - assert (E11' : jp2 w1 !! p11 = None) by exact E11.
    erewrite bind_ok by (exact (exists_false _ _ E11')).
    erewrite bind_ok by reflexivity.
    erewrite bind_ok.
    2:{ unfold lift, compute_indices. fold n. fold b03 b04 b08. rewrite N1, N2.
        reflexivity. }
    cbv beta iota zeta.
    erewrite bind_ok.
    2:{ unfold lift, apply_scl_mask. fold n. fold mask_bad. rewrite M1. simpl.
        rewrite M2. reflexivity. }
    cbv beta iota zeta.
    do 6 (erewrite bind_ok by reflexivity).
    eexists. split; [reflexivity|]. simpl.
    split; [exact N1|]. split; [exact N2|]. split; [exact M1|]. split; [exact M2|].
    split.
    { rewrite !lookup_insert_ne by (apply output_path_ne; discriminate).
      apply lookup_insert_eq. }
    split.
    { rewrite !lookup_insert_ne by (apply output_path_ne; discriminate).
      apply lookup_insert_eq. }
    split.
    { rewrite !lookup_insert_ne by (apply output_path_ne; discriminate).
      apply lookup_insert_eq. }
    split.
    { apply lookup_insert_eq. }
    split; [|reflexivity].
    split; rewrite !lookup_insert_ne by (apply output_path_ne; discriminate); reflexivity.
Qed.

(** X20: When the SCL raster of a candidate is on the disk, the indices are
    written masked. For an entry with all five references whose B03, B04,
    B08 and SCL files are there, the round returns; NDVI and NDWI are the
    normalised differences of the bands resampled to the grid of B03, set to
    NaN where the SCL class, resampled to the same grid by nearest
    neighbour, is one of [SCL_EXCLUDE]; each is written as a GeoTIFF and as
    a quicklook. MNDWI is computed, masked and written the same way exactly
    when the B11 file is there. *)
Theorem scl_file_masks_written_indices (sensor : string) (cand : Candidate)
    (entry : AssetEntry) (w : World) (a03 a04 a08 a11 ascl : AssetRef)
    (k03 k04 k08 k11 kscl : string) (r03 r04 r08 rscl : list Z) :
  let item_id := cand_id cand in
  let base := dl_root ++ [sensor; item_id] in
  let out_dir := out_root ++ [sensor; item_id] in
  let file := fun k : string => base ++ [item_id +:+ "_" +:+ k +:+ ".jp2"] in
  let n := length r03 in
  let b03 := List.map F32.of_Z (resample bilinear n r03) in
  let b04 := List.map F32.of_Z (resample bilinear n r04) in
  let b08 := List.map F32.of_Z (resample bilinear n r08) in
  let mask_bad := isin (List.map to_int16 (resample nearest n rscl)) SCL_EXCLUDE in
  required_refs entry = Some (a03, a04, a08, a11, ascl) ->
  key a03 = Some k03 -> key a04 = Some k04 -> key a08 = Some k08 ->
  key a11 = Some k11 -> key ascl = Some kscl ->
  jp2 w !! file k03 = Some r03 -> jp2 w !! file k04 = Some r04 ->
  jp2 w !! file k08 = Some r08 -> jp2 w !! file kscl = Some rscl ->
  exists (ndvi0 ndwi0 ndvi ndwi : array) (w' : World),
    process_candidate resample sensor cand entry w = (Ok tt, w') /\
    normalized_difference b08 b04 = Ok ndvi0 /\
    normalized_difference b03 b08 = Ok ndwi0 /\
    set_nan_where ndvi0 mask_bad = Ok ndvi /\
    set_nan_where ndwi0 mask_bad = Ok ndwi /\
    written w' !! (out_dir ++ [item_id +:+ "_NDVI.tif"]) = Some ndvi /\
    written w' !! (out_dir ++ [item_id +:+ "_NDVI.png"]) = Some ndvi /\
    written w' !! (out_dir ++ [item_id +:+ "_NDWI.tif"]) = Some ndwi /\
    written w' !! (out_dir ++ [item_id +:+ "_NDWI.png"]) = Some ndwi /\
    match jp2 w !! file k11 with
    | Some r11 =>
        exists mndwi0 mndwi : array,
          normalized_difference b03 (List.map F32.of_Z (resample bilinear n r11)) = Ok mndwi0 /\
          set_nan_where mndwi0 mask_bad = Ok mndwi /\
          written w' !! (out_dir ++ [item_id +:+ "_MNDWI.tif"]) = Some mndwi /\
          written w' !! (out_dir ++ [item_id +:+ "_MNDWI.png"]) = Some mndwi
    | None =>
        written w' !! (out_dir ++ [item_id +:+ "_MNDWI.tif"])
        = written w !! (out_dir ++ [item_id +:+ "_MNDWI.tif"]) /\
        written w' !! (out_dir ++ [item_id +:+ "_MNDWI.png"])
        = written w !! (out_dir ++ [item_id +:+ "_MNDWI.png"])
    end /\
    stdout w' = (stdout w ++ [DebugEntryKeys])
                ++ [Saved sensor item_id (bool_decide (is_Some (jp2 w !! file k11)))].
Proof.
  intros item_id base out_dir file n b03 b04 b08 mask_bad.
  exact (process_candidate_with_scl_file sensor cand entry w a03 a04 a08 a11 ascl
           k03 k04 k08 k11 kscl r03 r04 r08 rscl).
Qed.

End MaskedRunFacts.

Lemma index_stage_needs_six_assets_witness :
  ~ six_assets item_no_b02 /\
  Indices.process_candidate resample_nn "ICEYE" (Pick.to_candidate item_no_b02)
    (Pick.to_asset_entry item_no_b02) world_no_scl
  = (Ok tt, {| Indices.jp2 := Indices.jp2 world_no_scl;
               Indices.written := Indices.written world_no_scl;
               Indices.stdout :=
                 (Indices.stdout world_no_scl ++ [Indices.DebugEntryKeys])
                 ++ [Indices.RequiredBandsMissing "ICEYE" (Pick.id item_no_b02)] |}).
Proof.
  assert (H : ~ six_assets item_no_b02).
  { intros ((a & h & Ha & _) & _). simpl in Ha. rewrite lookup_delete_eq in Ha.
    discriminate Ha. }
  split; [exact H|].
  exact (proj2 (index_stage_needs_six_assets resample_nn item_no_b02) "ICEYE" world_no_scl H).
Defined.

(** The round of a scene with its SCL raster on the disk: the second pixel
    is a cloud, and NDVI is written as NaN there. *)
Example scl_example :
  let out := Indices.process_candidate resample_nn "ICEYE" (Pick.to_candidate item_5)
               entry_five world_with_scl in
  fst out = Ok tt /\
  Indices.written (snd out)
    !! ["downloads";"S2_INDICES";"ICEYE";"scene-05";"scene-05_NDVI.tif"]
  = Some [F32.div (F32.of_Z 1) (F32.of_Z 3); Float.nan] /\
  Indices.stdout (snd out) = [Indices.DebugEntryKeys; Indices.Saved "ICEYE" "scene-05" false].
Proof. vm_compute. repeat split. Qed.

Lemma scl_file_masks_written_indices_witness :
  let cand := Pick.to_candidate item_5 in
  let file := fun k : string =>
    Indices.dl_root ++ ["ICEYE"; "scene-05"] ++ ["scene-05" +:+ "_" +:+ k +:+ ".jp2"] in
  let out_dir := Indices.out_root ++ ["ICEYE"; "scene-05"] in
  let b03 := List.map F32.of_Z (resample_nn Indices.bilinear 2 [600; 900]) in
  let b04 := List.map F32.of_Z (resample_nn Indices.bilinear 2 [400; 300]) in
  let b08 := List.map F32.of_Z (resample_nn Indices.bilinear 2 [800; 500]) in
  let mask_bad :=
    Indices.isin (List.map Indices.to_int16 (resample_nn Indices.nearest 2 [4; 9]))
                 Indices.SCL_EXCLUDE in
  (Indices.required_refs entry_five
   = Some (ref_of "B03_10m", ref_of "B04_10m", ref_of "B08_10m", ref_of "B11_20m",
           ref_of "SCL_20m") /\
   Indices.jp2 world_with_scl !! file "B03_10m" = Some [600; 900] /\
   Indices.jp2 world_with_scl !! file "B04_10m" = Some [400; 300] /\
   Indices.jp2 world_with_scl !! file "B08_10m" = Some [800; 500] /\
   Indices.jp2 world_with_scl !! file "SCL_20m" = Some [4; 9]) /\
  exists (ndvi0 ndwi0 ndvi ndwi : Indices.array) (w' : Indices.World),
    Indices.process_candidate resample_nn "ICEYE" cand entry_five world_with_scl = (Ok tt, w') /\
    Indices.normalized_difference b08 b04 = Ok ndvi0 /\
    Indices.normalized_difference b03 b08 = Ok ndwi0 /\
    Indices.set_nan_where ndvi0 mask_bad = Ok ndvi /\
    Indices.set_nan_where ndwi0 mask_bad = Ok ndwi /\
    Indices.written w' !! (out_dir ++ ["scene-05" +:+ "_NDVI.tif"]) = Some ndvi /\
    Indices.written w' !! (out_dir ++ ["scene-05" +:+ "_NDVI.png"]) = Some ndvi /\
    Indices.written w' !! (out_dir ++ ["scene-05" +:+ "_NDWI.tif"]) = Some ndwi /\
    Indices.written w' !! (out_dir ++ ["scene-05" +:+ "_NDWI.png"]) = Some ndwi /\
    match Indices.jp2 world_with_scl !! file "B11_20m" with
    | Some r11 =>
        exists mndwi0 mndwi : Indices.array,
          Indices.normalized_difference b03
            (List.map F32.of_Z (resample_nn Indices.bilinear 2 r11)) = Ok mndwi0 /\
          Indices.set_nan_where mndwi0 mask_bad = Ok mndwi /\
          Indices.written w' !! (out_dir ++ ["scene-05" +:+ "_MNDWI.tif"]) = Some mndwi /\
          Indices.written w' !! (out_dir ++ ["scene-05" +:+ "_MNDWI.png"]) = Some mndwi
    | None =>
        Indices.written w' !! (out_dir ++ ["scene-05" +:+ "_MNDWI.tif"])
        = Indices.written world_with_scl !! (out_dir ++ ["scene-05" +:+ "_MNDWI.tif"]) /\
        Indices.written w' !! (out_dir ++ ["scene-05" +:+ "_MNDWI.png"])
        = Indices.written world_with_scl !! (out_dir ++ ["scene-05" +:+ "_MNDWI.png"])
    end /\
    Indices.stdout w'
    = (Indices.stdout world_with_scl ++ [Indices.DebugEntryKeys])
      ++ [Indices.Saved "ICEYE" "scene-05"
            (bool_decide (is_Some (Indices.jp2 world_with_scl !! file "B11_20m")))].
Proof.
  intros cand file out_dir b03 b04 b08 mask_bad.
  split.
  - repeat split; reflexivity.
  - apply (scl_file_masks_written_indices resample_nn resample_nn_shape
             "ICEYE" cand entry_five world_with_scl
             (ref_of "B03_10m") (ref_of "B04_10m") (ref_of "B08_10m")
             (ref_of "B11_20m") (ref_of "SCL_20m")
             "B03_10m" "B04_10m" "B08_10m" "B11_20m" "SCL_20m"
             [600; 900] [400; 300] [800; 500] [4; 9]
             eq_refl eq_refl eq_refl eq_refl eq_refl eq_refl); reflexivity.
Defined.



(** ** The visualisation stretch: what the linear map is given *)

Section StretchRangeFacts.

Variables percentile nanpercentile : Np.Percentile.




Lemma positive_finite_finite (chan : list spec_float) :
  Np.positive_finite chan <> [] -> Np.finite chan <> [].
Proof.
  unfold Np.positive_finite, Np.finite.
  induction chan as [|x chan IH]; simpl; [auto|].
  destruct (Float.isfinite x); simpl; [discriminate|]. exact IH.
Qed.

Lemma channel_range_same (chan : list spec_float) :
  Np.positive_finite chan <> [] ->
  Top3Compare.channel_range percentile chan = ComparePng.channel_range percentile chan.
Proof.
  intros Hv. pose proof (positive_finite_finite chan Hv) as Hf.
  unfold Top3Compare.channel_range, ComparePng.channel_range,
    Top3Compare.percentiles, ComparePng.percentiles.
  destruct (Np.finite chan) as [|f fs] eqn:Ef; [destruct (Hf eq_refl)|].
  destruct (Np.positive_finite chan) as [|x v] eqn:Ev; [destruct (Hv eq_refl)|].
  destruct (length (x :: v) <? 100)%nat; reflexivity.
Qed.

(** X23: The two copies of [normalize_rgb_uint8] choose the same ranges for an
    image whose three channels each have a positive finite sample. They part
    on a channel without one whose percentiles do not differ (a band of
    zeros next to two valid ones): the copy in
    [s2_download_top3_and_compare.py] takes [np.min] of an empty selection
    and raises [ValueError] where the copy in [s2_make_compare_png.py]
    returns the range [[0, 1]]. *)
Theorem normalize_copies_agree (r g b : list spec_float) :
  (Np.positive_finite r <> [] -> Np.positive_finite g <> [] -> Np.positive_finite b <> [] ->
   Top3Compare.normalize_rgb_uint8 percentile r g b
   = ComparePng.normalize_rgb_uint8 percentile r g b) /\
  (forall chan,
     Np.positive_finite chan = [] ->
     Float.leb (snd (Top3Compare.percentiles percentile chan))
               (fst (Top3Compare.percentiles percentile chan)) = true ->
     Top3Compare.channel_range percentile chan = Raise ValueError) /\
  (forall chan,
     Np.positive_finite chan = [] ->
     Float.leb (snd (ComparePng.percentiles percentile chan))
               (fst (ComparePng.percentiles percentile chan)) = true ->
     ComparePng.channel_range percentile chan = Ok (F64.zero, F64.one)).
Proof.
  split; [|split].
  - intros Hr Hg Hb.
    unfold Top3Compare.normalize_rgb_uint8, ComparePng.normalize_rgb_uint8.
    rewrite !channel_range_same by assumption. reflexivity.
  - intros chan Hv H. unfold Top3Compare.channel_range.
    destruct (Top3Compare.percentiles percentile chan) as [lo hi]. simpl in H.
    rewrite H, Hv. reflexivity.
  - intros chan Hv H. unfold ComparePng.channel_range.
    destruct (ComparePng.percentiles percentile chan) as [lo hi]. simpl in H.
    rewrite H, Hv. reflexivity.
Qed.

End StretchRangeFacts.


Lemma normalize_copies_agree_witness :
  (Np.positive_finite chan_ramp <> [] /\
   Top3Compare.normalize_rgb_uint8 percentile_linear chan_ramp chan_ramp chan_ramp
   = ComparePng.normalize_rgb_uint8 percentile_linear chan_ramp chan_ramp chan_ramp) /\
  (Np.positive_finite chan_zero = [] /\
   Float.leb (snd (Top3Compare.percentiles percentile_linear chan_zero))
             (fst (Top3Compare.percentiles percentile_linear chan_zero)) = true /\
   Top3Compare.channel_range percentile_linear chan_zero = Raise ValueError) /\
  (Float.leb (snd (ComparePng.percentiles percentile_linear chan_zero))
             (fst (ComparePng.percentiles percentile_linear chan_zero)) = true /\
   ComparePng.channel_range percentile_linear chan_zero = Ok (F64.zero, F64.one)).
Proof.
  assert (H1 : Np.positive_finite chan_ramp <> []) by (vm_compute; discriminate).
  assert (H2 : Np.positive_finite chan_zero = []) by (vm_compute; reflexivity).
  assert (H3 : Float.leb (snd (Top3Compare.percentiles percentile_linear chan_zero))
                 (fst (Top3Compare.percentiles percentile_linear chan_zero)) = true)
    by (vm_compute; reflexivity).
  assert (H4 : Float.leb (snd (ComparePng.percentiles percentile_linear chan_zero))
                 (fst (ComparePng.percentiles percentile_linear chan_zero)) = true)
    by (vm_compute; reflexivity).
  split; [|split].
  - split; [exact H1|].
    exact (proj1 (normalize_copies_agree percentile_linear chan_ramp chan_ramp chan_ramp)
             H1 H1 H1).
  - split; [exact H2|]. split; [exact H3|].
    exact (proj1 (proj2 (normalize_copies_agree percentile_linear chan_ramp chan_ramp chan_ramp))
             chan_zero H2 H3).
  - split; [exact H4|].
    exact (proj2 (proj2 (normalize_copies_agree percentile_linear chan_ramp chan_ramp chan_ramp))
             chan_zero H2 H4).
Defined.

(** ** [write_geotiff]: the profile of an output raster *)

Section GeotiffFacts.
Import Geotiff.

(** X24: The outputs keep the grid of the reference raster. The profile
    [write_geotiff] writes with holds, under every key other than the seven
    it sets and the two it drops, what the reference profile holds there (so
    [height], [width], [crs] and [transform] are carried over); it has no
    [photometric] and no [interleave]; the seven keys have their GeoTIFF
    values whatever the reference said; and a profile made this way is a
    fixed point: making the profile of an output from an output's profile
    changes nothing. *)
Theorem write_geotiff_profile_keeps_grid (ref_profile : Profile) :
  (forall k : string,
     k ∉ ["driver"; "dtype"; "count"; "nodata"; "compress"; "predictor"; "tiled";
          "photometric"; "interleave"] ->
     write_geotiff_profile ref_profile !! k = ref_profile !! k) /\
  write_geotiff_profile ref_profile !! "photometric" = None /\
  write_geotiff_profile ref_profile !! "interleave" = None /\
  write_geotiff_profile ref_profile !! "driver" = Some (Str "GTiff") /\
  write_geotiff_profile ref_profile !! "dtype" = Some (Str "float32") /\
  write_geotiff_profile ref_profile !! "count" = Some (Int 1) /\
  write_geotiff_profile ref_profile !! "nodata" = Some (Flt Float.nan) /\
  write_geotiff_profile ref_profile !! "compress" = Some (Str "DEFLATE") /\
  write_geotiff_profile ref_profile !! "predictor" = Some (Int 2) /\
  write_geotiff_profile ref_profile !! "tiled" = Some (Bool true) /\
  write_geotiff_profile (write_geotiff_profile ref_profile) = write_geotiff_profile ref_profile.
Proof.
  assert (Hother : forall k : string,
            k ∉ ["driver"; "dtype"; "count"; "nodata"; "compress"; "predictor"; "tiled";
                 "photometric"; "interleave"] ->
            write_geotiff_profile ref_profile !! k = ref_profile !! k).
  { intros k Hk. unfold write_geotiff_profile, update.
    rewrite !not_elem_of_cons in Hk.
    destruct Hk as (H1 & H2 & H3 & H4 & H5 & H6 & H7 & H8 & H9 & _).
    rewrite !lookup_delete_ne by congruence.
    rewrite !lookup_insert_ne by congruence. reflexivity. }
  assert (Hset : forall (k : string) (v : value),
            update ref_profile !! k = Some v ->
            k <> "photometric" -> k <> "interleave" ->
            write_geotiff_profile ref_profile !! k = Some v).
  { intros k v Hv H1 H2. unfold write_geotiff_profile.
    rewrite !lookup_delete_ne by congruence. exact Hv. }
  split; [exact Hother|].
  split; [unfold write_geotiff_profile;
          rewrite lookup_delete_ne by discriminate; apply lookup_delete_eq|].
  split; [unfold write_geotiff_profile; apply lookup_delete_eq|].
  repeat (split; [apply Hset; [unfold update;
                               rewrite ?lookup_insert_ne by discriminate;
                               apply lookup_insert_eq
                              |discriminate|discriminate]|]).
  apply map_eq. intros k.
  destruct (decide (k ∈ ["driver"; "dtype"; "count"; "nodata"; "compress"; "predictor";
                         "tiled"; "photometric"; "interleave"])) as [Hin|Hout].
  - unfold write_geotiff_profile at 1 3. unfold update.
    rewrite !elem_of_cons, elem_of_nil in Hin.
    destruct Hin as [->|[->|[->|[->|[->|[->|[->|[->|[->|[]]]]]]]]]];
      repeat first [ rewrite lookup_delete_eq
                   | rewrite lookup_delete_ne by discriminate
                   | rewrite lookup_insert_eq
                   | rewrite lookup_insert_ne by discriminate ];
      reflexivity.
  - unfold write_geotiff_profile at 1. unfold update.
    pose proof Hout as Hk. rewrite !not_elem_of_cons in Hk.
    destruct Hk as (H1 & H2 & H3 & H4 & H5 & H6 & H7 & H8 & H9 & _).
    rewrite !lookup_delete_ne by congruence.
    rewrite !lookup_insert_ne by congruence. reflexivity.
Qed.

End GeotiffFacts.

(** The profile of an index raster made from the profile of a JP2 band: the
    grid and the CRS are the band's, the driver and the sample type are
    GeoTIFF's, and the JP2 interleaving is gone. *)
Example profile_of_a_band :
  Geotiff.write_geotiff_profile profile_jp2 !! "height" = Some (Geotiff.Int 10980) /\
  Geotiff.write_geotiff_profile profile_jp2 !! "crs" = Some (Geotiff.Obj 1) /\
  Geotiff.write_geotiff_profile profile_jp2 !! "driver" = Some (Geotiff.Str "GTiff") /\
  Geotiff.write_geotiff_profile profile_jp2 !! "dtype" = Some (Geotiff.Str "float32") /\
  Geotiff.write_geotiff_profile profile_jp2 !! "interleave" = None.
Proof. vm_compute. repeat split. Qed.

(** ** [main] of [s2_make_compare_png.py]: the triplet *)

Section TripletFacts.
Import Manifest CompareStage.
Variable urlparse : Download.Urlparse.

Lemma firstn_min_length {A : Type} (n : nat) (l : list A) :
  firstn (Nat.min n (length l)) l = firstn n l.
Proof.
  destruct (Nat.le_ge_cases n (length l)) as [H|H].
  - rewrite Nat.min_l by exact H. reflexivity.
  - rewrite Nat.min_r by exact H. rewrite firstn_all. symmetry. apply firstn_all2. exact H.
Qed.

Lemma check_paths_ok (exists_ : path -> bool) (ps : list (string * path)) :
  Forall (fun bp => exists_ (snd bp) = true) ps -> check_paths exists_ ps = Ok tt.
Proof.
  induction ps as [|[band p] ps IH]; intros H; simpl; [reflexivity|].
  inversion H as [|? ? Hp Hrest]; subst. simpl in Hp. rewrite Hp. simpl. exact (IH Hrest).
Qed.

Lemma check_paths_raise (exists_ : path -> bool) (ps : list (string * path)) :
  Exists (fun bp => exists_ (snd bp) = false) ps ->
  check_paths exists_ ps = Raise FileNotFoundError.
Proof.
  induction ps as [|[band p] ps IH]; intros H; simpl; [inversion H|].
  destruct (exists_ p) eqn:Ep; simpl; [|reflexivity].
  inversion H as [? ? Hp|? ? Hrest]; subst; [simpl in Hp; congruence|exact (IH Hrest)].
Qed.

Lemma check_paths_error (exists_ : path -> bool) (ps : list (string * path)) (e : exn) :
  check_paths exists_ ps = Raise e -> e = FileNotFoundError.
Proof.
  induction ps as [|[band p] ps IH]; simpl; [discriminate|].
  destruct (exists_ p); simpl; [exact IH|]. intros H. inversion H. reflexivity.
Qed.

Lemma triplet_rounds_ok (exists_ : path -> bool) (sensor : string) (cands : list Candidate) :
  Forall (fun cand => Forall (fun bp => exists_ (snd bp) = true)
                             (paths sensor (cand_id cand))) cands ->
  exists es, triplet_rounds exists_ sensor cands = Ok es /\
             List.map e_id es = List.map cand_id cands /\
             Forall (fun e => e_paths e = paths sensor (e_id e)) es.
Proof.
  induction cands as [|cand cands IH]; intros H.
  - exists []. simpl. auto.
  - inversion H as [|? ? Hc Hrest]; subst.
    destruct (IH Hrest) as (es & He & Hid & Hp).
    simpl. unfold triplet_entry. rewrite (check_paths_ok _ _ Hc). simpl. rewrite He. simpl.
    eexists. split; [reflexivity|]. simpl. split; [f_equal; exact Hid|].
    constructor; [reflexivity|exact Hp].
Qed.

Lemma triplet_rounds_raise (exists_ : path -> bool) (sensor : string) (cands : list Candidate) :
  Exists (fun cand => Exists (fun bp => exists_ (snd bp) = false)
                             (paths sensor (cand_id cand))) cands ->
  triplet_rounds exists_ sensor cands = Raise FileNotFoundError.
Proof.
  induction cands as [|cand cands IH]; intros H; [inversion H|].
  simpl. unfold triplet_entry.
  destruct (check_paths exists_ (paths sensor (cand_id cand))) as [[]|e] eqn:Ec; simpl.
  - inversion H as [? ? Hc|? ? Hrest]; subst.
    + rewrite (check_paths_raise _ _ Hc) in Ec. discriminate Ec.
    + rewrite (IH Hrest). reflexivity.
  - rewrite (check_paths_error _ _ _ Ec). reflexivity.
Qed.

Lemma triplet_of_first_three_aux (exists_ : path -> bool) (sensor : string)
    (candidates : list Candidate) :
  (Forall (fun cand => Forall (fun bp => exists_ (snd bp) = true)
                              (paths sensor (cand_id cand))) (firstn 3 candidates) ->
   exists es, triplet exists_ sensor candidates = Ok es /\
              List.map e_id es = List.map cand_id (firstn 3 candidates) /\
              length es = Nat.min 3 (length candidates) /\
              Forall (fun e => e_paths e = paths sensor (e_id e)) es) /\
  (Exists (fun cand => Exists (fun bp => exists_ (snd bp) = false)
                              (paths sensor (cand_id cand))) (firstn 3 candidates) ->
   triplet exists_ sensor candidates = Raise FileNotFoundError) /\
  triplet exists_ sensor candidates = triplet exists_ sensor (firstn 3 candidates).
Proof.
  unfold triplet. rewrite !firstn_min_length. split; [|split].
  - intros H. destruct (triplet_rounds_ok exists_ sensor _ H) as (es & He & Hid & Hp).
    exists es. split; [exact He|]. split; [exact Hid|]. split; [|exact Hp].
    rewrite <- (length_map e_id), Hid, length_map, length_firstn. reflexivity.
  - apply triplet_rounds_raise.
  - rewrite firstn_firstn. reflexivity.
Qed.

(** X25: The compare stage looks at the first three candidates of a target and
    at nothing else. When the three band files [B02_10m], [B03_10m] and
    [B04_10m] of each of them exist, the triplet holds one entry per
    candidate, in the order of the manifest, each with the candidate's
    identifier and these three paths; when one of the files is missing it
    raises [FileNotFoundError]. The candidates after the third and their
    files play no part. *)
Theorem triplet_of_first_three (exists_ : path -> bool) (sensor : string)
    (candidates : list Candidate) :
  (Forall (fun cand => Forall (fun bp => exists_ (snd bp) = true)
                              (paths sensor (cand_id cand))) (firstn 3 candidates) ->
   exists es, triplet exists_ sensor candidates = Ok es /\
              List.map e_id es = List.map cand_id (firstn 3 candidates) /\
              length es = Nat.min 3 (length candidates) /\
              Forall (fun e => e_paths e = paths sensor (e_id e)) es) /\
  (Exists (fun cand => Exists (fun bp => exists_ (snd bp) = false)
                              (paths sensor (cand_id cand))) (firstn 3 candidates) ->
   triplet exists_ sensor candidates = Raise FileNotFoundError) /\
  triplet exists_ sensor candidates = triplet exists_ sensor (firstn 3 candidates).
Proof. exact (triplet_of_first_three_aux exists_ sensor candidates). Qed.

Lemma combine_map_same {A B C : Type} (f : A -> B) (g : A -> C) (l : list A) :
  List.combine (List.map f l) (List.map g l) = List.map (fun x => (f x, g x)) l.
Proof. induction l as [|x l IH]; simpl; [reflexivity|]. rewrite IH. reflexivity. Qed.

Lemma in_firstn_in {A : Type} (n : nat) (l : list A) (x : A) : In x (firstn n l) -> In x l.
Proof.
  revert n. induction l as [|y l IH]; intros [|n] H; simpl in *; try contradiction.
  destruct H as [H|H]; [left; exact H|right; exact (IH n H)].
Qed.

(** X26: The stages compose: after a run of the download stage that returned,
    the compare stage finds every file it asks for. For a target the
    selector wrote, whose first three scenes have their three visible bands,
    the triplet is built without [FileNotFoundError] on the disk the
    download stage left; both stages name the directory of the rasters the
    same way. *)
Theorem downloaded_bands_make_the_triplet (s3 : Download.S3) (targets : list Target)
    (w w' : Download.World) (sensor : string) (target_dt : Z) (su : SearchUsed)
    (items : list Pick.Item) :
  In (target_of sensor target_dt su items) targets ->
  Forall (fun it => is_Some (Pick.pick_s2_rgb_bands it)) (firstn 3 items) ->
  Download.main urlparse s3 targets w = (Ok tt, w') ->
  exists es, triplet (on_disk w') sensor (List.map Pick.to_candidate items) = Ok es /\
             List.map e_id es = List.map Pick.id (firstn 3 items).
Proof.
  intros Ht Hb Hrun.
  assert (Hfiles : Forall (fun cand => Forall (fun bp => on_disk w' (snd bp) = true)
                                              (paths sensor (cand_id cand)))
                     (firstn 3 (List.map Pick.to_candidate items))).
  { rewrite firstn_map. apply List.Forall_forall. intros cand Hc.
    apply in_map_iff in Hc. destruct Hc as (it & <- & Hit).
    rewrite List.Forall_forall in Hb. destruct (Hb it Hit) as [b Hbands].
    apply in_firstn_in in Hit.
    destruct (rgb_bands_fields it b Hbands) as (G2 & G3 & G4).
    assert (Hin : In (Pick.to_candidate it, Pick.to_asset_entry it)
                    (List.combine (List.map Pick.to_candidate items)
                                  (List.map Pick.to_asset_entry items))).
    { rewrite combine_map_same. apply in_map_iff. exists it. auto. }
    assert (Hone : forall (short name : string),
               In (short, Pick.get_asset (Pick.assets it) name)
                  [("B02", B02 b); ("B03", B03 b); ("B04", B04 b)] ->
               is_Some (Pick.get_asset (Pick.assets it) name) ->
               on_disk w' ((dl_root ++ [sensor; Pick.id it])
                           ++ [Pick.id it +:+ "_" +:+ name +:+ ".jp2"]) = true).
    { intros short name Hsn [r Hr]. rewrite Hr in Hsn.
      destruct (download_completes_aux urlparse s3 targets w w' Hrun
                  (target_of sensor target_dt su items)
                  ((dl_root ++ [sensor; Pick.id it])
                   ++ [Pick.id it +:+ "_" +:+ name +:+ ".jp2"]) Ht)
        as (bytes & Hbytes & _).
      - unfold target_paths, target_of. cbn [res Manifest.sensor].
        apply in_flat_map. eexists. split; [exact Hin|]. cbn [fst snd].
        unfold entry_paths. rewrite path_id_selector.
        change (bands (Pick.to_asset_entry it)) with (Pick.pick_s2_rgb_bands it).
        rewrite Hbands. apply in_or_app. right. apply in_or_app. left.
        apply in_flat_map. exists (short, Some r). split; [exact Hsn|].
        rewrite (ref_paths_selector _ _ short name _ r Hr). left. reflexivity.
      - unfold on_disk. rewrite Hbytes.
        rewrite bool_decide_eq_true_2 by eauto. reflexivity. }
    assert (S2 : is_Some (B02 b) /\ is_Some (B03 b) /\ is_Some (B04 b)).
    { unfold Pick.pick_s2_rgb_bands in Hbands. rewrite !bool_decide_is_Some in Hbands.
      cbn [B02 B03 B04] in Hbands. rewrite <- G2, <- G3, <- G4 in Hbands.
      destruct (B02 b), (B03 b), (B04 b); try discriminate Hbands; eauto. }
    destruct S2 as (I2 & I3 & I4).
    unfold paths. cbn [cand_id Pick.to_candidate].
    repeat constructor; cbn [snd].
    - apply (Hone "B02" "B02_10m"); [rewrite <- G2; simpl; auto|rewrite <- G2; exact I2].
    - apply (Hone "B03" "B03_10m"); [rewrite <- G3; simpl; auto|rewrite <- G3; exact I3].
    - apply (Hone "B04" "B04_10m"); [rewrite <- G4; simpl; auto|rewrite <- G4; exact I4]. }
  destruct (proj1 (triplet_of_first_three_aux (on_disk w') sensor
                     (List.map Pick.to_candidate items)) Hfiles)
    as (es & He & Hid & _).
  exists es. split; [exact He|]. rewrite Hid, firstn_map, List.map_map. reflexivity.
Qed.

End TripletFacts.

Lemma triplet_of_first_three_witness :
  let exists_ := fun p : path => bool_decide (p ∈ full_band_files) in
  let candidates := [Pick.to_candidate item_full] in
  Forall (fun cand => Forall (fun bp => exists_ (snd bp) = true)
                             (CompareStage.paths "ICEYE" (Manifest.cand_id cand)))
         (firstn 3 candidates) /\
  exists es, CompareStage.triplet exists_ "ICEYE" candidates = Ok es /\
             List.map CompareStage.e_id es = List.map Manifest.cand_id (firstn 3 candidates) /\
             length es = Nat.min 3 (length candidates) /\
             Forall (fun e => CompareStage.e_paths e
                              = CompareStage.paths "ICEYE" (CompareStage.e_id e)) es.
Proof.
  intros exists_ candidates.
  assert (H : Forall (fun cand => Forall (fun bp => exists_ (snd bp) = true)
                                         (CompareStage.paths "ICEYE" (Manifest.cand_id cand)))
                (firstn 3 candidates)).
  { repeat constructor. }
  split; [exact H|].
  exact (proj1 (triplet_of_first_three exists_ "ICEYE" candidates) H).
Defined.

Lemma full_run_ok : fst (Download.main urlparse_lib s3_any [target_full] world_empty) = Ok tt.
Proof. vm_compute. reflexivity. Qed.

Lemma full_run_returns :
  Download.main urlparse_lib s3_any [target_full] world_empty
  = (Ok tt, snd (Download.main urlparse_lib s3_any [target_full] world_empty)).
Proof.
  pose proof full_run_ok as H.
  destruct (Download.main urlparse_lib s3_any [target_full] world_empty) as [r w1].
  simpl in *. subst r. reflexivity.
Qed.

Lemma downloaded_bands_make_the_triplet_witness :
  let w' := snd (Download.main urlparse_lib s3_any [target_full] world_empty) in
  In (target_of "ICEYE" target_2021 su_default [item_full]) [target_full] /\
  Forall (fun it => is_Some (Pick.pick_s2_rgb_bands it)) (firstn 3 [item_full]) /\
  Download.main urlparse_lib s3_any [target_full] world_empty = (Ok tt, w') /\
  exists es,
    CompareStage.triplet (on_disk w') "ICEYE" (List.map Pick.to_candidate [item_full]) = Ok es /\
    List.map CompareStage.e_id es = List.map Pick.id (firstn 3 [item_full]).
Proof.
  intros w'.
  assert (H1 : In (target_of "ICEYE" target_2021 su_default [item_full]) [target_full])
    by (left; reflexivity).
  assert (H2 : Forall (fun it => is_Some (Pick.pick_s2_rgb_bands it)) (firstn 3 [item_full])).
  { repeat constructor. eexists. vm_compute. reflexivity. }
  split; [exact H1|]. split; [exact H2|]. split; [exact full_run_returns|].
  exact (downloaded_bands_make_the_triplet urlparse_lib s3_any [target_full] world_empty w'
           "ICEYE" target_2021 su_default [item_full] H1 H2 full_run_returns).
Defined.

(** ** The selector: dates are what it fails on *)

Section SelectorErrorFacts.
Import Manifest Pick.

(** A window that is no range of dates ends the call when its tier is
    reached. *)
Lemma run_plan_overflow (client : Client) (target_dt : Z) (cfg : PickConfig) (k : Z)
    (before : list Tier) (t : Tier) (after : list Tier) (last : option Reason) :
  Forall (tier_empty client target_dt cfg) before ->
  date_range target_dt (fst t) = Raise OverflowError ->
  run_plan client target_dt cfg k (before ++ t :: after) last = Raise OverflowError.
Proof.
  intros Hb Ht. revert last. induction Hb as [|[w c] before (range & Hr & He) Hb IH];
    intros last.
  - destruct t as [w c]. simpl in *. rewrite Ht. reflexivity.
  - simpl in *. rewrite Hr. simpl. rewrite He. simpl. apply IH.
Qed.

(** With windows that are ranges of dates and items whose [datetime] parses
    the loop over the tiers returns. *)
Lemma run_plan_returns (client : Client) (target_dt : Z) (cfg : PickConfig) (k : Z)
    (tiers : list Tier) (last : option Reason) :
  Forall (fun t : Tier => exists r, date_range target_dt (fst t) = Ok r) tiers ->
  (forall q it, In it (client q) -> has_dt it) ->
  exists r, run_plan client target_dt cfg k tiers last = Ok r.
Proof.
  intros Hd Hdt. revert last. induction Hd as [|[w c] tiers [range Hr] Hd IH]; intros last.
  - simpl. eauto.
  - simpl in *. rewrite Hr. simpl.
    destruct (collect (max_items cfg) 0 (client (tier_query cfg range c)))
      as [|x items'] eqn:Ec; [apply IH|].
    rewrite sorted_items_decorate; [simpl; eauto|].
    apply List.Forall_forall. intros it Hit. rewrite <- Ec in Hit.
    exact (Hdt _ it (collect_in _ _ _ _ Hit)).
Qed.

(** X27: The selector fails on dates, and on the window of a tier before it
    searches the tier. When a tier is reached (every tier before it was
    searched and yielded nothing) whose window leaves the dates a [datetime]
    can hold (years 1 to 9999), or whose length is no [timedelta], the
    selector raises [OverflowError], whatever the catalog holds for that tier
    and the later ones. When the window of every tier is a range of dates and
    every item the catalog returns has a [datetime] that parses, the selector
    returns, whatever the cloud cover (absent, unparsable, NaN) and the
    assets of the items. *)
Theorem selector_fails_on_dates (client : Client) (target_dt : Z) (cfg : PickConfig)
    (k : Z) :
  (forall (before : list Tier) (t : Tier) (after : list Tier),
     plan cfg = before ++ t :: after ->
     Forall (tier_empty client target_dt cfg) before ->
     date_range target_dt (fst t) = Raise OverflowError ->
     pick_topk_items client target_dt cfg k = Raise OverflowError) /\
  (Forall (fun t : Tier => exists r, date_range target_dt (fst t) = Ok r) (plan cfg) ->
   (forall q it, In it (client q) -> has_dt it) ->
   exists r, pick_topk_items client target_dt cfg k = Ok r).
Proof.
  split.
  - intros before t after Hp Hb Ht. unfold pick_topk_items. rewrite Hp.
    apply run_plan_overflow; assumption.
  - intros Hd Hdt. unfold pick_topk_items. apply run_plan_returns; assumption.
Qed.

End SelectorErrorFacts.

Lemma selector_fails_on_dates_witness :
  let t2 : Pick.Tier := (5, Pick.f40) in
  (Pick.plan cfg_default = [(3, F64.of_Z 20)] ++ t2 :: [(10, Pick.f100)] /\
   Forall (tier_empty client_wide target_year_1 cfg_default) [(3, F64.of_Z 20)] /\
   Pick.date_range target_year_1 (fst t2) = Raise OverflowError /\
   Pick.pick_topk_items client_wide target_year_1 cfg_default 3 = Raise OverflowError) /\
  (Forall (fun t : Pick.Tier => exists r, Pick.date_range target_2021 (fst t) = Ok r)
          (Pick.plan cfg_default) /\
   (forall q it, In it (client_no_cloud q) -> has_dt it) /\
   exists r, Pick.pick_topk_items client_no_cloud target_2021 cfg_default 3 = Ok r).
Proof.
  intros t2.
  assert (H1 : Pick.plan cfg_default = [(3, F64.of_Z 20)] ++ t2 :: [(10, Pick.f100)])
    by reflexivity.
  assert (H2 : Forall (tier_empty client_wide target_year_1 cfg_default) [(3, F64.of_Z 20)]).
  { repeat constructor. exists (1, 7). split; reflexivity. }
  assert (H3 : Pick.date_range target_year_1 (fst t2) = Raise OverflowError) by reflexivity.
  assert (H4 : Forall (fun t : Pick.Tier => exists r, Pick.date_range target_2021 (fst t) = Ok r)
                 (Pick.plan cfg_default)).
  { unfold Pick.plan. repeat constructor; eexists; reflexivity. }
  assert (H5 : forall q it, In it (client_no_cloud q) -> has_dt it).
  { intros q it [E|[E|[]]]; subst it; eexists; reflexivity. }
  split.
  - split; [exact H1|]. split; [exact H2|]. split; [exact H3|].
    exact (proj1 (selector_fails_on_dates client_wide target_year_1 cfg_default 3)
             _ _ _ H1 H2 H3).
  - split; [exact H4|]. split; [exact H5|].
    exact (proj2 (selector_fails_on_dates client_no_cloud target_2021 cfg_default 3) H4 H5).
Defined.

(** ** The stretch: pixels without data *)

Section ValidSampleFacts.

Variable percentile : Np.Percentile.

(** X28: "Handle nodata/zeros robustly": the range of a channel with at least a
    hundred valid samples (finite and positive) depends on the valid samples
    only. Two channels with the same valid samples, whatever zeros, negative
    values, infinities and NaNs lie between them, get the same range, in
    both copies of [normalize_rgb_uint8]. *)
Theorem range_depends_on_valid_samples (c1 c2 : list spec_float) :
  Np.positive_finite c1 = Np.positive_finite c2 ->
  (100 <= length (Np.positive_finite c1))%nat ->
  ComparePng.channel_range percentile c1 = ComparePng.channel_range percentile c2 /\
  Top3Compare.channel_range percentile c1 = Top3Compare.channel_range percentile c2.
Proof.
  intros Hv Hn.
  assert (E1 : (length (Np.positive_finite c1) <? 100)%nat = false)
    by (apply Nat.ltb_ge; exact Hn).
  assert (E2 : (length (Np.positive_finite c2) <? 100)%nat = false)
    by (rewrite <- Hv; exact E1).
  unfold ComparePng.channel_range, Top3Compare.channel_range,
    ComparePng.percentiles, Top3Compare.percentiles.
  rewrite E1, E2, <- Hv. split; reflexivity.
Qed.

End ValidSampleFacts.

Lemma range_depends_on_valid_samples_witness :
  Np.positive_finite chan_hundred_nodata = Np.positive_finite chan_hundred /\
  (100 <= length (Np.positive_finite chan_hundred_nodata))%nat /\
  ComparePng.channel_range percentile_linear chan_hundred_nodata
  = ComparePng.channel_range percentile_linear chan_hundred /\
  Top3Compare.channel_range percentile_linear chan_hundred_nodata
  = Top3Compare.channel_range percentile_linear chan_hundred.
Proof.
  assert (H1 : Np.positive_finite chan_hundred_nodata = Np.positive_finite chan_hundred)
    by (vm_compute; reflexivity).
  assert (H2 : (100 <= length (Np.positive_finite chan_hundred_nodata))%nat)
    by (vm_compute; lia).
  split; [exact H1|]. split; [exact H2|].
  exact (range_depends_on_valid_samples percentile_linear chan_hundred_nodata chan_hundred
           H1 H2).
Defined.

(** ** The selector: the candidates are the best of the pool *)

Section BestFacts.
Import Manifest Pick.

Lemma strongly_sorted_split {A : Type} (R : A -> A -> Prop) (l1 l2 : list A) :
  StronglySorted R (l1 ++ l2) -> forall x y, In x l1 -> In y l2 -> R x y.
Proof.
  induction l1 as [|a l1 IH]; intros Hs x y Hx Hy; [destruct Hx|].
  simpl in Hs. apply StronglySorted_inv in Hs. destruct Hs as [Hs Hf].
  destruct Hx as [<-|Hx].
  - apply (proj1 (List.Forall_forall _ _) Hf). apply in_or_app. right. exact Hy.
  - exact (IH Hs x y Hx Hy).
Qed.

(** X29: No scene left out ranks before a scene returned. When every item of the
    catalog can be ranked, the pool of the tier used splits into the
    candidates returned and the rest, and every candidate is at least as
    good as every item of the rest in the order of the key (cloud cover,
    then distance to the target, then acquisition instant). *)
Theorem candidates_are_the_best (client : Client) (target_dt : Z) (cfg : PickConfig)
    (k : Z) (td : Z) (su : SearchUsed) (cands : list Candidate) (assets : list AssetEntry) :
  (forall q it, In it (client q) -> scorable it) ->
  pick_topk_items client target_dt cfg k = Ok (StatusOk td su cands assets) ->
  exists (range : Z * Z) (chosen rest : list Item),
    date_range target_dt (used_window_days su) = Ok range /\
    Permutation (chosen ++ rest) (pool_of client cfg range (used_cloud_lt su)) /\
    cands = List.map to_candidate chosen /\
    assets = List.map to_asset_entry chosen /\
    forall x y, In x chosen -> In y rest ->
                key_le (key_of target_dt x) (key_of target_dt y).
Proof.
  intros Hsc H. unfold pick_topk_items in H.
  destruct (run_plan_ok_inv _ _ _ _ _ _ _ _ _ _ H)
    as (before & after & range & ranked & _ & _ & Hr & _ & Hs & _ & _ & _ & Hc & Ha).
  assert (Hpool : Forall scorable (pool_of client cfg range (used_cloud_lt su))).
  { apply List.Forall_forall. intros it Hit. unfold pool_of in Hit.
    apply collect_in in Hit. exact (Hsc _ _ Hit). }
  destruct (sorted_items_sorted target_dt _ Hpool) as (ranked' & Hs' & Hperm & Hsorted).
  rewrite Hs in Hs'. inversion Hs'; subst ranked'. clear Hs'.
  destruct (slice_to_firstn ranked k) as [n Hn]. rewrite Hn in Hc, Ha.
  exists range, (firstn n ranked), (skipn n ranked).
  split; [exact Hr|]. split; [rewrite firstn_skipn; exact Hperm|].
  split; [exact Hc|]. split; [exact Ha|].
  intros x y Hx Hy.
  rewrite <- (firstn_skipn n ranked), List.map_app in Hsorted.
  apply (strongly_sorted_split key_le _ _ Hsorted); apply in_map; assumption.
Qed.

End BestFacts.

Lemma candidates_are_the_best_witness :
  (forall q it, In it (client_three q) -> scorable it) /\
  Pick.pick_topk_items client_three target_2021 cfg_default 2
  = Ok (Manifest.StatusOk target_2021 su_default
          [Pick.to_candidate item_5; Pick.to_candidate item_15]
          [Pick.to_asset_entry item_5; Pick.to_asset_entry item_15]) /\
  exists (range : Z * Z) (chosen rest : list Pick.Item),
    Pick.date_range target_2021 (Manifest.used_window_days su_default) = Ok range /\
    Permutation (chosen ++ rest)
                (pool_of client_three cfg_default range (Manifest.used_cloud_lt su_default)) /\
    [Pick.to_candidate item_5; Pick.to_candidate item_15] = List.map Pick.to_candidate chosen /\
    [Pick.to_asset_entry item_5; Pick.to_asset_entry item_15]
    = List.map Pick.to_asset_entry chosen /\
    forall x y, In x chosen -> In y rest ->
                key_le (key_of target_2021 x) (key_of target_2021 y).
Proof.
  assert (H : forall q it, In it (client_three q) -> scorable it).
  { intros q it [<-|[<-|[<-|[]]]]; (split; [eexists; reflexivity|reflexivity]). }
  split; [exact H|]. split; [exact pick_three_scenes|].
  exact (candidates_are_the_best client_three target_2021 cfg_default 2 _ _ _ _
           H pick_three_scenes).
Defined.

(** ** The selector: asking for more candidates *)

Section MoreFacts.
Import Manifest Pick.

Lemma firstn_extend {A : Type} (n m : nat) (l : list A) :
  (n <= m)%nat -> firstn m l = firstn n l ++ firstn (m - n) (skipn n l).
Proof.
  revert m l. induction n as [|n IH]; intros m l H.
  - rewrite Nat.sub_0_r. reflexivity.
  - destruct m as [|m]; [lia|].
    destruct l as [|x l]; [simpl; destruct (m - n)%nat; reflexivity|].
    simpl. f_equal. apply IH. lia.
Qed.

(** X30: Asking for more candidates never changes the ones already given:
    for [0 <= k <= k'] the result for [k'] has the same status, the same
    search and, when it is [ok], the candidates and the asset entries for
    [k] followed by further ones. *)
Theorem more_candidates_extend_fewer (client : Client) (target_dt : Z) (cfg : PickConfig)
    (k k' : Z) (td : Z) (su : SearchUsed) (cands : list Candidate) (assets : list AssetEntry) :
  0 <= k <= k' ->
  pick_topk_items client target_dt cfg k = Ok (StatusOk td su cands assets) ->
  exists (more : list Candidate) (more_assets : list AssetEntry),
    pick_topk_items client target_dt cfg k'
    = Ok (StatusOk td su (cands ++ more) (assets ++ more_assets)) /\
    length more = length more_assets.
Proof.
  intros Hk H. unfold pick_topk_items in *.
  destruct (run_plan_k client target_dt cfg (plan cfg) None)
    as [[e He]|[[reason Hr]|(su' & ranked & Hs)]].
  - rewrite He in H. discriminate H.
  - rewrite Hr in H. discriminate H.
  - rewrite Hs in H. inversion H; subst. rewrite Hs.
    assert (E : slice_to ranked k'
                = slice_to ranked k
                  ++ firstn (Z.to_nat k' - Z.to_nat k) (skipn (Z.to_nat k) ranked)).
    { unfold slice_to.
      destruct (k <? 0) eqn:E1; [apply Z.ltb_lt in E1; lia|].
      destruct (k' <? 0) eqn:E2; [apply Z.ltb_lt in E2; lia|].
      apply firstn_extend. lia. }
    rewrite E, !List.map_app. eexists _, _. split; [reflexivity|].
    rewrite !length_map. reflexivity.
Qed.

End MoreFacts.

Lemma more_candidates_extend_fewer_witness :
  0 <= 2 <= 3 /\
  Pick.pick_topk_items client_three target_2021 cfg_default 2
  = Ok (Manifest.StatusOk target_2021 su_default
          [Pick.to_candidate item_5; Pick.to_candidate item_15]
          [Pick.to_asset_entry item_5; Pick.to_asset_entry item_15]) /\
  exists (more : list Manifest.Candidate) (more_assets : list Manifest.AssetEntry),
    Pick.pick_topk_items client_three target_2021 cfg_default 3
    = Ok (Manifest.StatusOk target_2021 su_default
            ([Pick.to_candidate item_5; Pick.to_candidate item_15] ++ more)
            ([Pick.to_asset_entry item_5; Pick.to_asset_entry item_15] ++ more_assets)) /\
    length more = length more_assets.
Proof.
  assert (H : 0 <= 2 <= 3) by lia.
  split; [exact H|]. split; [exact pick_three_scenes|].
  exact (more_candidates_extend_fewer client_three target_2021 cfg_default 2 3 _ _ _ _
           H pick_three_scenes).
Defined.

(** ** The properties above on the scenes of the examples *)

Lemma bands_all_or_nothing_witness :
  let b := {| Manifest.B02 := Some (full_ref "B02_10m"); Manifest.B03 := Some (full_ref "B03_10m");
              Manifest.B04 := Some (full_ref "B04_10m") |} in
  Pick.pick_s2_rgb_bands item_full = Some b /\
  is_Some (Manifest.B02 b) /\ is_Some (Manifest.B03 b) /\ is_Some (Manifest.B04 b).
Proof.
  intros b.
  assert (H : Pick.pick_s2_rgb_bands item_full = Some b) by (vm_compute; reflexivity).
  split; [exact H|].
  exact (proj1 (proj2 (bands_all_or_nothing item_full)) b H).
Defined.

Lemma download_keeps_existing_files_witness :
  let p := ["downloads";"S2_TOPK_JP2";"ICEYE";"scene-05";"scene-05_TCI_10m.jp2"] in
  nonempty_at (Download.files world_one_file) p /\
  Download.files (snd (Download.main urlparse_lib s3_any [target_full] world_one_file)) !! p
  = Download.files world_one_file !! p.
Proof.
  intros p.
  assert (H : nonempty_at (Download.files world_one_file) p).
  { exists Byte.x4a, [Byte.x50]. reflexivity. }
  split; [exact H|].
  exact (proj1 (download_keeps_existing_files urlparse_lib s3_any [target_full] world_one_file) p H).
Defined.

Lemma download_touches_only_listed_witness :
  let p := ["downloads";"notes.txt"] in
  ~ listed [target_one_file] p /\
  Download.files (snd (Download.main urlparse_lib s3_any [target_one_file] world_empty)) !! p
  = Download.files world_empty !! p.
Proof.
  intros p.
  assert (H : ~ listed [target_one_file] p).
  { intros (t & [<-|[]] & Hp). simpl in Hp. destruct Hp as [E|[]]. discriminate E. }
  split; [exact H|].
  exact (proj1 (download_touches_only_listed urlparse_lib s3_any [target_one_file] world_empty) p H).
Defined.


Lemma write_geotiff_profile_keeps_grid_witness :
  ("transform" ∉ ["driver"; "dtype"; "count"; "nodata"; "compress"; "predictor"; "tiled";
                  "photometric"; "interleave"]) /\
  Geotiff.write_geotiff_profile profile_jp2 !! "transform" = profile_jp2 !! "transform".
Proof.
  assert (H : "transform" ∉ ["driver"; "dtype"; "count"; "nodata"; "compress"; "predictor";
                             "tiled"; "photometric"; "interleave"]).
  { rewrite !not_elem_of_cons. repeat split; try discriminate. apply not_elem_of_nil. }
  split; [exact H|].
  exact (proj1 (write_geotiff_profile_keeps_grid profile_jp2) "transform" H).
Defined.
